(** * Hourly Divvy trip predictor: the feature pipeline

    A shallow embedding of [src/feature_pipeline/feature_engineering.py]:
    the two geocoding classes ([Geocoder], [ReverseGeocoder]) and the four
    feature engineering functions, followed by the properties of the
    specification that concern them.

    Python objects that are updated in place (data frames, the list of new
    station records) are modelled with explicit state; exceptions are
    modelled by the [result] type; the two web services are functions of the
    requests made so far. *)

From Stdlib Require Import ZArith List String Ascii Bool Lia.
From Stdlib Require Import Floats.PrimFloat Uint63.
Import ListNotations.

Open Scope string_scope.
Open Scope Z_scope.

(** ** Exceptions and results *)

(** The Python exceptions that the modelled code can raise. [ServiceError]
    stands for whatever a geocoding service raises (time-out, network
    failure, ...), carrying its message. *)
Inductive exn : Type :=
| KeyError
| ValueError
| TypeError
| IndexError
| AttributeError
| AssertionError
| ServiceError (msg : string).

Inductive result (A : Type) : Type :=
| Ok (a : A)
| Err (e : exn).

Arguments Ok {A} a.
Arguments Err {A} e.

Definition is_ok {A} (r : result A) : bool :=
  match r with Ok _ => true | Err _ => false end.

(** ** Python dictionaries

    A [dict] keeps its keys in insertion order; assigning to a key that is
    already there keeps its place.  Keys are strings throughout. *)

Definition dict (V : Type) : Type := list (string * V).

Fixpoint dict_get {V} (d : dict V) (k : string) : option V :=
  match d with
  | [] => None
  | (k', v) :: d' => if String.eqb k k' then Some v else dict_get d' k
  end.

Definition dict_mem {V} (d : dict V) (k : string) : bool :=
  match dict_get d k with Some _ => true | None => false end.

Fixpoint dict_set {V} (d : dict V) (k : string) (v : V) : dict V :=
  match d with
  | [] => [(k, v)]
  | (k', v') :: d' =>
      if String.eqb k k' then (k', v) :: d' else (k', v') :: dict_set d' k v
  end.

Definition dict_keys {V} (d : dict V) : list string := map fst d.

(** ** numpy *)

(** [np.arange(start, stop)] on integers: [start, start+1, ..., stop-1],
    empty when [stop <= start]. *)
Definition arange (start stop : Z) : list Z :=
  map (fun i => start + Z.of_nat i) (seq 0 (Z.to_nat (stop - start))).

(** Python's [max] of a list of integers; [ValueError] on the empty list. *)
Definition py_max (l : list Z) : result Z :=
  match l with
  | [] => Err ValueError
  | x :: xs => Ok (fold_left Z.max xs x)
  end.

(** [subseq l l']: [l] is [l'] with some of its elements left out, the
    others in their order. *)
Inductive subseq {A : Type} : list A -> list A -> Prop :=
| subseq_nil : subseq [] []
| subseq_skip x l l' : subseq l l' -> subseq l (x :: l')
| subseq_take x l l' : subseq l l' -> subseq (x :: l) (x :: l').

(** ** ReverseGeocoder *)

Section ReverseGeocoder.

(** Coordinates, with the test [==] that Python's [in] performs on them
    (on pairs of floats, component by component); nothing is assumed of it
    here. *)
Variable coord : Type.
Variable coord_eqb : coord -> coord -> bool.

(** A station record [{"station_name": ..., "coordinate": ...}], with the
    ["station_id"] key once it has been given. *)
Record station : Type := mkStation {
  station_id : option Z;
  station_name : string;
  coordinate : coord
}.

(** What [geocoder.reverse(query=coordinate, timeout=120)] does: it
    returns a location, returns [None], or raises. *)
Inductive reverse_outcome : Type :=
| Address (a : string)
| NoAddress
| ReverseRaises (e : exn).

(** A reverse geocoding service answers a query given the queries it has
    received before (most recent first). *)
Definition reverse_service : Type := list coord -> coord -> reverse_outcome.

(** [str(geocoder.reverse(...))]: the text of the location, and the text
    ["None"] when the service has no result; [Err] when it raises. *)
Definition str_reverse (o : reverse_outcome) : result string :=
  match o with
  | Address a => Ok a
  | NoAddress => Ok "None"
  | ReverseRaises e => Err e
  end.

(** The local variables of [reverse_geocode], with the queries that each
    service has received. *)
Record rg_state : Type := mkRg {
  encountered_coordinates : list coord;
  new_geodata : list station;
  primary_queries : list coord;
  secondary_queries : list coord
}.

(** [c in l]: some element [e] of the list has [e == c]. *)
Definition py_in (c : coord) (l : list coord) : bool :=
  existsb (fun e => coord_eqb e c) l.

(** No element of [l] passes the test [in] against [seen] and the elements
    of [l] before it. *)
Fixpoint no_repeat (seen l : list coord) : bool :=
  match l with
  | [] => true
  | c :: l' => negb (py_in c seen) && no_repeat (seen ++ [c]) l'
  end.

Definition rg_record (st : rg_state) (c : coord) (address : string)
    (pq sq : list coord) : rg_state :=
  {| encountered_coordinates := encountered_coordinates st ++ [c];
     new_geodata := new_geodata st ++ [mkStation None address c];
     primary_queries := pq;
     secondary_queries := sq |}.

(** One iteration of the loop of [reverse_geocode]. *)
Definition rg_step (primary secondary : reverse_service)
    (st : rg_state) (c : coord) : rg_state :=
  if py_in c (encountered_coordinates st) then st
  else
    let pq := c :: primary_queries st in
    match str_reverse (primary (primary_queries st) c) with
    | Ok address => rg_record st c address pq (secondary_queries st)
    | Err _ =>
        let sq := c :: secondary_queries st in
        match str_reverse (secondary (secondary_queries st) c) with
        | Ok address => rg_record st c address pq sq
        | Err _ =>
            (* continue: the coordinate is ignored *)
            {| encountered_coordinates := encountered_coordinates st;
               new_geodata := new_geodata st;
               primary_queries := pq;
               secondary_queries := sq |}
        end
    end.

Definition rg_init : rg_state := mkRg [] [] [] [].

Definition rg_run (primary secondary : reverse_service)
    (coordinates : list coord) (st : rg_state) : rg_state :=
  fold_left (rg_step primary secondary) coordinates st.

Definition reverse_geocode (primary secondary : reverse_service)
    (coordinates : list coord) : list station :=
  new_geodata (rg_run primary secondary coordinates rg_init).

(** A record is added for [c] with the name [a] when a service gave [a]
    for [c]. *)
Definition resolved (primary secondary : reverse_service)
    (c : coord) (a : string) : Prop :=
  (exists h, str_reverse (primary h c) = Ok a)
  \/ (exists h, str_reverse (secondary h c) = Ok a).

(** What holds of the state throughout the loop. *)
Record rg_invariant (primary secondary : reverse_service)
    (st : rg_state) : Prop := {
  inv_coordinates :
    map coordinate (new_geodata st) = encountered_coordinates st;
  inv_no_repeat :
    no_repeat [] (encountered_coordinates st) = true;
  inv_resolved :
    forall r, In r (new_geodata st) ->
              resolved primary secondary (coordinate r) (station_name r)
}.

(** *** give_ids_to_the_new_names *)

(** First loop: the distinct ["station_id"] values of the saved geodata,
    in order of appearance. *)
Fixpoint established_ids_loop (saved_geodata : list station)
    (established_ids : list Z) : result (list Z) :=
  match saved_geodata with
  | [] => Ok established_ids
  | station_information :: rest =>
      match station_id station_information with
      | None => Err KeyError
      | Some id =>
          established_ids_loop rest
            (if existsb (Z.eqb id) established_ids then established_ids
             else established_ids ++ [id])
      end
  end.

Definition set_station_id (id : Z) (s : station) : station :=
  mkStation (Some id) (station_name s) (coordinate s).

(** Second loop: [new_information["station_id"] = new_ids[new_id_index]].
    The records are updated in place, so the first component is the
    content of the list when the loop ends or raises. *)
Fixpoint assign_ids_loop (new_ids : list Z) (new_id_index : nat)
    (records : list station) : list station * result unit :=
  match records with
  | [] => ([], Ok tt)
  | new_information :: rest =>
      match nth_error new_ids new_id_index with
      | None => (records, Err IndexError)
      | Some id =>
          let (rest', r) := assign_ids_loop new_ids (S new_id_index) rest in
          (set_station_id id new_information :: rest', r)
      end
  end.

(** The first component is the content of [new_addresses_and_coordinates]
    after the call; the second is the value returned (that same list) or
    the exception raised. *)
Definition give_ids_to_the_new_names
    (new_addresses_and_coordinates saved_geodata : list station)
    : list station * result (list station) :=
  match established_ids_loop saved_geodata [] with
  | Err e => (new_addresses_and_coordinates, Err e)
  | Ok established_ids =>
      match py_max established_ids with
      | Err e => (new_addresses_and_coordinates, Err e)
      | Ok m =>
          let new_ids :=
            arange (m + 1)
              (Z.of_nat (List.length established_ids)
               + Z.of_nat (List.length new_addresses_and_coordinates) + 1) in
          match assign_ids_loop new_ids 0 new_addresses_and_coordinates with
          | (records, Ok _) => (records, Ok records)
          | (records, Err e) => (records, Err e)
          end
      end
  end.

End ReverseGeocoder.

Arguments mkStation {coord}.
Arguments station_id {coord}.
Arguments station_name {coord}.
Arguments coordinate {coord}.
Arguments give_ids_to_the_new_names {coord}.
Arguments reverse_geocode {coord}.
Arguments no_repeat {coord}.
Arguments py_in {coord}.
Arguments rg_step {coord}.
Arguments rg_run {coord}.
Arguments rg_init {coord}.
Arguments encountered_coordinates {coord}.
Arguments new_geodata {coord}.

(** Coordinates as pairs of floats, compared as Python compares tuples of
    floats. *)
Definition point : Type := (float * float)%type.

Definition point_eqb (a b : point) : bool :=
  (PrimFloat.eqb (fst a) (fst b) && PrimFloat.eqb (snd a) (snd b))%bool.

(** ** The world: data frames and geocoding requests *)

(** A column of a data frame, by dtype: [int64]; [float64], where NaN is the
    missing value; strings ([object] dtype, or [category] when the flag is
    set), none of them missing; [datetime64[ns]] as nanoseconds since the
    epoch, where [None] is [NaT]. *)
Inductive column : Type :=
| IntCol (xs : list Z)
| FloatCol (xs : list float)
| StrCol (categorical : bool) (xs : list string)
| TimeCol (xs : list (option Z)).

(** A data frame: its row labels (integers, as in the default index) and
    its columns in order.  The frames of the pipeline have distinct column
    labels and columns as long as the index. *)
Record DataFrame : Type := mkFrame {
  row_labels : list Z;
  columns : dict column
}.

Definition ref : Type := nat.

Inductive provider : Type := Nominatim | Photon.

(** A geocoding request: the service and the text sent. *)
Definition request : Type := (provider * string)%type.

(** The objects a run works on: the data frames, addressed by reference
    (two names of one frame are one reference), and the geocoding requests
    issued so far, most recent first. *)
Record world : Type := mkWorld {
  frames : list DataFrame;
  requests : list request
}.

(** Computations that read and update the world and may raise.  The world
    that comes with an exception is the one in which it was raised. *)
Definition M (A : Type) : Type := world -> world * result A.

Definition ret {A} (a : A) : M A := fun w => (w, Ok a).

Definition raise {A} (e : exn) : M A := fun w => (w, Err e).

Definition bind {A B} (c : M A) (k : A -> M B) : M B :=
  fun w =>
    match c w with
    | (w', Ok a) => k a w'
    | (w', Err e) => (w', Err e)
    end.

(** [try: c except: h], where [h] receives the exception. *)
Definition catch {A} (c : M A) (h : exn -> M A) : M A :=
  fun w =>
    match c w with
    | (w', Ok a) => (w', Ok a)
    | (w', Err e) => h e w'
    end.

Declare Scope monad_scope.
Delimit Scope monad_scope with monad.

Notation "x <- c1 ;; c2" := (bind c1 (fun x => c2))
  (at level 61, c1 at next level, right associativity) : monad_scope.
Notation "' pat <- c1 ;; c2" := (bind c1 (fun x => match x with pat => c2 end))
  (at level 61, pat pattern, c1 at next level, right associativity)
  : monad_scope.
Notation "c1 ;; c2" := (bind c1 (fun _ => c2))
  (at level 61, right associativity) : monad_scope.

Open Scope monad_scope.

(** [assert b] *)
Definition py_assert (b : bool) : M unit :=
  if b then ret tt else raise AssertionError.

(** *** Access to the frames *)

(** The frame behind a reference.  A reference to no frame does not occur in
    Python; the model answers it with [KeyError]. *)
Definition frame_of (df : ref) : M DataFrame :=
  fun w =>
    match nth_error (frames w) df with
    | Some t => (w, Ok t)
    | None => (w, Err KeyError)
    end.

Fixpoint list_update {A} (l : list A) (n : nat) (a : A) : list A :=
  match l, n with
  | [], _ => []
  | _ :: l', O => a :: l'
  | x :: l', S n' => x :: list_update l' n' a
  end.

(** The world in which the frame behind [df] has become [t]. *)
Definition with_frame (w : world) (df : ref) (t : DataFrame) : world :=
  mkWorld (list_update (frames w) df t) (requests w).

Definition put_frame (df : ref) (t : DataFrame) : M unit :=
  fun w => (with_frame w df t, Ok tt).

(** A new frame object; its reference is returned. *)
Definition new_frame (t : DataFrame) : M ref :=
  fun w => (mkWorld (frames w ++ [t]) (requests w), Ok (List.length (frames w))).

(** ** pandas *)

Definition has_column (t : DataFrame) (label : string) : bool :=
  dict_mem (columns t) label.

(** [df[label]]: [KeyError] when there is no such column. *)
Definition getitem (df : ref) (label : string) : M column :=
  t <- frame_of df ;;
  match dict_get (columns t) label with
  | Some c => ret c
  | None => raise KeyError
  end.

(** [df[label] = c], for a column [c] on the index of [df]: the column is
    replaced where it stands, or added last. *)
Definition setitem (df : ref) (label : string) (c : column) : M unit :=
  t <- frame_of df ;;
  put_frame df (mkFrame (row_labels t) (dict_set (columns t) label c)).

(** [df.insert(loc=df.shape[1], column=label, value=c)]: the column is added
    last; [ValueError] when the label is already there. *)
Definition insert_last (df : ref) (label : string) (c : column) : M unit :=
  t <- frame_of df ;;
  if has_column t label then raise ValueError
  else put_frame df (mkFrame (row_labels t) (columns t ++ [(label, c)])%list).

Definition without_column (t : DataFrame) (label : string) : DataFrame :=
  mkFrame (row_labels t)
    (filter (fun kv => negb (String.eqb (fst kv) label)) (columns t)).

(** [df.drop(label, axis=1)]: a new frame without the column; [KeyError]
    when there is no such column.  [df] itself is left as it is. *)
Definition drop (df : ref) (label : string) : M ref :=
  t <- frame_of df ;;
  if has_column t label then new_frame (without_column t label)
  else raise KeyError.

(** The int64 that a wrapped-around sum stands for. *)
Definition wrap64 (z : Z) : Z := (z + 2 ^ 63) mod 2 ^ 64 - 2 ^ 63.


(** int64 to float64, rounding to nearest. *)
Definition float_of_int64 (z : Z) : float :=
  if z =? - 2 ^ 63 then (- 9223372036854775808)%float
  else if z <? 0 then (- PrimFloat.of_uint63 (Uint63.of_Z (- z)))%float
  else PrimFloat.of_uint63 (Uint63.of_Z z).

Fixpoint map2 {A B C} (f : A -> B -> C) (l : list A) (l' : list B) : list C :=
  match l, l' with
  | a :: l, b :: l' => f a b :: map2 f l l'
  | _, _ => []
  end.

(** [a + b] on two columns of one frame.  Numeric columns add row by row,
    int64 wrapping around and int64 meeting float64 converted to it.  On
    [object] columns the operator is Python's, row by row: strings
    concatenate, a string and a number raise [TypeError] (when there is a
    row to meet).  Categories and timestamps do not add. *)
Definition col_add (a b : column) : result column :=
  match a, b with
  | IntCol xs, IntCol ys => Ok (IntCol (map2 (fun x y => wrap64 (x + y)) xs ys))
  | IntCol xs, FloatCol ys =>
      Ok (FloatCol (map2 (fun x y => (float_of_int64 x + y)%float) xs ys))
  | FloatCol xs, IntCol ys =>
      Ok (FloatCol (map2 (fun x y => (x + float_of_int64 y)%float) xs ys))
  | FloatCol xs, FloatCol ys =>
      Ok (FloatCol (map2 (fun x y => (x + y)%float) xs ys))
  | StrCol false xs, StrCol false ys =>
      Ok (StrCol false (map2 String.append xs ys))
  | StrCol false [], (IntCol _ | FloatCol _)
  | (IntCol _ | FloatCol _), StrCol false [] => Ok (StrCol false [])
  | _, _ => Err TypeError
  end.

(** [0.25 * a]: a float64 column for a numeric [a]; a string times a float
    raises [TypeError]. *)
Definition col_quarter (a : column) : result column :=
  match a with
  | IntCol xs => Ok (FloatCol (map (fun x => (0.25 * float_of_int64 x)%float) xs))
  | FloatCol xs => Ok (FloatCol (map (fun x => (0.25 * x)%float) xs))
  | StrCol false [] => Ok (StrCol false [])
  | _ => Err TypeError
  end.

Definition lift_result {A} (r : result A) : M A :=
  match r with Ok a => ret a | Err e => raise e end.

(** [c.isna().sum()] *)
Definition isna_sum (c : column) : Z :=
  match c with
  | IntCol _ => 0
  | FloatCol xs => Z.of_nat (List.length (filter PrimFloat.is_nan xs))
  | StrCol _ _ => 0
  | TimeCol xs =>
      Z.of_nat
        (List.length
           (filter (fun x => match x with None => true | Some _ => false end) xs))
  end.

(** [c.isna().sum() != 0] for the column [label] of [t]. *)
Definition has_nulls (t : DataFrame) (label : string) : bool :=
  match dict_get (columns t) label with
  | Some c => negb (isna_sum c =? 0)
  | None => false
  end.

(** The engineered columns are not both there and free of nulls. *)
Definition postcondition_violated (t : DataFrame) : bool :=
  negb (has_column t "day_of_the_week")
  || negb (has_column t "average_trips_last_4_weeks")
  || has_nulls t "day_of_the_week"
  || has_nulls t "average_trips_last_4_weeks".

(** Timestamps: nanoseconds since 1970-01-01 00:00, a Thursday. *)
Definition Timestamp : Type := Z.

Definition ns_per_hour : Z := 3600 * 1000000000.
Definition ns_per_day : Z := 24 * ns_per_hour.

(** [x.hour] *)
Definition hour (x : Timestamp) : Z := (x / ns_per_hour) mod 24.

(** [x.dayofweek], Monday being 0. *)
Definition dayofweek (x : Timestamp) : Z := (x / ns_per_day + 3) mod 7.

Definition all_some {A} (xs : list (option A)) : bool :=
  forallb (fun x => match x with Some _ => true | None => false end) xs.

(** [s.apply(lambda x: f(x))] on timestamps, for an integer attribute [f]:
    [NaT] gives NaN, and then the column is float64; without [NaT] it is
    int64. *)
Definition apply_attr (f : Timestamp -> Z) (xs : list (option Timestamp))
    : column :=
  if all_some xs then
    IntCol (map (fun x => match x with Some t => f t | None => 0 end) xs)
  else
    FloatCol
      (map (fun x => match x with
                     | Some t => float_of_int64 (f t)
                     | None => PrimFloat.nan
                     end) xs).

(** Row [i] of a numeric column holds the integer [z] (as an int64, or as
    the float64 of that integer). *)
Definition int_at (c : column) (i : nat) (z : Z) : Prop :=
  match c with
  | IntCol xs => nth_error xs i = Some z
  | FloatCol xs => nth_error xs i = Some (float_of_int64 z)
  | _ => False
  end.

(** Row [i] of a column is missing: NaN, or [NaT]. *)
Definition null_at (c : column) (i : nat) : Prop :=
  match c with
  | FloatCol xs => exists x, nth_error xs i = Some x /\ PrimFloat.is_nan x = true
  | TimeCol xs => nth_error xs i = Some None
  | _ => False
  end.

(** [pd.Series(values)] put on the index of a frame: the row labelled [i]
    takes [values[i]]; a label with no value takes NaN. *)
Definition series_on (idx : list Z) (values : list float) : column :=
  FloatCol
    (map (fun i =>
            if i <? 0 then PrimFloat.nan
            else nth (Z.to_nat i) values PrimFloat.nan) idx).

(** The values of a column in order of first appearance. *)
Fixpoint dedup {A} (eqb : A -> A -> bool) (seen : list A) (l : list A)
    : list A :=
  match l with
  | [] => []
  | x :: l' =>
      if existsb (eqb x) seen then dedup eqb seen l'
      else x :: dedup eqb (x :: seen) l'
  end.

(** What [Series.unique()] returns: a numpy array, or for a column of
    categories a pandas [Categorical]. *)
Inductive unique_values : Type :=
| NdArray (values : column)
| CategoricalArray (values : list string).

Definition same_float (a b : float) : bool :=
  (PrimFloat.eqb a b || (PrimFloat.is_nan a && PrimFloat.is_nan b))%bool.

Definition same_time (a b : option Z) : bool :=
  match a, b with
  | Some x, Some y => x =? y
  | None, None => true
  | _, _ => false
  end.

Definition unique (c : column) : unique_values :=
  match c with
  | IntCol xs => NdArray (IntCol (dedup Z.eqb [] xs))
  | FloatCol xs => NdArray (FloatCol (dedup same_float [] xs))
  | StrCol false xs => NdArray (StrCol false (dedup String.eqb [] xs))
  | StrCol true xs => CategoricalArray (dedup String.eqb [] xs)
  | TimeCol xs => NdArray (TimeCol (dedup same_time [] xs))
  end.

(** [a.to_list()]: a numpy array has [tolist] and no attribute [to_list];
    a [Categorical] has it (up to pandas 2). *)
Definition to_list (a : unique_values) : M (list string) :=
  match a with
  | NdArray _ => raise AttributeError
  | CategoricalArray values => ret values
  end.

(** ** Geocoding services *)

(** What [geocoder.geocode(place, timeout=120)] does: it returns a location
    (an address and a point), returns [None], or raises (a time-out is an
    exception). *)
Inductive geocode_outcome : Type :=
| Location (address : string) (pt : point)
| NoLocation
| GeocodeRaises (e : exn).

(** The services answer a request given the requests issued before it. *)
Definition geocoding_services : Type :=
  list request -> provider -> string -> geocode_outcome.

Record Geocoder : Type := mkGeocoder {
  data : ref;
  scenario : string;
  latitudes : list float;
  longitudes : list float;
  place_names : list string
}.

Section Pipeline.

Variable services : geocoding_services.

(** [pd.to_datetime(c, errors="coerce")]: the timestamps read from the
    rows of a column, [None] where the row does not parse.  The parser
    belongs to pandas and is left open. *)
Variable to_datetime : column -> list (option Timestamp).

(** [config.displayed_scenario_names], from [src.setup.config]. *)
Variable displayed_scenario_names : dict string.

(** *** Geocoder *)

Definition Geocoder_init (data : ref) (scenario : string) : M Geocoder :=
  c <- getitem data (scenario ++ "_station_name") ;;
  place_names <- to_list (unique c) ;;
  ret (mkGeocoder data scenario [] [] place_names).

Definition geocoder_geocode (geocoder : provider) (place : string)
    : M (option (string * point)) :=
  fun w =>
    let w' := mkWorld (frames w) ((geocoder, place) :: requests w) in
    match services (requests w) geocoder place with
    | Location address pt => (w', Ok (Some (address, pt)))
    | NoLocation => (w', Ok None)
    | GeocodeRaises e => (w', Err e)
    end.

(** [location[-1]]: the point of a location; [None] is not
    subscriptable. *)
Definition subscript_last (location : option (string * point)) : M point :=
  match location with
  | Some (_, pt) => ret pt
  | None => raise TypeError
  end.

Definition is_None {A} (x : option A) : bool :=
  match x with None => true | Some _ => false end.

(** [except v: handler] where [v] is a bool: Python refuses to match an
    exception against anything but exception classes, and raises
    [TypeError]; the handler does not run. *)
Definition except_bool {A} (v : bool) (handler : M A) : M A :=
  raise TypeError.

Fixpoint _trigger_geocoder_loop (geocoder : provider)
    (place_names : list string) (places_and_points : dict point)
    : M (dict point) :=
  match place_names with
  | [] => ret places_and_points
  | place :: rest =>
      if dict_mem places_and_points place then
        _trigger_geocoder_loop geocoder rest places_and_points
      else
        places_and_points' <-
          catch
            (location <- geocoder_geocode geocoder place ;;
             pt <- subscript_last location ;;
             ret (dict_set places_and_points place pt))
            (fun _ =>
               location <- geocoder_geocode geocoder place ;;
               except_bool (is_None location)
                 (ret (dict_set places_and_points place (0, 0)%float))) ;;
        _trigger_geocoder_loop geocoder rest places_and_points'
  end.

Definition _trigger_geocoder (geocoder : provider)
    (place_names : list string) : M (dict point) :=
  _trigger_geocoder_loop geocoder place_names [].

(** [key, value = k] for a string [k]: its two characters; [ValueError]
    when it has not exactly two.  (A character is a byte here: names are
    taken to be ASCII.) *)
Definition unpack_pair (k : string) : M (string * string) :=
  match k with
  | String a (String b EmptyString) =>
      ret (String a EmptyString, String b EmptyString)
  | _ => raise ValueError
  end.

(** [value == (0, 0)] for a string [value]: a string never equals a
    tuple. *)
Definition str_eq_tuple (value : string) (t : Z * Z) : bool := false.

(** [[key for key, value in nominatim_results if value == (0, 0)]]:
    iterating a dict gives its keys. *)
Fixpoint places_missed (keys : list string) : M (list string) :=
  match keys with
  | [] => ret []
  | k :: rest =>
      ' (key, value) <- unpack_pair k ;;
      missed <- places_missed rest ;;
      ret (if str_eq_tuple value (0, 0) then key :: missed else missed)
  end.

Definition geocode (self : Geocoder) : M (dict point) :=
  nominatim_results <- _trigger_geocoder Nominatim (place_names self) ;;
  places_missed_by_nominatim <-
    places_missed (dict_keys nominatim_results) ;;
  final_places_and_points <-
    _trigger_geocoder Photon places_missed_by_nominatim ;;
  ret final_places_and_points.

(** *** Feature engineering *)

Definition add_avg_trips_last_4_weeks (features : ref) : M ref :=
  t <- frame_of features ;;
  (if negb (has_column t "average_trips_last_4_weeks") then
     c1 <- getitem features "trips_previous_168_hour" ;;
     c2 <- getitem features "trips_previous_336_hour" ;;
     s12 <- lift_result (col_add c1 c2) ;;
     c3 <- getitem features "trips_previous_504_hour" ;;
     s123 <- lift_result (col_add s12 c3) ;;
     c4 <- getitem features "trips_previous_672_hour" ;;
     s1234 <- lift_result (col_add s123 c4) ;;
     averages <- lift_result (col_quarter s1234) ;;
     insert_last features "average_trips_last_4_weeks" averages
   else ret tt) ;;
  ret features.

(** [c.apply(lambda x: f(x))] for an attribute [f] of timestamps; other
    values have no such attribute. *)
Definition series_apply (f : Timestamp -> Z) (c : column) : M column :=
  match c with
  | TimeCol xs => ret (apply_attr f xs)
  | _ => raise AttributeError
  end.

(** The frame that [features] has become when [add_hours_and_days]
    returns: timestamps in place of the column read, and the two new
    columns last. *)
Definition with_hours_and_days (t : DataFrame) (label : string)
    (c : column) : DataFrame :=
  mkFrame (row_labels t)
    ((dict_set (columns t) label (TimeCol (to_datetime c))
      ++ [("hour", apply_attr hour (to_datetime c))])
     ++ [("day_of_the_week", apply_attr dayofweek (to_datetime c))])%list.

Definition add_hours_and_days (features : ref) (scenario : string) : M ref :=
  c <- getitem features (scenario ++ "_hour") ;;
  setitem features (scenario ++ "_hour") (TimeCol (to_datetime c)) ;;
  c <- getitem features (scenario ++ "_hour") ;;
  hours <- series_apply hour c ;;
  c <- getitem features (scenario ++ "_hour") ;;
  days <- series_apply dayofweek c ;;
  insert_last features "hour" hours ;;
  insert_last features "day_of_the_week" days ;;
  drop features (scenario ++ "_hour").

(** The loop of [add_coordinates_to_dataframe] over the place names; the
    two lists of the geocoder object grow. *)
Fixpoint collect_coordinates (names : list string)
    (places_and_points : dict point) (geodata : Geocoder) : Geocoder :=
  match names with
  | [] => geodata
  | place :: rest =>
      collect_coordinates rest places_and_points
        (match dict_get places_and_points place with
         | Some pt =>
             mkGeocoder (data geodata) (scenario geodata)
               (latitudes geodata ++ [fst pt])
               (longitudes geodata ++ [fst pt])
               (place_names geodata)
         | None => geodata
         end)
  end.

(** What the loop appends for a place: the first component of its point,
    when the place is in the mapping. *)
Definition appended_for (places_and_points : dict point) (place : string)
    : list float :=
  match dict_get places_and_points place with
  | Some pt => [fst pt]
  | None => []
  end.

(** [df[label] = pd.Series(values)] *)
Definition setitem_series (df : ref) (label : string) (values : list float)
    : M unit :=
  t <- frame_of df ;;
  setitem df label (series_on (row_labels t) values).

(** The statements of [add_coordinates_to_dataframe] that follow the call
    of [geocode]: the loop over the place names, the two assignments of
    columns and the return, for the geocoder object and the mapping at
    hand. *)
Definition add_coordinates_after_geocode (features : ref) (scenario : string)
    (geodata : Geocoder) (places_and_points : dict point) : M ref :=
  let geodata :=
    collect_coordinates (place_names geodata) places_and_points geodata in
  setitem_series features (scenario ++ "_latitude") (latitudes geodata) ;;
  setitem_series features (scenario ++ "_longitude") (longitudes geodata) ;;
  ret features.

Definition add_coordinates_to_dataframe (features : ref) (scenario : string)
    : M ref :=
  geodata <- Geocoder_init features scenario ;;
  places_and_points <- geocode geodata ;;
  add_coordinates_after_geocode features scenario geodata places_and_points.

(** [a and b] for a string [a]: [b] when [a] is not empty. *)
Definition str_and (a : string) (b : bool) : bool :=
  match a with EmptyString => false | _ => b end.

Definition finish_feature_engineering (features : ref) (scenario : string)
    (geocode : bool) : M ref :=
  match dict_get displayed_scenario_names scenario with
  | None => raise KeyError
  | Some _ =>
      features_with_hours_and_days <- add_hours_and_days features scenario ;;
      final_features <-
        add_avg_trips_last_4_weeks features_with_hours_and_days ;;
      t <- frame_of final_features ;;
      py_assert
        (str_and "day_of_the_week"
           (has_column t "average_trips_last_4_weeks")) ;;
      d <- getitem final_features "day_of_the_week" ;;
      (if isna_sum d =? 0 then
         a <- getitem final_features "average_trips_last_4_weeks" ;;
         py_assert (isna_sum a =? 0)
       else py_assert false) ;;
      if geocode then add_coordinates_to_dataframe features scenario
      else ret final_features
  end.

End Pipeline.

(** ** Example data *)

Definition chicago : point := (41.875, -87.625)%float.

Definition saved_station (id : Z) (name : string) : station point :=
  mkStation (Some id) name chicago.

Definition new_station (name : string) (c : point) : station point :=
  mkStation None name c.

(** A registry whose identifiers are 5 and 9, and three new records. *)
Definition registry_5_9 : list (station point) :=
  [saved_station 5 "Clark St & Lake St"; saved_station 9 "State St & Kinzie St"].

Definition three_new_records : list (station point) :=
  [new_station "Wells St & Huron St" (41.89453125, -87.634765625)%float;
   new_station "Canal St & Adams St" (41.87890625, -87.640625)%float;
   new_station "Wabash Ave & Grand Ave" (41.890625, -87.626953125)%float].

(** Services of which the first resolves one place name and has no result
    for any other, and the second has no result at all. *)
Definition nominatim_resolves (name : string) (pt : point)
    : geocoding_services :=
  fun _ geocoder place =>
    match geocoder with
    | Nominatim =>
        if String.eqb place name then Location (place ++ ", Chicago") pt
        else NoLocation
    | Photon => NoLocation
    end.

(** Services that time out on every request. *)
Definition services_time_out : geocoding_services :=
  fun _ _ _ => GeocodeRaises (ServiceError "timed out").

(** The coordinates of the example of the specification, (41.88, -87.63)
    as float64, and reverse geocoding services: the first answers every
    query but (0, 0), the second answers none. *)
Definition clark_and_lake : point := (0x1.4f0a3d70a3d71p+5, -0x1.5e851eb851eb8p+6)%float.

Definition origin : point := (0, 0)%float.

Definition primary_but_origin : reverse_service point :=
  fun _ c =>
    if point_eqb c origin then ReverseRaises (ServiceError "unable to geocode")
    else Address "Clark St & Lake St, Chicago".

Definition secondary_down : reverse_service point :=
  fun _ _ => ReverseRaises (ServiceError "timed out").


(** The same with float64 columns, and a second row. *)
Definition float_lags : DataFrame :=
  mkFrame [0; 1]
    [("trips_previous_168_hour", FloatCol [10; 1.5]%float);
     ("trips_previous_336_hour", FloatCol [20; 2.5]%float);
     ("trips_previous_504_hour", FloatCol [30; 3]%float);
     ("trips_previous_672_hour", FloatCol [40; 0]%float)].

(** [pd.to_datetime] on columns of timestamps and of integers only: a stand
    in for the parser of pandas where one is needed to run an example.
    Strings and floats are taken not to parse. *)
Definition to_datetime_numeric (c : column) : list (option Timestamp) :=
  match c with
  | TimeCol xs => xs
  | IntCol xs => map Some xs
  | FloatCol xs => map (fun _ => None) xs
  | StrCol _ xs => map (fun _ => None) xs
  end.

(** Monday 2024-01-01 00:00 and 12:00, in nanoseconds. *)
Definition monday_midnight : Timestamp := 1704067200000000000.
Definition monday_noon : Timestamp := 1704110400000000000.

(** A frame of two trips records for the scenario "start", given its column
    of hours and its column of station names. *)
Definition trips_frame (hours names : column) : DataFrame :=
  mkFrame [0; 1]
    [("start_hour", hours);
     ("start_station_name", names);
     ("trips_previous_168_hour", IntCol [10; 1]);
     ("trips_previous_336_hour", IntCol [20; 2]);
     ("trips_previous_504_hour", IntCol [30; 3]);
     ("trips_previous_672_hour", IntCol [40; 6])].

Definition monday_hours : column := IntCol [monday_midnight; monday_noon].

Definition station_names : column :=
  StrCol false ["Clark St & Lake St"; "State St & Kinzie St"].

Definition config_scenarios : dict string :=
  [("start", "Departures"); ("end", "Arrivals")].

Definition two_letter_names : column := StrCol true ["HQ"; "HQ"].

Definition unparseable_hours : column := StrCol false ["soon"; "later"].

Definition no_world : world := mkWorld [] [].

Definition geocoder_for (names : list string) : Geocoder :=
  mkGeocoder 0%nat "start" [] [] names.

(** A mapping that holds a point for each of the two station names. *)
Definition two_stations_resolved : dict point :=
  [("Clark St & Lake St", clark_and_lake);
   ("State St & Kinzie St", chicago)].

(** ** put_new_information_in_geodata *)

(** [put_new_information_in_geodata(saved_geodata, new)]: the new records
    take their identifiers, then [saved_geodata.extend(...)] adds them to
    the saved list and returns [None], which is what the method returns.
    The first two components are the contents of the two lists after the
    call. *)
Definition put_new_information_in_geodata {coord : Type}
    (saved_geodata new_addresses_and_coordinates : list (station coord))
    : list (station coord) * list (station coord) * result unit :=
  match give_ids_to_the_new_names new_addresses_and_coordinates
          saved_geodata with
  | (records, Ok with_ids) => ((saved_geodata ++ with_ids)%list, records, Ok tt)
  | (records, Err e) => (saved_geodata, records, Err e)
  end.

(** A registry whose identifiers are 1, 2 and 3, and one whose second
    record has lost its identifier. *)
Definition registry_1_2_3 : list (station point) :=
  [saved_station 1 "Clark St & Lake St";
   saved_station 2 "State St & Kinzie St";
   saved_station 3 "Canal St & Adams St"].

Definition registry_with_a_gap : list (station point) :=
  [saved_station 1 "Clark St & Lake St";
   new_station "State St & Kinzie St" chicago].

(** ** Well-formed frames *)

Definition col_length (c : column) : nat :=
  match c with
  | IntCol xs => List.length xs
  | FloatCol xs => List.length xs
  | StrCol _ xs => List.length xs
  | TimeCol xs => List.length xs
  end.

(** A frame as pandas keeps it: no label twice, and every column as long
    as the index. *)
Definition wf_frame (t : DataFrame) : Prop :=
  NoDup (dict_keys (columns t))
  /\ Forall (fun kv => col_length (snd kv) = List.length (row_labels t))
       (columns t).

(** * The inference module and the trainer

    [inference.py] and [training.py] work on files, the feature store and
    the model registry.  Their own exceptions are kept apart from those of
    the feature pipeline. *)

Inductive error : Type :=
| FileNotFoundError (msg : string)
| NameError (name : string)
| UnboundLocalError (name : string)
| Builtin (e : exn).

Inductive outcome (A : Type) : Type :=
| Returns (a : A)
| Raises (e : error).

Arguments Returns {A} a.
Arguments Raises {A} e.

(** ** Names

    The names bound at the top level of [inference.py]: its imports, its
    class and its two functions.  A name that is neither local nor
    global nor built in raises [NameError] when it is evaluated. *)
Definition inference_globals : list string :=
  ["os"; "json"; "np"; "pd"; "Path"; "logger"; "ArgumentParser";
   "datetime"; "timedelta"; "FeatureGroup"; "FeatureView"; "Pipeline";
   "FeatureGroupConfig"; "config"; "ROUNDING_INDEXER"; "MIXED_INDEXER";
   "DataProcessor"; "finish_feature_engineering"; "FeatureStoreAPI";
   "ModelRegistry"; "InferenceModule"; "rerun_feature_pipeline";
   "load_raw_local_geodata"].

Definition load_global (name : string) : outcome unit :=
  if existsb (String.eqb name) inference_globals
  then Returns tt
  else Raises (NameError name).

(** A local variable holds a value once an assignment to it has run;
    reading it before raises [UnboundLocalError]. *)
Definition load_local {A} (name : string) (v : option A) : outcome A :=
  match v with
  | Some a => Returns a
  | None => Raises (UnboundLocalError name)
  end.

(** ** [rerun_feature_pipeline]

    The wrapper that the decorator puts around [fn].  [FS] is the state of
    the files; [make_training_data] stands for
    [DataProcessor(year=config.year, for_inference=False).make_training_data(geocode=False)].
    The loggers return; [st.spinner(message)] is taken to return once the
    name [st] has been found. *)
Section RerunFeaturePipeline.

Variables FS A : Type.
Variable make_training_data : FS -> FS * outcome unit.

Definition rerun_feature_pipeline (fn : FS -> FS * outcome A) (fs : FS)
    : FS * outcome A :=
  match fn fs with
  | (fs1, Raises (FileNotFoundError msg)) =>
      match load_global "st" with
      | Raises e => (fs1, Raises e)
      | Returns _ =>
          match make_training_data fs1 with
          | (fs2, Raises e) => (fs2, Raises e)
          | (fs2, Returns _) => fn fs2
          end
      end
  | other => other
  end.

End RerunFeaturePipeline.

Arguments rerun_feature_pipeline {FS A} make_training_data fn fs.

(** ** [load_raw_local_geodata]

    What the function sees of the files: the entries of a directory, and
    the JSON value read from a file of a directory.  Either may raise. *)
Record filesystem (J : Type) : Type := {
  listdir : string -> outcome (list string);
  load_json : string -> string -> outcome J
}.

Arguments listdir {J} f dir.
Arguments load_json {J} f dir file.

Section LoadRawLocalGeodata.

Variable J : Type.
Variables ROUNDING_INDEXER MIXED_INDEXER : string.
Variable make_training_data : filesystem J -> filesystem J * outcome unit.

Definition geodata_file (scenario : string) : string :=
  scenario ++ "_geodata.json".

(** The function under the decorator. *)
Definition load_raw_local_geodata_fn (scenario : string) (fs : filesystem J)
    : filesystem J * outcome J :=
  match listdir fs ROUNDING_INDEXER with
  | Raises e => (fs, Raises e)
  | Returns entries =>
      if negb (Nat.eqb (List.length entries) 0)
      then (fs, load_json fs ROUNDING_INDEXER (geodata_file scenario))
      else
        match listdir fs MIXED_INDEXER with
        | Raises e => (fs, Raises e)
        | Returns entries' =>
            if negb (Nat.eqb (List.length entries') 0)
            then (fs, load_json fs MIXED_INDEXER (geodata_file scenario))
            else (fs, Raises (FileNotFoundError
                   "No geographical data has been made. Running the feature pipeline..."))
        end
  end.

Definition load_raw_local_geodata (scenario : string)
    : filesystem J -> filesystem J * outcome J :=
  rerun_feature_pipeline make_training_data (load_raw_local_geodata_fn scenario).

End LoadRawLocalGeodata.

Arguments geodata_file scenario /.
Arguments load_raw_local_geodata_fn {J} ROUNDING_INDEXER MIXED_INDEXER scenario fs.
Arguments load_raw_local_geodata {J} ROUNDING_INDEXER MIXED_INDEXER
  make_training_data scenario _.

(** ** [InferenceModule.fetch_predictions_group] *)

Record feature_group_request : Type := {
  fg_description : string;
  fg_name : string;
  fg_version : Z;
  fg_for_predictions : bool
}.

Section FetchPredictionsGroup.

Variables FStore FG : Type.
Variable feature_group_version : Z.
Variable setup_feature_group :
  feature_group_request -> FStore -> FStore * outcome FG.

Definition fetch_predictions_group (scenario model_name : string) (s : FStore)
    : FStore * outcome FG :=
  let tuned_or_not :=
    if String.eqb model_name "lightgbm" then Some "tuned"
    else if String.eqb model_name "xgboost" then Some "untuned"
    else None in
  match load_local "tuned_or_not" tuned_or_not with
  | Raises e => (s, Raises e)
  | Returns tuned =>
      setup_feature_group
        {| fg_description :=
             "predictions on " ++ scenario ++ " data using the "
               ++ tuned ++ " " ++ model_name;
           fg_name := model_name ++ "_" ++ scenario ++ "_predictions_feature_group";
           fg_version := feature_group_version;
           fg_for_predictions := true |} s
  end.

End FetchPredictionsGroup.

Arguments fetch_predictions_group {FStore FG} feature_group_version
  setup_feature_group scenario model_name s.

(** ** [str.title], on ASCII strings *)

Definition is_lower (c : ascii) : bool :=
  (97 <=? nat_of_ascii c)%nat && (nat_of_ascii c <=? 122)%nat.

Definition is_upper (c : ascii) : bool :=
  (65 <=? nat_of_ascii c)%nat && (nat_of_ascii c <=? 90)%nat.

Definition to_upper (c : ascii) : ascii :=
  if is_lower c then ascii_of_nat (nat_of_ascii c - 32) else c.

Definition to_lower (c : ascii) : ascii :=
  if is_upper c then ascii_of_nat (nat_of_ascii c + 32) else c.

Fixpoint title_from (previous_is_cased : bool) (s : string) : string :=
  match s with
  | EmptyString => EmptyString
  | String c rest =>
      if is_lower c
      then String (if previous_is_cased then c else to_upper c)
                  (title_from true rest)
      else if is_upper c
      then String (if previous_is_cased then to_lower c else c)
                  (title_from true rest)
      else String c (title_from false rest)
  end.

Definition title (s : string) : string := title_from false s.

(** ** The trainer *)

Record Trainer : Type := {
  trainer_scenario : string;
  tune_hyperparameters : bool;
  hyperparameter_trials : Z;
  tuned_or_not : string
}.

(** [Trainer.__init__], without the directories it makes sure of. *)
Definition Trainer_init (scenario : string) (tune : bool) (trials : Z)
    : Trainer :=
  {| trainer_scenario := scenario;
     tune_hyperparameters := tune;
     hyperparameter_trials := trials;
     tuned_or_not := if tune then "Tuned" else "Untuned" |}.

(** What [train_models_and_register_best] asks of the rest of the program:
    [self.train], [load_local_model], and the [ModelRegistry] it builds
    and pushes at once. *)
Inductive call (Model : Type) : Type :=
| Train (model_name : string)
| LoadLocalModel (model_name scenario tuned : string)
| PushModel (model : Model) (model_name scenario tuned status version : string).

Arguments Train {Model} model_name.
Arguments LoadLocalModel {Model} model_name scenario tuned.
Arguments PushModel {Model} model model_name scenario tuned status version.

Definition is_registry_call {Model} (c : call Model) : bool :=
  match c with
  | Train _ => false
  | _ => true
  end.

(** The pushes of a log, in order, without the models. *)
Fixpoint pushes {Model} (log : list (call Model))
    : list (string * string * string * string * string) :=
  match log with
  | [] => []
  | PushModel _ n sc t st v :: rest => (n, sc, t, st, v) :: pushes rest
  | _ :: rest => pushes rest
  end.

Definition dict_values {V} (d : dict V) : list V := map snd d.

Section Training.

(** Test errors are floats; [float_lt] and [float_eq] are their [<] and
    [==]. *)
Variables E Model : Type.
Variables float_lt float_eq : E -> E -> bool.

(** The outcome of each call depends on the calls made so far. *)
Variable train_outcome : list (call Model) -> string -> outcome E.
Variable load_outcome :
  list (call Model) -> string -> string -> string -> outcome Model.
Variable push_outcome :
  list (call Model) -> Model -> string -> string -> string -> string
  -> string -> outcome unit.

(** [min] of a sequence: the first of its least items, by [<]. *)
Definition py_min (l : list E) : outcome E :=
  match l with
  | [] => Raises (Builtin ValueError)
  | x :: rest =>
      Returns (fold_left (fun m v => if float_lt v m then v else m) rest x)
  end.

Fixpoint train_loop (model_names : list string) (models_and_errors : dict E)
    (log : list (call Model)) : list (call Model) * outcome (dict E) :=
  match model_names with
  | [] => (log, Returns models_and_errors)
  | model_name :: rest =>
      match train_outcome log model_name with
      | Raises e => ((log ++ [Train model_name])%list, Raises e)
      | Returns test_error =>
          train_loop rest (dict_set models_and_errors model_name test_error)
            (log ++ [Train model_name])%list
      end
  end.

Fixpoint register_loop (self : Trainer) (version status : string)
    (models_and_errors : dict E) (model_names : list string)
    (log : list (call Model)) : list (call Model) * outcome unit :=
  match model_names with
  | [] => (log, Returns tt)
  | model_name :: rest =>
      match dict_get models_and_errors model_name with
      | None => (log, Raises (Builtin KeyError))
      | Some test_error =>
          match py_min (dict_values models_and_errors) with
          | Raises e => (log, Raises e)
          | Returns least =>
              if float_eq test_error least
              then
                let loading :=
                  LoadLocalModel model_name (trainer_scenario self)
                    (tuned_or_not self) in
                match load_outcome log model_name (trainer_scenario self)
                        (tuned_or_not self) with
                | Raises e => ((log ++ [loading])%list, Raises e)
                | Returns model =>
                    let pushing :=
                      PushModel model model_name (trainer_scenario self)
                        (tuned_or_not self) (title status) version in
                    match push_outcome (log ++ [loading])%list model model_name
                            (trainer_scenario self) (tuned_or_not self)
                            (title status) version with
                    | Raises e => ((log ++ [loading; pushing])%list, Raises e)
                    | Returns _ =>
                        register_loop self version status models_and_errors
                          rest (log ++ [loading; pushing])%list
                    end
                end
              else
                register_loop self version status models_and_errors rest log
          end
      end
  end.

Definition train_models_and_register_best (self : Trainer)
    (model_names : list string) (version status : string)
    (log : list (call Model)) : list (call Model) * outcome unit :=
  if negb (existsb (String.eqb status) ["staging"; "production"])
  then (log, Raises (Builtin AssertionError))
  else
    match train_loop model_names [] log with
    | (log1, Raises e) => (log1, Raises e)
    | (log1, Returns models_and_errors) =>
        register_loop self version status models_and_errors model_names log1
    end.

(** A model is among the best when its error equals the least one. *)
Definition is_best (models_and_errors : dict E) (model_name : string) : bool :=
  match dict_get models_and_errors model_name,
        py_min (dict_values models_and_errors) with
  | Some test_error, Returns least => float_eq test_error least
  | _, _ => false
  end.

End Training.

Arguments py_min {E} float_lt l.
Arguments train_loop {E Model} train_outcome model_names models_and_errors log.
Arguments register_loop {E Model} float_lt float_eq load_outcome push_outcome
  self version status models_and_errors model_names log.
Arguments train_models_and_register_best {E Model} float_lt float_eq
  train_outcome load_outcome push_outcome self model_names version status log.
Arguments is_best {E} float_lt float_eq models_and_errors model_name.

(** ** Example data for the inference module and the trainer *)

(** Files where neither indexer has left anything. *)
Definition no_geodata : filesystem (list string) :=
  {| listdir := fun _ => Returns [];
     load_json := fun _ _ => Raises (FileNotFoundError "No such file or directory") |}.

(** Files where the rounding indexer has left the geodata of the starts. *)
Definition rounded_geodata : filesystem (list string) :=
  {| listdir := fun dir =>
       if String.eqb dir "rounding" then Returns ["start_geodata.json"] else Returns [];
     load_json := fun dir file =>
       if String.eqb dir "rounding" && String.eqb file "start_geodata.json"
       then Returns ["Clark St & Lake St"]
       else Raises (FileNotFoundError "No such file or directory") |}.

(** A feature pipeline that would write the geodata. *)
Definition pipeline_writes_geodata
    (fs : filesystem (list string)) : filesystem (list string) * outcome unit :=
  (rounded_geodata, Returns tt).

(** A feature store that sets every group up. *)
Definition store_sets_up (r : feature_group_request) (s : list feature_group_request)
    : list feature_group_request * outcome string :=
  ((s ++ [r])%list, Returns (fg_name r)).

(** Training that gives lightgbm the error 0.5 and every other model 0.75. *)
Definition errors_half_and_three_quarters
    (log : list (call string)) (model_name : string) : outcome float :=
  if String.eqb model_name "lightgbm" then Returns 0.5%float else Returns 0.75%float.

Definition loads_by_name (log : list (call string))
    (model_name scenario tuned : string) : outcome string :=
  Returns model_name.

Definition registry_accepts (log : list (call string)) (model : string)
    (model_name scenario tuned status version : string) : outcome unit :=
  Returns tt.

(** Training that fails on xgboost. *)
Definition xgboost_fails
    (log : list (call string)) (model_name : string) : outcome float :=
  if String.eqb model_name "xgboost"
  then Raises (Builtin (ServiceError "training failed"))
  else Returns 0.5%float.

(** * Properties *)

(** ** Dictionaries and lists *)

Lemma dict_get_set_same {V} (d : dict V) k v :
  dict_get (dict_set d k v) k = Some v.
Proof.
  induction d as [|[k' v'] d IH]; simpl.
  - now rewrite String.eqb_refl.
  - destruct (String.eqb k k') eqn:E; simpl; rewrite E; auto.
Qed.

Lemma dict_get_set_other {V} (d : dict V) k k' v :
  String.eqb k' k = false ->
  dict_get (dict_set d k v) k' = dict_get d k'.
Proof.
  intros Hk. induction d as [|[k0 v0] d IH]; simpl.
  - now rewrite Hk.
  - destruct (String.eqb k k0) eqn:E; simpl.
    + apply String.eqb_eq in E. subst k0. now rewrite Hk.
    + now rewrite IH.
Qed.

Lemma dict_get_app {V} (d d' : dict V) k :
  dict_get (d ++ d')%list k =
  match dict_get d k with Some v => Some v | None => dict_get d' k end.
Proof.
  induction d as [|[k0 v0] d IH]; simpl; auto.
  destruct (String.eqb k k0); auto.
Qed.

Lemma dict_get_filter_other {V} (d : dict V) k k' :
  String.eqb k' k = false ->
  dict_get (filter (fun kv => negb (String.eqb (fst kv) k)) d) k' =
  dict_get d k'.
Proof.
  intros Hk. induction d as [|[k0 v0] d IH]; simpl; auto.
  destruct (String.eqb k0 k) eqn:E; simpl.
  - apply String.eqb_eq in E. subst k0. now rewrite Hk.
  - now rewrite IH.
Qed.

Lemma dict_get_filter_same {V} (d : dict V) k :
  dict_get (filter (fun kv => negb (String.eqb (fst kv) k)) d) k = None.
Proof.
  induction d as [|[k0 v0] d IH]; simpl; auto.
  destruct (String.eqb k0 k) eqn:E; simpl; auto.
  rewrite String.eqb_sym, E. auto.
Qed.

Lemma nth_error_list_update_same {A} (l : list A) n a :
  (n < List.length l)%nat -> nth_error (list_update l n a) n = Some a.
Proof.
  revert n. induction l as [|x l IH]; intros [|n] H; simpl in *;
    try lia; auto.
  apply IH. lia.
Qed.

Lemma nth_error_list_update_other {A} (l : list A) n m a :
  n <> m -> nth_error (list_update l n a) m = nth_error l m.
Proof.
  revert n m. induction l as [|x l IH]; intros [|n] [|m] H; simpl;
    auto; try congruence.
Qed.

Lemma length_list_update {A} (l : list A) n a :
  List.length (list_update l n a) = List.length l.
Proof.
  revert n. induction l as [|x l IH]; intros [|n]; simpl; auto.
Qed.

(** Two labels made from one scenario differ as their endings do. *)
Lemma append_eqb_cancel (s a b : string) :
  String.eqb (s ++ a) (s ++ b) = String.eqb a b.
Proof.
  induction s as [|c s IH]; simpl; auto.
  now rewrite Ascii.eqb_refl.
Qed.

Ltac label_step s :=
  destruct s as [|? s]; [reflexivity|];
  cbn [String.eqb String.append];
  match goal with
  | |- (if ?b then _ else _) = _ => destruct b; [|reflexivity]
  end.

Ltac label_cases s := repeat label_step s; destruct s; reflexivity.

Lemma day_is_not_an_hour_label (s : string) :
  String.eqb "day_of_the_week" (s ++ "_hour") = false.
Proof. label_cases s. Qed.

Lemma hour_is_not_an_hour_label (s : string) :
  String.eqb "hour" (s ++ "_hour") = false.
Proof. label_cases s. Qed.

Lemma average_is_not_an_hour_label (s : string) :
  String.eqb "average_trips_last_4_weeks" (s ++ "_hour") = false.
Proof. label_cases s. Qed.

(** ** Computations *)

Lemma bind_ok {A B} (c : M A) (k : A -> M B) w w' b :
  bind c k w = (w', Ok b) ->
  exists a w1, c w = (w1, Ok a) /\ k a w1 = (w', Ok b).
Proof.
  unfold bind. destruct (c w) as [w1 [a|e]]; intros H.
  - eauto.
  - discriminate.
Qed.

Lemma frame_of_ok df w w' t :
  frame_of df w = (w', Ok t) ->
  w' = w /\ nth_error (frames w) df = Some t.
Proof.
  unfold frame_of. destruct (nth_error (frames w) df); intros H; inversion H.
  auto.
Qed.

Lemma frame_of_some df w t :
  nth_error (frames w) df = Some t -> frame_of df w = (w, Ok t).
Proof. unfold frame_of. now intros ->. Qed.

(** ** give_ids_to_the_new_names *)

Section GiveIds.

Variable coord : Type.

Lemma assign_ids_loop_short (new_ids : list Z) (records : list (station coord)) :
  forall i,
    (i <= List.length new_ids)%nat ->
    (List.length new_ids < i + List.length records)%nat ->
    snd (assign_ids_loop coord new_ids i records) = Err IndexError.
Proof.
  induction records as [|r rest IH]; intros i Hi H; simpl in *.
  - lia.
  - destruct (nth_error new_ids i) eqn:E.
    + specialize (IH (S i)).
      destruct (assign_ids_loop coord new_ids (S i) rest) as [rest' out].
      simpl in *.
      assert (i < List.length new_ids)%nat
        by (apply nth_error_Some; congruence).
      apply IH; lia.
    + reflexivity.
Qed.

Lemma length_arange (start stop : Z) :
  List.length (arange start stop) = Z.to_nat (stop - start).
Proof. unfold arange. now rewrite length_map, length_seq. Qed.

(** The identifiers run out as soon as the largest established one exceeds
    the number of established ones. *)
Lemma give_ids_runs_out (new_records saved : list (station coord)) ids m :
  established_ids_loop coord saved [] = Ok ids ->
  py_max ids = Ok m ->
  new_records <> [] ->
  Z.of_nat (List.length ids) < m ->
  snd (give_ids_to_the_new_names new_records saved) = Err IndexError.
Proof.
  intros Hids Hmax Hnew Hm. unfold give_ids_to_the_new_names.
  rewrite Hids, Hmax.
  match goal with
  | |- context [assign_ids_loop coord ?l 0 ?r] =>
      pose proof (assign_ids_loop_short l r 0%nat) as Hshort
  end.
  rewrite length_arange in Hshort.
  destruct new_records as [|r rest]; [congruence|].
  assert (Hshort' := Hshort ltac:(lia) ltac:(simpl List.length; lia)).
  clear Hshort.
  destruct (assign_ids_loop coord _ 0 (r :: rest)) as [recs [u|e]];
    simpl in *; congruence.
Qed.

Lemma nth_error_arange (start stop : Z) (k : nat) :
  (k < Z.to_nat (stop - start))%nat ->
  nth_error (arange start stop) k = Some (start + Z.of_nat k).
Proof.
  intros H. unfold arange. rewrite nth_error_map.
  rewrite nth_error_seq.
  destruct (Nat.ltb_spec k (Z.to_nat (stop - start))); [reflexivity|lia].
Qed.

Lemma assign_ids_loop_enough (new_ids : list Z) (records : list (station coord)) :
  forall i,
    (i + List.length records <= List.length new_ids)%nat ->
    exists out,
      assign_ids_loop coord new_ids i records = (out, Ok tt)
      /\ List.length out = List.length records
      /\ forall k r,
           nth_error out k = Some r ->
           exists id, nth_error new_ids (i + k) = Some id
                      /\ station_id r = Some id.
Proof.
  induction records as [|r rest IH]; intros i H; simpl in *.
  - exists []. repeat split; auto. intros [|k] r0 Hk; discriminate.
  - destruct (nth_error new_ids i) as [id|] eqn:E.
    + destruct (IH (S i)) as (out & Hout & Hlen & Hids); [lia|].
      rewrite Hout. eexists. split; [reflexivity|]. split; [simpl; lia|].
      intros [|k] r0 Hk; simpl in Hk.
      * inversion Hk; subst. exists id. rewrite Nat.add_0_r. auto.
      * destruct (Hids k r0 Hk) as (id' & Hid' & Hr0).
        exists id'. now rewrite <- Nat.add_succ_comm.
    + apply nth_error_None in E. lia.
Qed.

(** Where the established identifiers are as many as the largest of them
    (as are 1, ..., n), the new records take the integers that follow it. *)
Lemma give_ids_consecutive (new_records saved : list (station coord)) ids m :
  established_ids_loop coord saved [] = Ok ids ->
  py_max ids = Ok m ->
  m <= Z.of_nat (List.length ids) ->
  exists out,
    give_ids_to_the_new_names new_records saved = (out, Ok out)
    /\ List.length out = List.length new_records
    /\ forall k r,
         nth_error out k = Some r ->
         station_id r = Some (m + 1 + Z.of_nat k).
Proof.
  intros Hids Hmax Hm. unfold give_ids_to_the_new_names.
  rewrite Hids, Hmax.
  match goal with
  | |- context [assign_ids_loop coord ?l 0 ?r] =>
      destruct (assign_ids_loop_enough l r 0%nat) as (out & Hout & Hlen & Hk)
  end.
  { rewrite length_arange. lia. }
  rewrite Hout. exists out. repeat split; auto.
  intros k r Hr. destruct (Hk k r Hr) as (id & Hid & ->).
  simpl in Hid. rewrite nth_error_arange in Hid.
  - congruence.
  - assert (k < List.length out)%nat by (apply nth_error_Some; congruence).
    lia.
Qed.

End GiveIds.

(** C1 (the code departs from it): with a registry whose identifiers are 5
    and 9 and three new records, the identifiers 10, 11, 12 are expected;
    the range of new identifiers, [arange 10 6], is empty, so the call
    raises [IndexError] at the first record and gives no identifier. *)
Theorem give_ids_registry_5_9_raises :
  give_ids_to_the_new_names three_new_records registry_5_9
  = (three_new_records, Err IndexError).
Proof. reflexivity. Qed.

(** ** Geocoder *)

Section GeocoderFacts.

Variable services : geocoding_services.

Lemma places_missed_ok (keys : list string) w w' missed :
  places_missed keys w = (w', Ok missed) -> missed = [] /\ w' = w.
Proof.
  revert w w' missed.
  induction keys as [|k keys IH]; intros w w' missed H; simpl in H.
  - inversion H. auto.
  - apply bind_ok in H. destruct H as ([key value] & w1 & Hk & H).
    apply bind_ok in H. destruct H as (tl & w2 & Htl & H).
    apply IH in Htl. destruct Htl as [-> ->].
    unfold str_eq_tuple, ret in H. inversion H. subst.
    split; auto.
    unfold unpack_pair in Hk.
    destruct k as [|a [|b [|c k]]]; inversion Hk; auto.
Qed.

(** Whenever [geocode] returns, it returns the empty dictionary: the names
    sent to the second service are none, and the results of the first
    service are not part of the value returned. *)
Lemma geocode_returns_no_entry (self : Geocoder) w w' d :
  geocode services self w = (w', Ok d) -> d = [].
Proof.
  unfold geocode. intros H.
  apply bind_ok in H. destruct H as (nominatim_results & w1 & _ & H).
  apply bind_ok in H. destruct H as (missed & w2 & Hm & H).
  apply places_missed_ok in Hm. destruct Hm as [-> _].
  apply bind_ok in H. destruct H as (final & w3 & Hf & H).
  unfold _trigger_geocoder in Hf. simpl in Hf.
  inversion Hf. inversion H. congruence.
Qed.

(** A place that the service does not resolve ends the loop with an
    exception, whatever the service does when it is asked again in the
    [except] clause: the sentinel is never recorded. *)
Lemma trigger_geocoder_failure_propagates geocoder place rest pp w :
  dict_mem pp place = false ->
  (forall address pt,
      services (requests w) geocoder place <> Location address pt) ->
  exists e,
    snd (_trigger_geocoder_loop services geocoder (place :: rest) pp w)
    = Err e.
Proof.
  intros Hmem Hfail. simpl. rewrite Hmem.
  unfold bind, catch, geocoder_geocode, subscript_last, except_bool, raise.
  simpl.
  destruct (services (requests w) geocoder place) as [a p| |e] eqn:E1.
  - exfalso. eapply Hfail. reflexivity.
  - match goal with
    | |- context [match ?x with Location _ _ => _ | _ => _ end] =>
        destruct x; simpl; eauto
    end.
  - match goal with
    | |- context [match ?x with Location _ _ => _ | _ => _ end] =>
        destruct x; simpl; eauto
    end.
Qed.

End GeocoderFacts.

(** C2 (the code departs from it): a name that the first service resolves
    is expected in the mapping with the coordinates found.  For the place
    name "Clark St & Lake St", resolved by the first service, the call
    raises [ValueError] while it collects the names to retry (it unpacks
    the name itself into a key and a value); for a name of two characters,
    "HQ", the call returns a mapping without any entry. *)
Theorem geocode_loses_resolved_names :
  geocode (nominatim_resolves "Clark St & Lake St" chicago)
    (geocoder_for ["Clark St & Lake St"]) no_world
  = (mkWorld [] [(Nominatim, "Clark St & Lake St")], Err ValueError)
  /\ geocode (nominatim_resolves "HQ" chicago) (geocoder_for ["HQ"]) no_world
     = (mkWorld [] [(Nominatim, "HQ")], Ok []).
Proof. split; reflexivity. Qed.

(** C3 (the code departs from it): a name that a service fails on is
    expected to map to (0, 0), the other names being processed.  When the
    first service has no result for "Clark St & Lake St", the call raises
    [TypeError] after asking it twice, and "State St & Kinzie St" is never
    sent; when the service times out, its exception reaches the caller. *)
Theorem geocode_failure_reaches_the_caller :
  geocode (nominatim_resolves "State St & Kinzie St" chicago)
    (geocoder_for ["Clark St & Lake St"; "State St & Kinzie St"]) no_world
  = (mkWorld []
       [(Nominatim, "Clark St & Lake St"); (Nominatim, "Clark St & Lake St")],
     Err TypeError)
  /\ geocode services_time_out
       (geocoder_for ["Clark St & Lake St"; "State St & Kinzie St"]) no_world
     = (mkWorld []
          [(Nominatim, "Clark St & Lake St");
           (Nominatim, "Clark St & Lake St")],
        Err (ServiceError "timed out")).
Proof. split; reflexivity. Qed.

(** ** ReverseGeocoder.reverse_geocode *)

Section ReverseGeocodeFacts.

Variable coord : Type.
Variable coord_eqb : coord -> coord -> bool.
Variables primary secondary : reverse_service coord.

(** An iteration leaves the two lists as they are, or adds [c] to both. *)
Lemma rg_step_cases (st : rg_state coord) (c : coord) :
  let st' := rg_step coord_eqb primary secondary st c in
  (encountered_coordinates st' = encountered_coordinates st
   /\ new_geodata st' = new_geodata st)
  \/ (py_in coord_eqb c (encountered_coordinates st) = false
      /\ exists a,
          resolved coord primary secondary c a
          /\ encountered_coordinates st'
             = (encountered_coordinates st ++ [c])%list
          /\ new_geodata st'
             = (new_geodata st ++ [mkStation None a c])%list).
Proof.
  unfold rg_step, resolved.
  destruct (py_in coord_eqb c (encountered_coordinates st)) eqn:Hin; auto.
  destruct (str_reverse (primary (primary_queries coord st) c))
    as [a|e] eqn:Hp.
  - right. split; auto. exists a. simpl. eauto.
  - destruct (str_reverse (secondary (secondary_queries coord st) c))
      as [a|e'] eqn:Hs.
    + right. split; auto. exists a. simpl. eauto.
    + left. auto.
Qed.

Lemma no_repeat_snoc (seen l : list coord) (c : coord) :
  no_repeat coord_eqb seen (l ++ [c])%list
  = (no_repeat coord_eqb seen l
     && negb (py_in coord_eqb c (seen ++ l)%list))%bool.
Proof.
  revert seen. induction l as [|x l IH]; intros seen; simpl.
  - now rewrite app_nil_r, andb_true_r.
  - rewrite IH, <- app_assoc. simpl. now rewrite andb_assoc.
Qed.

Lemma rg_invariant_init :
  rg_invariant coord coord_eqb primary secondary rg_init.
Proof. split; simpl; auto. intros r []. Qed.

Lemma rg_invariant_step st c :
  rg_invariant coord coord_eqb primary secondary st ->
  rg_invariant coord coord_eqb primary secondary
    (rg_step coord_eqb primary secondary st c).
Proof.
  intros [Hc Hn Hr].
  destruct (rg_step_cases st c) as [[He Hg]|[Hin (a & Ha & He & Hg)]].
  - split; rewrite ?He, ?Hg; auto.
  - split; rewrite ?He, ?Hg.
    + rewrite map_app, Hc. reflexivity.
    + rewrite no_repeat_snoc, Hn. simpl. now rewrite Hin.
    + intros r Hr'. apply in_app_or in Hr'.
      destruct Hr' as [Hr'|[<-|[]]]; auto.
Qed.



End ReverseGeocodeFacts.



(** A service that answers [None] has not failed: the text "None" becomes
    the name of the record. *)
Lemma reverse_geocode_none_is_a_name (secondary : reverse_service point) :
  reverse_geocode point_eqb (fun _ _ => NoAddress) secondary [origin]
  = [mkStation None "None" origin].
Proof. reflexivity. Qed.

(** ** Data frames *)

Lemma getitem_ok df label w w' c :
  getitem df label w = (w', Ok c) ->
  w' = w /\ exists t, nth_error (frames w) df = Some t
                     /\ dict_get (columns t) label = Some c.
Proof.
  unfold getitem. intros H. apply bind_ok in H.
  destruct H as (t & w1 & Ht & H). apply frame_of_ok in Ht.
  destruct Ht as [-> Ht].
  destruct (dict_get (columns t) label) eqn:E; inversion H; subst; eauto.
Qed.

Lemma getitem_some df label w t c :
  nth_error (frames w) df = Some t ->
  dict_get (columns t) label = Some c ->
  getitem df label w = (w, Ok c).
Proof.
  intros Ht Hc. unfold getitem, bind. rewrite (frame_of_some _ _ _ Ht).
  now rewrite Hc.
Qed.

Lemma lift_result_ok {A} (r : result A) w w' a :
  lift_result r w = (w', Ok a) -> w' = w /\ r = Ok a.
Proof. destruct r; simpl; intros H; inversion H; auto. Qed.

Lemma insert_last_ok df label c w w' u :
  insert_last df label c w = (w', Ok u) ->
  exists t, nth_error (frames w) df = Some t
            /\ has_column t label = false
            /\ w' = with_frame w df
                      (mkFrame (row_labels t) (columns t ++ [(label, c)])%list).
Proof.
  unfold insert_last. intros H. apply bind_ok in H.
  destruct H as (t & w1 & Ht & H). apply frame_of_ok in Ht.
  destruct Ht as [-> Ht]. exists t.
  destruct (has_column t label); inversion H. auto.
Qed.

Lemma insert_last_some df label c w t :
  nth_error (frames w) df = Some t ->
  has_column t label = false ->
  insert_last df label c w
  = (with_frame w df
       (mkFrame (row_labels t) (columns t ++ [(label, c)])%list), Ok tt).
Proof.
  intros Ht Hc. unfold insert_last, bind. rewrite (frame_of_some _ _ _ Ht).
  now rewrite Hc.
Qed.

Lemma setitem_some df label c w t :
  nth_error (frames w) df = Some t ->
  setitem df label c w
  = (with_frame w df (mkFrame (row_labels t) (dict_set (columns t) label c)),
     Ok tt).
Proof.
  intros Ht. unfold setitem, bind. now rewrite (frame_of_some _ _ _ Ht).
Qed.

Lemma frames_with_frame_same w df t t0 :
  nth_error (frames w) df = Some t0 ->
  nth_error (frames (with_frame w df t)) df = Some t.
Proof.
  intros H. simpl. apply nth_error_list_update_same.
  apply nth_error_Some. congruence.
Qed.

Lemma frames_with_frame_other w df df' t :
  df <> df' ->
  nth_error (frames (with_frame w df t)) df' = nth_error (frames w) df'.
Proof. intros H. simpl. now apply nth_error_list_update_other. Qed.

Lemma has_column_app_last (cols : dict column) label c :
  dict_mem (cols ++ [(label, c)])%list label = true.
Proof.
  unfold dict_mem. rewrite dict_get_app.
  destruct (dict_get cols label); auto.
  simpl. now rewrite String.eqb_refl.
Qed.


(** ** add_avg_trips_last_4_weeks *)

(** When the call returns, it returns its argument, and the frame has the
    column. *)
Lemma add_avg_ok features w w' r :
  add_avg_trips_last_4_weeks features w = (w', Ok r) ->
  r = features
  /\ exists t', nth_error (frames w') features = Some t'
               /\ has_column t' "average_trips_last_4_weeks" = true.
Proof.
  unfold add_avg_trips_last_4_weeks. intros H.
  apply bind_ok in H. destruct H as (t & w0 & Ht & H).
  apply frame_of_ok in Ht. destruct Ht as [-> Ht].
  apply bind_ok in H. destruct H as (u & w1 & Hbody & H).
  inversion H; subst; clear H. split; auto.
  destruct (has_column t "average_trips_last_4_weeks") eqn:Hcol; simpl in Hbody.
  - inversion Hbody; subst. eauto.
  - do 8 (apply bind_ok in Hbody;
          destruct Hbody as (? & ? & ?Hstep & Hbody)).
    repeat match goal with
           | H : getitem _ _ _ = (_, Ok _) |- _ =>
               apply getitem_ok in H; destruct H as [-> _]
           | H : lift_result _ _ = (_, Ok _) |- _ =>
               apply lift_result_ok in H; destruct H as [-> _]
           end.
    apply insert_last_ok in Hbody. destruct Hbody as (t0 & Ht0 & _ & ->).
    eexists. split.
    + eapply frames_with_frame_same; eauto.
    + apply has_column_app_last.
Qed.

(** When the column is there, the call does nothing. *)
Lemma add_avg_present features w t :
  nth_error (frames w) features = Some t ->
  has_column t "average_trips_last_4_weeks" = true ->
  add_avg_trips_last_4_weeks features w = (w, Ok features).
Proof.
  intros Ht Hcol. unfold add_avg_trips_last_4_weeks, bind.
  rewrite (frame_of_some _ _ _ Ht), Hcol. reflexivity.
Qed.





(** ** add_hours_and_days *)

Lemma hour_range (x : Timestamp) : 0 <= hour x <= 23.
Proof. unfold hour. pose proof (Z.mod_pos_bound (x / ns_per_hour) 24). lia. Qed.

Lemma dayofweek_range (x : Timestamp) : 0 <= dayofweek x <= 6.
Proof.
  unfold dayofweek. pose proof (Z.mod_pos_bound (x / ns_per_day + 3) 7). lia.
Qed.

(** The rows of a column derived from timestamps. *)
Lemma apply_attr_row (f : Timestamp -> Z) (xs : list (option Timestamp)) i :
  match nth_error xs i with
  | Some (Some x) => int_at (apply_attr f xs) i (f x)
  | Some None => null_at (apply_attr f xs) i
  | None => True
  end.
Proof.
  unfold apply_attr.
  destruct (nth_error xs i) as [[x|]|] eqn:E; auto;
    destruct (all_some xs) eqn:Hall; simpl.
  - now rewrite nth_error_map, E.
  - now rewrite nth_error_map, E.
  - apply nth_error_In in E. unfold all_some in Hall.
    rewrite forallb_forall in Hall. apply Hall in E. discriminate.
  - exists PrimFloat.nan. now rewrite nth_error_map, E.
Qed.

Lemma drop_ok df label w w' r :
  drop df label w = (w', Ok r) ->
  exists t,
    nth_error (frames w) df = Some t
    /\ nth_error (frames w') r = Some (without_column t label).
Proof.
  unfold drop. intros H. apply bind_ok in H.
  destruct H as (t & w1 & Ht & H). apply frame_of_ok in Ht.
  destruct Ht as [-> Ht]. exists t. split; auto.
  destruct (has_column t label); inversion H. simpl.
  rewrite nth_error_app2, Nat.sub_diag; auto.
Qed.

Lemma drop_some df label w t :
  nth_error (frames w) df = Some t ->
  has_column t label = true ->
  drop df label w
  = (mkWorld (frames w ++ [without_column t label]) (requests w),
     Ok (List.length (frames w))).
Proof.
  intros Ht Hc. unfold drop, bind. rewrite (frame_of_some _ _ _ Ht).
  now rewrite Hc.
Qed.

Lemma dict_mem_set_other {V} (d : dict V) k k' v :
  String.eqb k' k = false -> dict_mem (dict_set d k v) k' = dict_mem d k'.
Proof. intros H. unfold dict_mem. now rewrite dict_get_set_other. Qed.

Lemma dict_mem_set_same {V} (d : dict V) k v :
  dict_mem (dict_set d k v) k = true.
Proof. unfold dict_mem. now rewrite dict_get_set_same. Qed.

Lemma dict_mem_app {V} (d d' : dict V) k :
  dict_mem (d ++ d')%list k = (dict_mem d k || dict_mem d' k)%bool.
Proof.
  unfold dict_mem. rewrite dict_get_app. destruct (dict_get d k); auto.
Qed.

Lemma list_update_twice {A} (l : list A) n a b :
  list_update (list_update l n a) n b = list_update l n b.
Proof.
  revert n. induction l as [|x l IH]; intros [|n]; simpl; auto.
  now rewrite IH.
Qed.

Lemma with_frame_twice w df t t' :
  with_frame (with_frame w df t) df t' = with_frame w df t'.
Proof. unfold with_frame. simpl. now rewrite list_update_twice. Qed.

Section AddHoursAndDays.

Variable to_datetime : column -> list (option Timestamp).

Lemma add_hours_and_days_run features scenario w t c :
  nth_error (frames w) features = Some t ->
  dict_get (columns t) (scenario ++ "_hour") = Some c ->
  has_column t "hour" = false ->
  has_column t "day_of_the_week" = false ->
  let t' := with_hours_and_days to_datetime t (scenario ++ "_hour") c in
  add_hours_and_days to_datetime features scenario w
  = (mkWorld
       (frames (with_frame w features t')
        ++ [without_column t' (scenario ++ "_hour")])
       (requests w),
     Ok (List.length (frames w))).
Proof.
  intros Ht Hc Hh Hd t'. unfold add_hours_and_days.
  set (label := scenario ++ "_hour") in *.
  set (xs := to_datetime c).
  set (t1 := mkFrame (row_labels t) (dict_set (columns t) label (TimeCol xs))).
  assert (Ht1 : nth_error (frames (with_frame w features t1)) features
                = Some t1) by (eapply frames_with_frame_same; eauto).
  assert (Hc1 : dict_get (columns t1) label = Some (TimeCol xs))
    by apply dict_get_set_same.
  assert (Hh1 : has_column t1 "hour" = false).
  { unfold has_column. simpl. rewrite dict_mem_set_other; auto.
    apply hour_is_not_an_hour_label. }
  assert (Hd1 : has_column t1 "day_of_the_week" = false).
  { unfold has_column. simpl. rewrite dict_mem_set_other; auto.
    apply day_is_not_an_hour_label. }
  set (t2 := mkFrame (row_labels t1)
               (columns t1 ++ [("hour", apply_attr hour xs)])%list).
  assert (Ht2 : nth_error (frames (with_frame w features t2)) features
                = Some t2) by (eapply frames_with_frame_same; eauto).
  assert (Hd2 : has_column t2 "day_of_the_week" = false).
  { unfold has_column in *. simpl. rewrite dict_mem_app.
    simpl in Hd1. rewrite Hd1. reflexivity. }
  assert (Ht3 : nth_error (frames (with_frame w features t')) features
                = Some t') by (eapply frames_with_frame_same; eauto).
  assert (Hl3 : has_column t' label = true).
  { unfold has_column. simpl. rewrite !dict_mem_app.
    now rewrite dict_mem_set_same. }
  unfold bind.
  rewrite (getitem_some _ _ _ _ _ Ht Hc).
  rewrite (setitem_some _ _ _ _ _ Ht). fold xs. fold t1.
  rewrite (getitem_some _ _ _ _ _ Ht1 Hc1). simpl.
  rewrite (getitem_some _ _ _ _ _ Ht1 Hc1). simpl.
  rewrite (insert_last_some _ _ _ _ _ Ht1 Hh1).
  rewrite with_frame_twice. fold t2.
  rewrite (insert_last_some _ _ _ _ _ Ht2 Hd2).
  rewrite with_frame_twice.
  change (mkFrame (row_labels t2)
            (columns t2
             ++ [("day_of_the_week", apply_attr dayofweek xs)])%list)
    with t'.
  rewrite (drop_some _ _ _ _ Ht3 Hl3). simpl.
  now rewrite length_list_update.
Qed.

(** When the call returns, the frame had the column to read and had
    neither of the columns to add. *)
Lemma add_hours_and_days_ok features scenario w w' r :
  add_hours_and_days to_datetime features scenario w = (w', Ok r) ->
  exists t c,
    nth_error (frames w) features = Some t
    /\ dict_get (columns t) (scenario ++ "_hour") = Some c
    /\ has_column t "hour" = false
    /\ has_column t "day_of_the_week" = false.
Proof.
  unfold add_hours_and_days. intros H.
  apply bind_ok in H. destruct H as (c & w1 & Hc & H).
  apply getitem_ok in Hc. destruct Hc as [-> (t & Ht & Hc)].
  exists t, c. split; auto. split; auto.
  unfold bind in H. rewrite (setitem_some _ _ _ _ _ Ht) in H.
  set (label := scenario ++ "_hour") in *.
  set (t1 := mkFrame (row_labels t)
               (dict_set (columns t) label (TimeCol (to_datetime c)))) in *.
  assert (Ht1 : nth_error (frames (with_frame w features t1)) features
                = Some t1) by (eapply frames_with_frame_same; eauto).
  assert (Hc1 : dict_get (columns t1) label
                = Some (TimeCol (to_datetime c)))
    by apply dict_get_set_same.
  rewrite (getitem_some _ _ _ _ _ Ht1 Hc1) in H. simpl in H.
  rewrite (getitem_some _ _ _ _ _ Ht1 Hc1) in H. simpl in H.
  assert (E1 : has_column t1 "hour" = has_column t "hour").
  { unfold has_column. simpl. rewrite dict_mem_set_other; auto.
    apply hour_is_not_an_hour_label. }
  assert (E2 : has_column t1 "day_of_the_week"
               = has_column t "day_of_the_week").
  { unfold has_column. simpl. rewrite dict_mem_set_other; auto.
    apply day_is_not_an_hour_label. }
  destruct (has_column t1 "hour") eqn:Hh.
  - unfold insert_last, bind in H.
    rewrite (frame_of_some _ _ _ Ht1), Hh in H. discriminate.
  - rewrite (insert_last_some _ _ _ _ _ Ht1 Hh) in H.
    rewrite with_frame_twice in H.
    split; [congruence|].
    set (t2 := mkFrame (row_labels t1)
                 (columns t1
                  ++ [("hour", apply_attr hour (to_datetime c))])%list) in *.
    assert (Ht2 : nth_error (frames (with_frame w features t2)) features
                  = Some t2) by (eapply frames_with_frame_same; eauto).
    destruct (has_column t "day_of_the_week") eqn:Hd; auto.
    assert (Hd2 : has_column t2 "day_of_the_week" = true).
    { unfold has_column in *. simpl. rewrite dict_mem_app.
      simpl in E2. rewrite E2. reflexivity. }
    unfold insert_last, bind in H.
    rewrite (frame_of_some _ _ _ Ht2), Hd2 in H. discriminate.
Qed.

End AddHoursAndDays.

Lemma nth_error_new_frame (l l' : list DataFrame) (t : DataFrame) :
  List.length l' = List.length l ->
  nth_error (l' ++ [t]) (List.length l) = Some t.
Proof. intros H. rewrite nth_error_app2, H, Nat.sub_diag; auto. lia. Qed.

Lemma has_column_without t label :
  has_column (without_column t label) label = false.
Proof.
  unfold has_column, without_column, dict_mem. simpl.
  now rewrite dict_get_filter_same.
Qed.

(** C8: the frame that [add_hours_and_days] returns has no
    [{scenario}_hour] column; on a frame that has this column and has no
    column "hour" or "day_of_the_week" the call returns, and on every row
    whose value parsed the new columns hold an hour from 0 to 23 and a day
    from 0 to 6, and on every row whose value did not parse they are
    missing. *)
Theorem add_hours_and_days_columns :
  forall (to_datetime : column -> list (option Timestamp))
         (features : ref) (scenario : string) (w : world),
    (forall w' r,
        add_hours_and_days to_datetime features scenario w = (w', Ok r) ->
        exists t', nth_error (frames w') r = Some t'
                   /\ has_column t' (scenario ++ "_hour") = false)
    /\ (forall t c,
           nth_error (frames w) features = Some t ->
           dict_get (columns t) (scenario ++ "_hour") = Some c ->
           has_column t "hour" = false ->
           has_column t "day_of_the_week" = false ->
           exists w' r t' hours days,
             add_hours_and_days to_datetime features scenario w = (w', Ok r)
             /\ nth_error (frames w') r = Some t'
             /\ has_column t' (scenario ++ "_hour") = false
             /\ dict_get (columns t') "hour" = Some hours
             /\ dict_get (columns t') "day_of_the_week" = Some days
             /\ forall i,
                  match nth_error (to_datetime c) i with
                  | Some (Some x) =>
                      int_at hours i (hour x) /\ 0 <= hour x <= 23
                      /\ int_at days i (dayofweek x)
                      /\ 0 <= dayofweek x <= 6
                  | Some None => null_at hours i /\ null_at days i
                  | None => True
                  end).
Proof.
  intros to_datetime features scenario w. split.
  - intros w' r H.
    destruct (add_hours_and_days_ok _ _ _ _ _ _ H) as (t & c & Ht & Hc & Hh & Hd).
    rewrite (add_hours_and_days_run _ _ _ _ _ _ Ht Hc Hh Hd) in H.
    inversion H; subst; clear H. eexists. split.
    + simpl. apply nth_error_new_frame, length_list_update.
    + apply has_column_without.
  - intros t c Ht Hc Hh Hd.
    do 5 eexists. split; [apply (add_hours_and_days_run _ _ _ _ _ _ Ht Hc Hh Hd)|].
    split; [simpl; apply nth_error_new_frame, length_list_update|].
    split; [apply has_column_without|].
    unfold has_column, dict_mem in Hh, Hd.
    destruct (dict_get (columns t) "hour") eqn:Eh; [discriminate|].
    destruct (dict_get (columns t) "day_of_the_week") eqn:Ed; [discriminate|].
    split; [|split].
    + simpl. rewrite dict_get_filter_other by apply hour_is_not_an_hour_label.
      rewrite !dict_get_app.
      rewrite dict_get_set_other by apply hour_is_not_an_hour_label.
      rewrite Eh. reflexivity.
    + simpl. rewrite dict_get_filter_other by apply day_is_not_an_hour_label.
      rewrite !dict_get_app.
      rewrite dict_get_set_other by apply day_is_not_an_hour_label.
      rewrite Ed. reflexivity.
    + intros i.
      pose proof (apply_attr_row hour (to_datetime c) i) as Hhour.
      pose proof (apply_attr_row dayofweek (to_datetime c) i) as Hday.
      destruct (nth_error (to_datetime c) i) as [[x|]|]; auto.
      repeat split; auto; try apply hour_range; apply dayofweek_range.
Qed.

(** On the two records of a Monday, at midnight and at noon: hours 0 and
    12, day 0. *)
Lemma add_hours_and_days_monday :
  exists w' r t' hours days,
    add_hours_and_days to_datetime_numeric 0%nat "start"
      (mkWorld [trips_frame monday_hours station_names] []) = (w', Ok r)
    /\ nth_error (frames w') r = Some t'
    /\ has_column t' "start_hour" = false
    /\ dict_get (columns t') "hour" = Some hours
    /\ dict_get (columns t') "day_of_the_week" = Some days
    /\ int_at hours 1 12 /\ int_at days 1 0.
Proof.
  destruct (proj2 (add_hours_and_days_columns to_datetime_numeric 0%nat "start"
                     (mkWorld [trips_frame monday_hours station_names] []))
              (trips_frame monday_hours station_names) monday_hours
              eq_refl eq_refl eq_refl eq_refl)
    as (w' & r & t' & hours & days & Hrun & Hr & Hno & Hh & Hd & Hrows).
  exists w', r, t', hours, days.
  repeat (split; [assumption|]).
  specialize (Hrows 1%nat). simpl in Hrows.
  destruct Hrows as (H1 & _ & H2 & _). split; assumption.
Defined.

(** ** add_coordinates_to_dataframe *)

Lemma collect_coordinates_lists names places_and_points :
  forall geodata,
    latitudes (collect_coordinates names places_and_points geodata)
    = (latitudes geodata
       ++ flat_map (appended_for places_and_points) names)%list
    /\ longitudes (collect_coordinates names places_and_points geodata)
       = (longitudes geodata
          ++ flat_map (appended_for places_and_points) names)%list.
Proof.
  induction names as [|place rest IH]; intros geodata; simpl.
  - now rewrite !app_nil_r.
  - destruct (IH (match dict_get places_and_points place with
                  | Some pt =>
                      mkGeocoder (data geodata) (scenario geodata)
                        (latitudes geodata ++ [fst pt])
                        (longitudes geodata ++ [fst pt])
                        (place_names geodata)
                  | None => geodata
                  end)) as [Hlat Hlon].
    rewrite Hlat, Hlon. unfold appended_for.
    destruct (dict_get places_and_points place); simpl;
      rewrite <- ?app_assoc; auto.
Qed.

Lemma setitem_series_ok df label values w w' u :
  setitem_series df label values w = (w', Ok u) ->
  exists t,
    nth_error (frames w) df = Some t
    /\ w' = with_frame w df
              (mkFrame (row_labels t)
                 (dict_set (columns t) label
                    (series_on (row_labels t) values))).
Proof.
  unfold setitem_series. intros H. apply bind_ok in H.
  destruct H as (t & w1 & Ht & H). apply frame_of_ok in Ht.
  destruct Ht as [-> Ht]. exists t. split; auto.
  rewrite (setitem_some _ _ _ _ _ Ht) in H. now inversion H.
Qed.

Lemma Geocoder_init_ok features scenario w w' geodata :
  Geocoder_init features scenario w = (w', Ok geodata) ->
  latitudes geodata = [] /\ longitudes geodata = [].
Proof.
  unfold Geocoder_init. intros H.
  apply bind_ok in H. destruct H as (c & w1 & _ & H).
  apply bind_ok in H. destruct H as (names & w2 & _ & H).
  inversion H. auto.
Qed.

(** What the statements after [geocode] leave when they return. *)
Lemma add_coordinates_after_geocode_ok features scenario geodata pp w w' r :
  add_coordinates_after_geocode features scenario geodata pp w = (w', Ok r) ->
  exists t t',
    nth_error (frames w) features = Some t
    /\ r = features
    /\ nth_error (frames w') features = Some t'
    /\ row_labels t' = row_labels t
    /\ columns t'
       = dict_set
           (dict_set (columns t) (scenario ++ "_latitude")
              (series_on (row_labels t)
                 (latitudes geodata
                  ++ flat_map (appended_for pp) (place_names geodata))))
           (scenario ++ "_longitude")
           (series_on (row_labels t)
              (longitudes geodata
               ++ flat_map (appended_for pp) (place_names geodata))).
Proof.
  unfold add_coordinates_after_geocode. intros H.
  destruct (collect_coordinates_lists (place_names geodata) pp geodata)
    as [Hlat Hlon].
  rewrite Hlat, Hlon in H.
  apply bind_ok in H. destruct H as (u1 & w3 & Hset1 & H).
  apply bind_ok in H. destruct H as (u2 & w4 & Hset2 & H).
  inversion H; subst; clear H.
  apply setitem_series_ok in Hset1. destruct Hset1 as (t2 & Ht2 & ->).
  apply setitem_series_ok in Hset2. destruct Hset2 as (t3 & Ht3 & ->).
  rewrite (frames_with_frame_same _ _ _ _ Ht2) in Ht3.
  inversion Ht3; subst; clear Ht3.
  exists t2. eexists. split; [exact Ht2|]. split; [reflexivity|]. split.
  - eapply frames_with_frame_same.
    eapply frames_with_frame_same. eassumption.
  - split; reflexivity.
Qed.

(** ** finish_feature_engineering *)

(** What [add_avg_trips_last_4_weeks] leaves when it returns: its frame has
    kept its columns, the other frames and the requests are as before. *)
Lemma add_avg_frames features w w' r :
  add_avg_trips_last_4_weeks features w = (w', Ok r) ->
  exists t t',
    nth_error (frames w) features = Some t
    /\ nth_error (frames w') features = Some t'
    /\ (forall label c,
          dict_get (columns t) label = Some c ->
          dict_get (columns t') label = Some c)
    /\ (forall df, df <> features ->
                   nth_error (frames w') df = nth_error (frames w) df)
    /\ requests w' = requests w.
Proof.
  unfold add_avg_trips_last_4_weeks. intros H.
  apply bind_ok in H. destruct H as (t & w0 & Ht & H).
  apply frame_of_ok in Ht. destruct Ht as [-> Ht].
  apply bind_ok in H. destruct H as (u & w1 & Hbody & H).
  inversion H; subst; clear H. exists t.
  destruct (has_column t "average_trips_last_4_weeks") eqn:Hcol; simpl in Hbody.
  - inversion Hbody; subst. exists t. auto.
  - do 8 (apply bind_ok in Hbody;
          destruct Hbody as (? & ? & ?Hstep & Hbody)).
    repeat match goal with
           | H : getitem _ _ _ = (_, Ok _) |- _ =>
               apply getitem_ok in H; destruct H as [-> _]
           | H : lift_result _ _ = (_, Ok _) |- _ =>
               apply lift_result_ok in H; destruct H as [-> _]
           end.
    apply insert_last_ok in Hbody. destruct Hbody as (t0 & Ht0 & _ & ->).
    assert (t0 = t) by congruence. subst t0.
    eexists. split; auto. split.
    + eapply frames_with_frame_same; eauto.
    + split; [|split]; auto.
      * intros label c Hc. simpl. rewrite dict_get_app. now rewrite Hc.
      * intros df Hdf. apply frames_with_frame_other. auto.
Qed.

Section Finish.

Variable services : geocoding_services.
Variable to_datetime : column -> list (option Timestamp).
Variable displayed_scenario_names : dict string.

(** The two transforms in sequence, as [finish_feature_engineering] runs
    them. *)
Lemma transforms_ok features scenario w w' final :
  (features_with_hours_and_days <-
     add_hours_and_days to_datetime features scenario ;;
   add_avg_trips_last_4_weeks features_with_hours_and_days) w
  = (w', Ok final) ->
  exists t c tf,
    nth_error (frames w) features = Some t
    /\ dict_get (columns t) (scenario ++ "_hour") = Some c
    /\ final = List.length (frames w)
    /\ nth_error (frames w') final = Some tf
    /\ has_column tf "day_of_the_week" = true
    /\ nth_error (frames w') features
       = Some (with_hours_and_days to_datetime t (scenario ++ "_hour") c)
    /\ requests w' = requests w.
Proof.
  intros H. apply bind_ok in H. destruct H as (r1 & w1 & H1 & H2).
  destruct (add_hours_and_days_ok _ _ _ _ _ _ H1)
    as (t & c & Ht & Hc & Hh & Hd).
  rewrite (add_hours_and_days_run _ _ _ _ _ _ Ht Hc Hh Hd) in H1.
  inversion H1; subst; clear H1.
  destruct (add_avg_ok _ _ _ _ H2) as [-> _].
  destruct (add_avg_frames _ _ _ _ H2)
    as (t1 & tf & Ht1 & Htf & Hkeep & Hother & Hreq).
  simpl in Ht1. rewrite nth_error_new_frame in Ht1
    by apply length_list_update.
  inversion Ht1; subst; clear Ht1.
  assert (Hlt : (features < List.length (frames w))%nat)
    by (apply nth_error_Some; congruence).
  exists t, c, tf. repeat split; auto.
  - assert (Hday :
             dict_get
               (columns
                  (without_column
                     (with_hours_and_days to_datetime t
                        (scenario ++ "_hour") c)
                     (scenario ++ "_hour")))
               "day_of_the_week"
             = Some (apply_attr dayofweek (to_datetime c))).
    { simpl.
      rewrite dict_get_filter_other by apply day_is_not_an_hour_label.
      rewrite !dict_get_app.
      rewrite dict_get_set_other by apply day_is_not_an_hour_label.
      unfold has_column, dict_mem in Hd.
      destruct (dict_get (columns t) "day_of_the_week"); [discriminate|].
      reflexivity. }
    unfold has_column, dict_mem. now rewrite (Hkeep _ _ Hday).
  - rewrite Hother by lia. simpl.
    rewrite nth_error_app1 by (rewrite length_list_update; lia).
    apply nth_error_list_update_same. lia.
Qed.

End Finish.

(** C4: when, after the two transforms, the frame lacks the column
    "day_of_the_week" or "average_trips_last_4_weeks", or has nulls in one
    of them, [finish_feature_engineering] raises [AssertionError] and
    returns no frame, whether geocoding was asked for or not. *)
Theorem finish_feature_engineering_asserts :
  forall (services : geocoding_services)
         (to_datetime : column -> list (option Timestamp))
         (displayed_scenario_names : dict string)
         (features : ref) (scenario : string) (geocode : bool)
         (w w' : world) (final : ref) (t : DataFrame),
    dict_mem displayed_scenario_names scenario = true ->
    (features_with_hours_and_days <-
       add_hours_and_days to_datetime features scenario ;;
     add_avg_trips_last_4_weeks features_with_hours_and_days) w
    = (w', Ok final) ->
    nth_error (frames w') final = Some t ->
    postcondition_violated t = true ->
    finish_feature_engineering services to_datetime displayed_scenario_names
      features scenario geocode w
    = (w', Err AssertionError).
Proof.
  intros services to_datetime cfg features scenario geocode w w' final t
    Hcfg Hrun Ht Hbad.
  destruct (transforms_ok to_datetime _ _ _ _ _ Hrun)
    as (t0 & c & tf & _ & _ & _ & Htf & Hday & _ & _).
  assert (tf = t) by congruence. subst tf.
  unfold finish_feature_engineering.
  unfold dict_mem in Hcfg.
  destruct (dict_get cfg scenario); [|discriminate].
  apply bind_ok in Hrun. destruct Hrun as (r1 & w1 & H1 & H2).
  unfold bind at 1. rewrite H1.
  unfold bind at 1. rewrite H2.
  unfold bind at 1. rewrite (frame_of_some _ _ _ Ht).
  unfold postcondition_violated, has_nulls in Hbad. rewrite Hday in Hbad.
  simpl in Hbad. unfold str_and.
  destruct (has_column t "average_trips_last_4_weeks") eqn:Havg;
    [|reflexivity].
  simpl in Hbad. unfold bind at 1. simpl.
  unfold has_column, dict_mem in Hday, Havg.
  destruct (dict_get (columns t) "day_of_the_week") as [d|] eqn:Ed;
    [|discriminate].
  destruct (dict_get (columns t) "average_trips_last_4_weeks") as [a|] eqn:Ea;
    [|discriminate].
  unfold bind at 1. rewrite (getitem_some _ _ _ _ _ Ht Ed).
  destruct (isna_sum d =? 0) eqn:Hd; [|reflexivity].
  simpl in Hbad.
  unfold bind at 1. unfold bind at 1. rewrite (getitem_some _ _ _ _ _ Ht Ea).
  destruct (isna_sum a =? 0); [discriminate|reflexivity].
Qed.

(** On two records whose hours do not parse, the days are missing and the
    call raises. *)
Lemma finish_feature_engineering_asserts_unparseable :
  exists w',
    finish_feature_engineering services_time_out to_datetime_numeric
      config_scenarios 0%nat "start" false
      (mkWorld [trips_frame unparseable_hours station_names] [])
    = (w', Err AssertionError).
Proof.
  eexists.
  eapply (finish_feature_engineering_asserts services_time_out
            to_datetime_numeric config_scenarios 0%nat "start" false
            (mkWorld [trips_frame unparseable_hours station_names] [])).
  - reflexivity.
  - reflexivity.
  - reflexivity.
  - reflexivity.
Defined.

(** With geocoding, [finish_feature_engineering] does what it does without,
    and then, in place of returning, calls [add_coordinates_to_dataframe]
    on the frame it was given. *)
Lemma finish_with_geocoding services to_datetime displayed_scenario_names
    features scenario w :
  finish_feature_engineering services to_datetime displayed_scenario_names
    features scenario true w
  = match finish_feature_engineering services to_datetime
            displayed_scenario_names features scenario false w with
    | (w', Ok _) => add_coordinates_to_dataframe services features scenario w'
    | (w', Err e) => (w', Err e)
    end.
Proof.
  unfold finish_feature_engineering.
  destruct (dict_get displayed_scenario_names scenario); [|reflexivity].
  unfold bind, py_assert, ret, raise.
  repeat (match goal with
          | |- context [if ?b then _ else _] => destruct b
          | |- context [let (_, _) := ?x in _] =>
              match x with
              | context [let (_, _) := _ in _] => fail 1
              | _ => destruct x as [? [?|?]]
              end
          end; cbn beta iota); reflexivity.
Qed.

Lemma py_assert_ok b w w' u : py_assert b w = (w', Ok u) -> w' = w.
Proof. destruct b; simpl; intros H; inversion H; auto. Qed.

(** What a call without geocoding leaves when it returns. *)
Lemma finish_returns services to_datetime displayed_scenario_names
    features scenario w w' r :
  finish_feature_engineering services to_datetime displayed_scenario_names
    features scenario false w = (w', Ok r) ->
  exists t c,
    nth_error (frames w) features = Some t
    /\ dict_get (columns t) (scenario ++ "_hour") = Some c
    /\ nth_error (frames w') features
       = Some (with_hours_and_days to_datetime t (scenario ++ "_hour") c)
    /\ requests w' = requests w.
Proof.
  unfold finish_feature_engineering. intros H.
  destruct (dict_get displayed_scenario_names scenario); [|discriminate].
  apply bind_ok in H. destruct H as (r1 & w1 & H1 & H).
  apply bind_ok in H. destruct H as (final & w2 & H2 & H).
  assert (Hrun : (features_with_hours_and_days <-
                    add_hours_and_days to_datetime features scenario ;;
                  add_avg_trips_last_4_weeks features_with_hours_and_days) w
                 = (w2, Ok final))
    by (unfold bind; rewrite H1; exact H2).
  destruct (transforms_ok to_datetime _ _ _ _ _ Hrun)
    as (t & c & tf & Ht & Hc & _ & _ & _ & Hfeat & Hreq).
  apply bind_ok in H. destruct H as (tf' & w3 & H3 & H).
  apply frame_of_ok in H3. destruct H3 as [-> _].
  apply bind_ok in H. destruct H as (u1 & w4 & H4 & H).
  apply py_assert_ok in H4. subst w4.
  apply bind_ok in H. destruct H as (d & w5 & H5 & H).
  apply getitem_ok in H5. destruct H5 as [-> _].
  apply bind_ok in H. destruct H as (u2 & w6 & H6 & H).
  assert (w6 = w2).
  { destruct (isna_sum d =? 0).
    - apply bind_ok in H6. destruct H6 as (a & w7 & H7 & H6).
      apply getitem_ok in H7. destruct H7 as [-> _].
      now apply py_assert_ok in H6.
    - now apply py_assert_ok in H6. }
  subst w6. inversion H; subst. eauto 10.
Qed.

(** The constructor on an ordinary column of strings. *)
Lemma Geocoder_init_attribute_error features scenario w t names :
  nth_error (frames w) features = Some t ->
  dict_get (columns t) (scenario ++ "_station_name")
  = Some (StrCol false names) ->
  Geocoder_init features scenario w = (w, Err AttributeError).
Proof.
  intros Ht Hc. unfold Geocoder_init, bind.
  rewrite (getitem_some _ _ _ _ _ Ht Hc). reflexivity.
Qed.

(** C10, amended: on a frame whose [{scenario}_station_name] column is an
    ordinary column of strings, constructing a [Geocoder] raises
    [AttributeError], and so does [add_coordinates_to_dataframe], the world
    (its geocoding requests among it) being as before; and
    [finish_feature_engineering] with geocoding never returns a frame: when
    the same call without geocoding returns, it raises [AttributeError]
    with no geocoding request issued (otherwise it raises what its
    transforms or assertions raise). *)
Theorem geocoder_attribute_error :
  forall (services : geocoding_services)
         (to_datetime : column -> list (option Timestamp))
         (displayed_scenario_names : dict string)
         (features : ref) (scenario : string) (w : world)
         (t : DataFrame) (names : list string),
    nth_error (frames w) features = Some t ->
    dict_get (columns t) (scenario ++ "_station_name")
    = Some (StrCol false names) ->
    Geocoder_init features scenario w = (w, Err AttributeError)
    /\ add_coordinates_to_dataframe services features scenario w
       = (w, Err AttributeError)
    /\ (forall w' r,
          finish_feature_engineering services to_datetime
            displayed_scenario_names features scenario true w
          <> (w', Ok r))
    /\ (forall w' r,
          finish_feature_engineering services to_datetime
            displayed_scenario_names features scenario false w
          = (w', Ok r) ->
          finish_feature_engineering services to_datetime
            displayed_scenario_names features scenario true w
          = (w', Err AttributeError)
          /\ requests w' = requests w).
Proof.
  intros services to_datetime cfg features scenario w t names Ht Hc.
  assert (Hadd : forall w1 t1,
             nth_error (frames w1) features = Some t1 ->
             dict_get (columns t1) (scenario ++ "_station_name")
             = Some (StrCol false names) ->
             add_coordinates_to_dataframe services features scenario w1
             = (w1, Err AttributeError)).
  { intros w1 t1 Ht1 Hc1. unfold add_coordinates_to_dataframe, bind.
    now rewrite (Geocoder_init_attribute_error _ _ _ _ _ Ht1 Hc1). }
  assert (Hfin : forall w' r,
             finish_feature_engineering services to_datetime cfg features
               scenario false w = (w', Ok r) ->
             finish_feature_engineering services to_datetime cfg features
               scenario true w = (w', Err AttributeError)
             /\ requests w' = requests w).
  { intros w' r H. rewrite finish_with_geocoding, H.
    destruct (finish_returns _ _ _ _ _ _ _ _ H)
      as (t0 & c & Ht0 & Hc0 & Hfeat & Hreq).
    assert (t0 = t) by congruence. subst t0.
    split; auto. eapply Hadd; eauto.
    simpl. rewrite !dict_get_app.
    rewrite dict_get_set_other by now rewrite append_eqb_cancel.
    now rewrite Hc. }
  split; [eapply Geocoder_init_attribute_error; eauto|].
  split; [eapply Hadd; eauto|].
  split; auto.
  intros w' r H. rewrite finish_with_geocoding in H.
  destruct (finish_feature_engineering services to_datetime cfg features
              scenario false w) as [w1 [r1|e]] eqn:E.
  - destruct (Hfin _ _ eq_refl) as [H' _].
    rewrite finish_with_geocoding, E in H'. congruence.
  - discriminate.
Qed.

(** On two Monday records with ordinary station names. *)
Lemma geocoder_attribute_error_monday :
  exists w',
    finish_feature_engineering services_time_out to_datetime_numeric
      config_scenarios 0%nat "start" true
      (mkWorld [trips_frame monday_hours station_names] [])
    = (w', Err AttributeError)
    /\ requests w' = [].
Proof.
  eexists.
  eapply (proj2 (proj2 (proj2
            (geocoder_attribute_error services_time_out to_datetime_numeric
               config_scenarios 0%nat "start"
               (mkWorld [trips_frame monday_hours station_names] [])
               (trips_frame monday_hours station_names)
               ["Clark St & Lake St"; "State St & Kinzie St"]
               eq_refl eq_refl)))).
  reflexivity.
Defined.

(** C10 as stated does not hold of [finish_feature_engineering]: on
    records with ordinary station names whose hours do not parse, the call
    with geocoding raises [AssertionError], not [AttributeError]. *)
Lemma finish_raises_before_the_geocoder :
  snd (finish_feature_engineering services_time_out to_datetime_numeric
         config_scenarios 0%nat "start" true
         (mkWorld [trips_frame unparseable_hours station_names] []))
  = Err AssertionError
  /\ snd (finish_feature_engineering services_time_out to_datetime_numeric
            config_scenarios 0%nat "start" true
            (mkWorld [trips_frame unparseable_hours station_names] []))
     <> Err AttributeError.
Proof. split; [reflexivity|discriminate]. Qed.

(** C5 (the code departs from it): with geocoding, the frame returned is
    expected to have the columns "hour", "day_of_the_week" and
    "average_trips_last_4_weeks" next to the two coordinate columns.  On two
    Monday records of the station "HQ" (a category, resolved by the first
    service) the call returns the frame it was given, which has the
    coordinate columns, "hour" and "day_of_the_week", still has
    "start_hour", and has no "average_trips_last_4_weeks": the average was
    added to the frame made by [drop], not to this one. *)
Theorem finish_with_geocoding_loses_the_average :
  let run :=
    finish_feature_engineering (nominatim_resolves "HQ" chicago)
      to_datetime_numeric config_scenarios 0%nat "start" true
      (mkWorld [trips_frame monday_hours two_letter_names] []) in
  snd run = Ok 0%nat
  /\ option_map (fun t => dict_keys (columns t))
       (nth_error (frames (fst run)) 0)
     = Some ["start_hour"; "start_station_name";
             "trips_previous_168_hour"; "trips_previous_336_hour";
             "trips_previous_504_hour"; "trips_previous_672_hour";
             "hour"; "day_of_the_week";
             "start_latitude"; "start_longitude"]
  /\ option_map (fun t => has_column t "average_trips_last_4_weeks")
       (nth_error (frames (fst run)) 0)
     = Some false.
Proof. repeat split. Qed.

(** The coordinate labels are not the label of the average. *)
Lemma average_is_not_a_latitude_label (s : string) :
  String.eqb "average_trips_last_4_weeks" (s ++ "_latitude") = false.
Proof. label_cases s. Qed.

Lemma average_is_not_a_longitude_label (s : string) :
  String.eqb "average_trips_last_4_weeks" (s ++ "_longitude") = false.
Proof. label_cases s. Qed.

(** Geocoding leaves the frames as they are. *)
Lemma trigger_geocoder_loop_frames services geocoder names :
  forall pp w,
    frames (fst (_trigger_geocoder_loop services geocoder names pp w))
    = frames w.
Proof.
  induction names as [|place rest IH]; intros pp w; simpl; auto.
  destruct (dict_mem pp place); [apply IH|].
  unfold bind, catch, geocoder_geocode, subscript_last, except_bool, raise, ret.
  destruct (services (requests w) geocoder place) as [a p| |e]; simpl.
  - rewrite IH. reflexivity.
  - match goal with
    | |- context [match ?x with Location _ _ => _ | _ => _ end] =>
        destruct x; reflexivity
    end.
  - match goal with
    | |- context [match ?x with Location _ _ => _ | _ => _ end] =>
        destruct x; reflexivity
    end.
Qed.

Lemma geocode_frames services self w w' d :
  geocode services self w = (w', Ok d) -> frames w' = frames w.
Proof.
  unfold geocode. intros H.
  apply bind_ok in H. destruct H as (nominatim_results & w1 & H1 & H).
  apply bind_ok in H. destruct H as (missed & w2 & Hm & H).
  apply places_missed_ok in Hm. destruct Hm as [-> ->].
  apply bind_ok in H. destruct H as (final & w3 & Hf & H).
  inversion Hf; subst. inversion H; subst.
  unfold _trigger_geocoder in H1.
  pose proof (trigger_geocoder_loop_frames services Nominatim
                (place_names self) [] w) as Hfr.
  rewrite H1 in Hfr. exact Hfr.
Qed.

Lemma Geocoder_init_world features scenario w w' geodata :
  Geocoder_init features scenario w = (w', Ok geodata) -> w' = w.
Proof.
  unfold Geocoder_init. intros H.
  apply bind_ok in H. destruct H as (c & w1 & Hc & H).
  apply getitem_ok in Hc. destruct Hc as [-> _].
  apply bind_ok in H. destruct H as (names & w2 & Hn & H).
  inversion H; subst.
  destruct (unique c); simpl in Hn; inversion Hn; auto.
Qed.

(** ** add_coordinates_to_dataframe: the two columns *)

(** C9: for every place name in the mapping, the loop of
    [add_coordinates_to_dataframe] appends the first component of its point
    (the latitude) to the list of latitudes and to the list of longitudes.
    Whatever the mapping, when the statements after [geocode] return, the
    column [{scenario}_latitude] of the frame is the series of the
    latitudes so appended and the column [{scenario}_longitude] is the
    series of the same appended latitudes: no second component of a point
    is written.  And when the function returns, both columns are one and
    the same series, that of the first components of the points which the
    mapping returned by [geocode] holds for the place names. *)
Theorem add_coordinates_latitude_twice :
  (forall names places_and_points geodata,
      latitudes (collect_coordinates names places_and_points geodata)
      = (latitudes geodata
         ++ flat_map (appended_for places_and_points) names)%list
      /\ longitudes (collect_coordinates names places_and_points geodata)
         = (longitudes geodata
            ++ flat_map (appended_for places_and_points) names)%list)
  /\ (forall features scenario geodata places_and_points w w' r,
         add_coordinates_after_geocode features scenario geodata
           places_and_points w = (w', Ok r) ->
         exists t t',
           nth_error (frames w) features = Some t
           /\ nth_error (frames w') r = Some t'
           /\ dict_get (columns t') (scenario ++ "_latitude")
              = Some (series_on (row_labels t)
                        (latitudes geodata
                         ++ flat_map (appended_for places_and_points)
                              (place_names geodata)))
           /\ dict_get (columns t') (scenario ++ "_longitude")
              = Some (series_on (row_labels t)
                        (longitudes geodata
                         ++ flat_map (appended_for places_and_points)
                              (place_names geodata))))
  /\ (forall services features scenario w w' r,
         add_coordinates_to_dataframe services features scenario w
         = (w', Ok r) ->
         exists geodata places_and_points w1 t t' c,
           Geocoder_init features scenario w = (w, Ok geodata)
           /\ geocode services geodata w = (w1, Ok places_and_points)
           /\ nth_error (frames w) features = Some t
           /\ nth_error (frames w') r = Some t'
           /\ c = series_on (row_labels t)
                    (flat_map (appended_for places_and_points)
                       (place_names geodata))
           /\ dict_get (columns t') (scenario ++ "_latitude") = Some c
           /\ dict_get (columns t') (scenario ++ "_longitude") = Some c).
Proof.
  split; [|split].
  - intros. apply collect_coordinates_lists.
  - intros features scenario geodata pp w w' r H.
    apply add_coordinates_after_geocode_ok in H.
    destruct H as (t & t' & Ht & -> & Ht' & _ & Hcols).
    exists t, t'. rewrite Hcols. split; [exact Ht|]. split; [exact Ht'|].
    split.
    + rewrite dict_get_set_other, dict_get_set_same; [reflexivity|].
      now rewrite append_eqb_cancel.
    + now rewrite dict_get_set_same.
  - intros services features scenario w w' r H.
    unfold add_coordinates_to_dataframe in H.
    apply bind_ok in H. destruct H as (geodata & w1 & Hinit & H).
    destruct (Geocoder_init_ok _ _ _ _ _ Hinit) as [Hlat0 Hlon0].
    pose proof (Geocoder_init_world _ _ _ _ _ Hinit) as Hw. subst w1.
    apply bind_ok in H. destruct H as (pp & w2 & Hgeo & H).
    pose proof (geocode_frames _ _ _ _ _ Hgeo) as Hframes.
    apply add_coordinates_after_geocode_ok in H.
    destruct H as (t & t' & Ht & -> & Ht' & _ & Hcols).
    rewrite Hlat0, Hlon0 in Hcols. simpl in Hcols.
    rewrite Hframes in Ht.
    exists geodata, pp, w2, t, t'. eexists.
    split; [exact Hinit|]. split; [exact Hgeo|]. split; [exact Ht|].
    split; [exact Ht'|]. split; [reflexivity|]. rewrite Hcols. split.
    + rewrite dict_get_set_other, dict_get_set_same; [reflexivity|].
      now rewrite append_eqb_cancel.
    + now rewrite dict_get_set_same.
Qed.

(** On a frame of two stations and a mapping that holds a point for each:
    both columns hold the two latitudes, and no longitude. *)
Lemma add_coordinates_latitude_twice_two_stations :
  exists t',
    nth_error
      (frames
         (fst (add_coordinates_after_geocode 0%nat "start"
                 (geocoder_for ["Clark St & Lake St"; "State St & Kinzie St"])
                 two_stations_resolved
                 (mkWorld [trips_frame monday_hours station_names] []))))
      0%nat = Some t'
    /\ dict_get (columns t') "start_latitude"
       = Some (FloatCol [fst clark_and_lake; fst chicago])
    /\ dict_get (columns t') "start_longitude"
       = Some (FloatCol [fst clark_and_lake; fst chicago]).
Proof.
  destruct (proj1 (proj2 add_coordinates_latitude_twice) 0%nat "start"
              (geocoder_for ["Clark St & Lake St"; "State St & Kinzie St"])
              two_stations_resolved
              (mkWorld [trips_frame monday_hours station_names] [])
              (fst (add_coordinates_after_geocode 0%nat "start"
                      (geocoder_for
                         ["Clark St & Lake St"; "State St & Kinzie St"])
                      two_stations_resolved
                      (mkWorld [trips_frame monday_hours station_names] [])))
              0%nat eq_refl)
    as (t & t' & Ht & Ht' & Hlat & Hlon).
  exists t'. split; [exact Ht'|].
  simpl in Ht. inversion Ht; subst t. split; [exact Hlat|exact Hlon].
Defined.

(** With geocoding, a frame that comes without the average is returned
    without it. *)
Lemma finish_with_geocoding_no_average services to_datetime
    displayed_scenario_names features scenario w w' r t :
  nth_error (frames w) features = Some t ->
  has_column t "average_trips_last_4_weeks" = false ->
  finish_feature_engineering services to_datetime displayed_scenario_names
    features scenario true w = (w', Ok r) ->
  r = features
  /\ exists t', nth_error (frames w') r = Some t'
                /\ has_column t' "average_trips_last_4_weeks" = false
                /\ has_column t' (scenario ++ "_hour") = true.
Proof.
  intros Ht Havg H. rewrite finish_with_geocoding in H.
  destruct (finish_feature_engineering services to_datetime
              displayed_scenario_names features scenario false w)
    as [w1 [r1|e]] eqn:E; [|discriminate].
  destruct (finish_returns _ _ _ _ _ _ _ _ E)
    as (t0 & c & Ht0 & Hc & Hfeat & _).
  assert (t0 = t) by congruence. subst t0.
  unfold add_coordinates_to_dataframe in H.
  apply bind_ok in H. destruct H as (geodata & w2 & Hinit & H).
  apply Geocoder_init_world in Hinit. subst w2.
  apply bind_ok in H. destruct H as (pp & w3 & Hgeo & H).
  apply geocode_frames in Hgeo.
  apply bind_ok in H. destruct H as (u1 & w4 & Hset1 & H).
  apply bind_ok in H. destruct H as (u2 & w5 & Hset2 & H).
  inversion H; subst; clear H. split; auto.
  apply setitem_series_ok in Hset1. destruct Hset1 as (t2 & Ht2 & ->).
  apply setitem_series_ok in Hset2. destruct Hset2 as (t3 & Ht3 & ->).
  rewrite (frames_with_frame_same _ _ _ _ Ht2) in Ht3.
  inversion Ht3; subst; clear Ht3.
  rewrite Hgeo, Hfeat in Ht2. inversion Ht2; subst; clear Ht2.
  eexists. split.
  - eapply frames_with_frame_same. eapply frames_with_frame_same.
    rewrite Hgeo. eassumption.
  - unfold has_column in *. simpl. split.
    + rewrite dict_mem_set_other by apply average_is_not_a_longitude_label.
      rewrite dict_mem_set_other by apply average_is_not_a_latitude_label.
      rewrite !dict_mem_app.
      rewrite dict_mem_set_other by apply average_is_not_an_hour_label.
      now rewrite Havg.
    + rewrite dict_mem_set_other by now rewrite append_eqb_cancel.
      rewrite dict_mem_set_other by now rewrite append_eqb_cancel.
      rewrite !dict_mem_app. now rewrite dict_mem_set_same.
Qed.

(** * Further properties *)

(** ** The registry of stations *)

Section Registry.

Variable coord : Type.

Lemma established_ids_loop_spec (saved : list (station coord)) :
  forall acc ids,
    established_ids_loop coord saved acc = Ok ids ->
    (forall id, In id acc -> In id ids)
    /\ (forall s, In s saved -> exists id, station_id s = Some id /\ In id ids)
    /\ (forall id, In id ids ->
                   In id acc \/ exists s, In s saved /\ station_id s = Some id).
Proof.
  induction saved as [|s rest IH]; intros acc ids H; simpl in H.
  - inversion H; subst. repeat split; auto. intros s [].
  - destruct (station_id s) as [id|] eqn:Es; [|discriminate].
    apply IH in H. destruct H as (Hacc & Hall & Hfrom).
    assert (Hin : forall x, In x acc -> In x ids).
    { intros x Hx. apply Hacc.
      destruct (existsb (Z.eqb id) acc); auto. apply in_or_app. auto. }
    assert (Hid : In id ids).
    { apply Hacc. destruct (existsb (Z.eqb id) acc) eqn:E.
      - apply existsb_exists in E. destruct E as (x & Hx & Hxe).
        apply Z.eqb_eq in Hxe. now subst.
      - apply in_or_app. right. now left. }
    repeat split; auto.
    + intros s' [<-|Hs']; eauto.
    + intros x Hx. destruct (Hfrom x Hx) as [Hx'|(s' & Hs' & Hid')].
      * destruct (existsb (Z.eqb id) acc); auto.
        apply in_app_or in Hx'. destruct Hx' as [Hx'|[<-|[]]]; auto.
        right. exists s. split; auto. now left.
      * right. exists s'. split; auto. now right.
Qed.

Lemma established_ids_loop_missing (saved : list (station coord)) :
  forall acc,
    (exists s, In s saved /\ station_id s = None) ->
    established_ids_loop coord saved acc = Err KeyError.
Proof.
  induction saved as [|s rest IH]; intros acc (s0 & Hin & Hnone); simpl.
  - destruct Hin.
  - destruct (station_id s) as [id|] eqn:Es; auto.
    apply IH. destruct Hin as [<-|Hin]; [congruence|eauto].
Qed.

Lemma fold_max_spec (xs : list Z) :
  forall x,
    x <= fold_left Z.max xs x
    /\ (forall y, In y xs -> y <= fold_left Z.max xs x)
    /\ (fold_left Z.max xs x = x \/ In (fold_left Z.max xs x) xs).
Proof.
  induction xs as [|a xs IH]; intros x; simpl.
  - split; [lia|split; [intros y []|auto]].
  - destruct (IH (Z.max x a)) as (H1 & H2 & H3).
    repeat split.
    + lia.
    + intros y [<-|Hy]; auto. lia.
    + destruct H3 as [H3|H3]; auto.
      rewrite H3. destruct (Z.max_spec x a) as [[_ ->]|[_ ->]]; auto.
Qed.

Lemma py_max_spec (l : list Z) m :
  py_max l = Ok m -> In m l /\ forall y, In y l -> y <= m.
Proof.
  destruct l as [|x xs]; simpl; intros H; inversion H; subst.
  destruct (fold_max_spec xs x) as (H1 & H2 & H3). split.
  - destruct H3 as [->|H3]; auto.
  - intros y [<-|Hy]; auto.
Qed.

(** What the second loop gives when it ends without raising. *)
Lemma assign_ids_loop_ok (new_ids : list Z) (records : list (station coord)) :
  forall i out,
    assign_ids_loop coord new_ids i records = (out, Ok tt) ->
    List.length out = List.length records
    /\ forall k r0,
         nth_error records k = Some r0 ->
         exists id,
           nth_error new_ids (i + k) = Some id
           /\ nth_error out k = Some (set_station_id coord id r0).
Proof.
  induction records as [|r rest IH]; intros i out H; simpl in H.
  - inversion H; subst. split; auto. intros [|k] r0 Hk; discriminate.
  - destruct (nth_error new_ids i) as [id|] eqn:E; [|discriminate].
    destruct (assign_ids_loop coord new_ids (S i) rest) as [rest' [[]|e]] eqn:Er;
      inversion H; subst.
    destruct (IH _ _ Er) as (Hlen & Hrows). split; [simpl; lia|].
    intros [|k] r0 Hk; simpl in Hk.
    + inversion Hk; subst. exists id. rewrite Nat.add_0_r. auto.
    + destruct (Hrows k r0 Hk) as (id' & Hid' & Hout).
      exists id'. rewrite <- Nat.add_succ_comm. auto.
Qed.

Lemma nth_error_arange_inv (start stop : Z) (k : nat) id :
  nth_error (arange start stop) k = Some id -> id = start + Z.of_nat k.
Proof.
  unfold arange. rewrite nth_error_map. rewrite nth_error_seq.
  destruct (Nat.ltb k (Z.to_nat (stop - start))); simpl; intros H;
    inversion H; auto.
Qed.

(** When [give_ids_to_the_new_names] returns, it returns the list it was
    given, updated; its records have kept name and coordinate and have the
    integers that follow the largest established identifier. *)
Lemma give_ids_ok (new_records saved out records : list (station coord)) :
  give_ids_to_the_new_names new_records saved = (records, Ok out) ->
  out = records
  /\ List.length out = List.length new_records
  /\ exists m,
      (exists s, In s saved /\ station_id s = Some m)
      /\ (forall s id, In s saved -> station_id s = Some id -> id <= m)
      /\ forall k r0,
           nth_error new_records k = Some r0 ->
           nth_error out k
           = Some (mkStation (Some (m + 1 + Z.of_nat k))
                     (station_name r0) (coordinate r0)).
Proof.
  unfold give_ids_to_the_new_names. intros H.
  destruct (established_ids_loop coord saved []) as [ids|e] eqn:Hids;
    [|inversion H].
  destruct (py_max ids) as [m|e] eqn:Hmax; [|inversion H].
  match type of H with
  | context [assign_ids_loop coord ?l 0 ?r] =>
      destruct (assign_ids_loop coord l 0 r) as [recs [[]|e]] eqn:Hloop
  end; inversion H; subst; clear H.
  split; auto.
  destruct (assign_ids_loop_ok _ _ _ _ Hloop) as (Hlen & Hrows).
  split; auto.
  destruct (established_ids_loop_spec _ _ _ Hids) as (_ & Hall & Hfrom).
  destruct (py_max_spec _ _ Hmax) as (Hin & Hle).
  exists m. repeat split.
  - destruct (Hfrom m Hin) as [[]|Hs]. exact Hs.
  - intros s id Hs Hid. destruct (Hall s Hs) as (id' & Hid' & Hin').
    apply Hle. congruence.
  - intros k r0 Hk. destruct (Hrows k r0 Hk) as (id & Hid & Hout).
    simpl in Hid. apply nth_error_arange_inv in Hid. subst id. exact Hout.
Qed.

Lemma give_ids_fresh (new_records saved out records : list (station coord)) :
  give_ids_to_the_new_names new_records saved = (records, Ok out) ->
  forall r s, In r out -> In s saved -> station_id r <> station_id s.
Proof.
  intros H r s Hr Hs Heq.
  destruct (give_ids_ok _ _ _ _ H) as (Hout & Hlen & m & Hm & Hle & Hrows).
  apply In_nth_error in Hr. destruct Hr as (k & Hk).
  assert (Hk' : (k < List.length new_records)%nat).
  { rewrite <- Hlen. apply nth_error_Some. congruence. }
  destruct (nth_error new_records k) as [r0|] eqn:E0;
    [|apply nth_error_None in E0; lia].
  rewrite (Hrows k r0 E0) in Hk. inversion Hk; subst r; clear Hk.
  simpl in Heq. symmetry in Heq. specialize (Hle s _ Hs Heq). lia.
Qed.

Lemma give_ids_distinct (new_records saved out records : list (station coord)) :
  give_ids_to_the_new_names new_records saved = (records, Ok out) ->
  NoDup (map station_id out).
Proof.
  intros H.
  destruct (give_ids_ok _ _ _ _ H) as (Hout & Hlen & m & Hm & Hle & Hrows).
  assert (Hid : forall k, (k < List.length out)%nat ->
                          nth_error (map station_id out) k
                          = Some (Some (m + 1 + Z.of_nat k))).
  { intros k Hk. rewrite Hlen in Hk.
    destruct (nth_error new_records k) as [r0|] eqn:E0;
      [|apply nth_error_None in E0; lia].
    rewrite nth_error_map, (Hrows k r0 E0). reflexivity. }
  apply NoDup_nth_error. intros i j Hi Hij.
  rewrite length_map in Hi. rewrite (Hid i Hi) in Hij.
  assert (Hj : (j < List.length out)%nat).
  { rewrite <- (length_map station_id). apply nth_error_Some. congruence. }
  rewrite (Hid j Hj) in Hij. inversion Hij. lia.
Qed.

End Registry.

(** X1: whenever [give_ids_to_the_new_names] returns, the records returned
    are the new records in their order, with name and coordinate as they
    were and with the identifiers m + 1, m + 2, ... where m is the largest
    identifier of the saved registry; none of them is the identifier of a
    saved record. *)
Theorem give_ids_follow_the_largest :
  forall (coord : Type) (new_records saved out records : list (station coord)),
    give_ids_to_the_new_names new_records saved = (records, Ok out) ->
    out = records
    /\ List.length out = List.length new_records
    /\ exists m,
        (exists s, In s saved /\ station_id s = Some m)
        /\ (forall s id, In s saved -> station_id s = Some id -> id <= m)
        /\ (forall k r0,
              nth_error new_records k = Some r0 ->
              nth_error out k
              = Some (mkStation (Some (m + 1 + Z.of_nat k))
                        (station_name r0) (coordinate r0)))
        /\ (forall r s, In r out -> In s saved ->
                        station_id r <> station_id s).
Proof.
  intros coord new_records saved out records H.
  destruct (give_ids_ok coord _ _ _ _ H) as (Hout & Hlen & m & Hm & Hle & Hrows).
  split; auto. split; auto. exists m. repeat split; auto.
  exact (give_ids_fresh coord _ _ _ _ H).
Qed.

(** With the identifiers 1, 2, 3 saved, three new records take 4, 5, 6. *)
Lemma give_ids_follow_the_largest_1_2_3 :
  map station_id
    (fst (give_ids_to_the_new_names three_new_records registry_1_2_3))
  = [Some 4; Some 5; Some 6]
  /\ forall r s,
      In r (fst (give_ids_to_the_new_names three_new_records registry_1_2_3)) ->
      In s registry_1_2_3 -> station_id r <> station_id s.
Proof.
  split; [reflexivity|].
  destruct (give_ids_follow_the_largest point three_new_records registry_1_2_3
              _ _ eq_refl) as (_ & _ & m & _ & _ & _ & H).
  exact H.
Defined.

(** X2: [give_ids_to_the_new_names] raises [ValueError] on an empty saved
    registry and [KeyError] when some saved record has no identifier,
    whatever the new records (even none); in both cases no new record has
    been given an identifier. *)
Theorem give_ids_rejects_the_registry :
  forall (coord : Type) (new_records saved : list (station coord)),
    (saved = [] ->
     give_ids_to_the_new_names new_records saved
     = (new_records, Err ValueError))
    /\ ((exists s, In s saved /\ station_id s = None) ->
        give_ids_to_the_new_names new_records saved
        = (new_records, Err KeyError)).
Proof.
  intros coord new_records saved. split.
  - intros ->. reflexivity.
  - intros H. unfold give_ids_to_the_new_names.
    now rewrite (established_ids_loop_missing coord saved [] H).
Qed.

Lemma give_ids_rejects_the_registry_with_a_gap :
  give_ids_to_the_new_names three_new_records registry_with_a_gap
  = (three_new_records, Err KeyError)
  /\ give_ids_to_the_new_names three_new_records []
     = (three_new_records, Err ValueError).
Proof.
  split.
  - apply (proj2 (give_ids_rejects_the_registry point three_new_records
                    registry_with_a_gap)).
    exists (new_station "State St & Kinzie St" chicago).
    split; [right; left; reflexivity|reflexivity].
  - apply (proj1 (give_ids_rejects_the_registry point three_new_records [])).
    reflexivity.
Defined.

(** X3: on a saved registry whose records all have identifiers, the call
    returns exactly when there is no new record or the largest established
    identifier does not exceed the number of distinct established
    identifiers; otherwise it raises [IndexError]. *)
Theorem give_ids_returns_iff :
  forall (coord : Type) (new_records saved : list (station coord))
         (ids : list Z) (m : Z),
    established_ids_loop coord saved [] = Ok ids ->
    py_max ids = Ok m ->
    (is_ok (snd (give_ids_to_the_new_names new_records saved)) = true
     <-> new_records = [] \/ m <= Z.of_nat (List.length ids))
    /\ (is_ok (snd (give_ids_to_the_new_names new_records saved)) = false ->
        snd (give_ids_to_the_new_names new_records saved) = Err IndexError).
Proof.
  intros coord new_records saved ids m Hids Hmax.
  assert (Hdense : new_records = [] \/ m <= Z.of_nat (List.length ids) ->
                   is_ok (snd (give_ids_to_the_new_names new_records saved))
                   = true).
  { intros [->|Hm].
    - unfold give_ids_to_the_new_names. rewrite Hids, Hmax. reflexivity.
    - destruct (give_ids_consecutive coord new_records saved ids m Hids Hmax Hm)
        as (out & Hrun & _). now rewrite Hrun. }
  assert (Hsparse : ~ (new_records = [] \/ m <= Z.of_nat (List.length ids)) ->
                    snd (give_ids_to_the_new_names new_records saved)
                    = Err IndexError).
  { intros Hn. apply (give_ids_runs_out coord new_records saved ids m Hids Hmax).
    - intros ->. apply Hn. now left.
    - destruct (Z_le_gt_dec m (Z.of_nat (List.length ids))); [|lia].
      exfalso. apply Hn. now right. }
  destruct new_records as [|r rest].
  - split; [split; auto|].
    intros H. rewrite Hdense in H; auto. discriminate.
  - destruct (Z_le_gt_dec m (Z.of_nat (List.length ids))) as [Hm|Hm].
    + split; [split; auto|].
      intros H. rewrite Hdense in H; auto. discriminate.
    + assert (Hn : ~ (r :: rest = [] \/ m <= Z.of_nat (List.length ids)))
        by (intros [H|H]; [discriminate|lia]).
      split; [split|].
      * intros H. rewrite (Hsparse Hn) in H. discriminate.
      * intros [H|H]; [discriminate|lia].
      * intros _. exact (Hsparse Hn).
Qed.

Lemma give_ids_returns_iff_5_9 :
  is_ok (snd (give_ids_to_the_new_names three_new_records registry_5_9)) = true
  <-> three_new_records = [] \/ 9 <= 2.
Proof.
  exact (proj1 (give_ids_returns_iff point three_new_records registry_5_9
                  [5; 9] 9 eq_refl eq_refl)).
Defined.

(** X4: when [put_new_information_in_geodata] goes through, the saved
    registry has become the saved records followed by the new records with
    their identifiers, and if the saved identifiers were distinct so are
    those of the registry it has become; when it raises, the saved registry
    is as it was. *)
Theorem put_new_information_keeps_identifiers_distinct :
  forall (coord : Type) (saved new_records saved' new' : list (station coord))
         (r : result unit),
    put_new_information_in_geodata saved new_records = (saved', new', r) ->
    (r = Ok tt ->
     saved' = (saved ++ new')%list
     /\ List.length new' = List.length new_records
     /\ (NoDup (map station_id saved) -> NoDup (map station_id saved')))
    /\ (forall e, r = Err e -> saved' = saved).
Proof.
  intros coord saved new_records saved' new' r H.
  unfold put_new_information_in_geodata in H.
  destruct (give_ids_to_the_new_names new_records saved)
    as [records [out|e]] eqn:E; inversion H; subst; clear H.
  - split; [|discriminate]. intros _.
    destruct (give_ids_ok coord _ _ _ _ E) as (-> & Hlen & _).
    split; auto. split; auto. intros Hnd.
    rewrite map_app. apply NoDup_app; auto.
    + exact (give_ids_distinct coord _ _ _ _ E).
    + intros a Ha Ha'. apply in_map_iff in Ha. apply in_map_iff in Ha'.
      destruct Ha as (s & <- & Hs). destruct Ha' as (r & Hr & Hr').
      exact (give_ids_fresh coord _ _ _ _ E r s Hr' Hs Hr).
  - split; [discriminate|auto].
Qed.

Lemma put_new_information_1_2_3 :
  NoDup
    (map station_id
       (fst (fst (put_new_information_in_geodata registry_1_2_3
                    three_new_records)))).
Proof.
  destruct (put_new_information_keeps_identifiers_distinct point
              registry_1_2_3 three_new_records _ _ _ eq_refl) as [H _].
  destruct (H eq_refl) as (_ & _ & Hnd). apply Hnd.
  repeat constructor; simpl; intuition discriminate.
Defined.

(** ** More on reverse_geocode *)

Section ReverseGeocodeQueries.

Variable coord : Type.
Variable coord_eqb : coord -> coord -> bool.
Variables primary secondary : reverse_service coord.

(** The records only grow in number. *)
Lemma rg_step_keeps (st : rg_state coord) (c : coord) r :
  In r (new_geodata st) ->
  In r (new_geodata (rg_step coord_eqb primary secondary st c)).
Proof.
  intros Hr.
  destruct (rg_step_cases coord coord_eqb primary secondary st c)
    as [[_ Hg]|[_ (a & _ & _ & Hg)]]; rewrite Hg; auto.
  apply in_or_app. auto.
Qed.

Lemma rg_run_keeps coordinates :
  forall (st : rg_state coord) r,
    In r (new_geodata st) ->
    In r (new_geodata (rg_run coord_eqb primary secondary coordinates st)).
Proof.
  induction coordinates as [|c cs IH]; intros st r Hr; simpl; auto.
  apply IH, rg_step_keeps, Hr.
Qed.

(** A coordinate that one of the services resolves whenever asked has a
    record after its iteration: its own, or that of a coordinate equal to
    it that came before. *)
Lemma rg_step_covers (st : rg_state coord) (c : coord) :
  rg_invariant coord coord_eqb primary secondary st ->
  (forall h, is_ok (str_reverse (primary h c)) = true)
  \/ (forall h, is_ok (str_reverse (secondary h c)) = true) ->
  exists r,
    In r (new_geodata (rg_step coord_eqb primary secondary st c))
    /\ (coordinate r = c \/ coord_eqb (coordinate r) c = true).
Proof.
  intros [Hc _ _] Hres. unfold rg_step.
  destruct (py_in coord_eqb c (encountered_coordinates st)) eqn:Hin.
  - unfold py_in in Hin. apply existsb_exists in Hin.
    destruct Hin as (e & He & Hec). rewrite <- Hc in He.
    apply in_map_iff in He. destruct He as (r & <- & Hr). eauto.
  - destruct (str_reverse (primary (primary_queries coord st) c))
      as [a|e] eqn:Hp.
    + exists (mkStation None a c). simpl. split; auto.
      apply in_or_app. right. now left.
    + destruct (str_reverse (secondary (secondary_queries coord st) c))
        as [a|e'] eqn:Hs.
      * exists (mkStation None a c). simpl. split; auto.
        apply in_or_app. right. now left.
      * destruct Hres as [H|H].
        -- specialize (H (primary_queries coord st)). rewrite Hp in H.
           discriminate.
        -- specialize (H (secondary_queries coord st)). rewrite Hs in H.
           discriminate.
Qed.

Lemma rg_run_covers coordinates (c : coord) :
  (forall h, is_ok (str_reverse (primary h c)) = true)
  \/ (forall h, is_ok (str_reverse (secondary h c)) = true) ->
  In c coordinates ->
  forall st,
    rg_invariant coord coord_eqb primary secondary st ->
    exists r,
      In r (new_geodata (rg_run coord_eqb primary secondary coordinates st))
      /\ (coordinate r = c \/ coord_eqb (coordinate r) c = true).
Proof.
  intros Hres. induction coordinates as [|c' cs IH]; intros Hin st Hst.
  - destruct Hin.
  - simpl. destruct Hin as [->|Hin].
    + destruct (rg_step_covers st c Hst Hres) as (r & Hr & Hrc).
      exists r. split; auto. now apply rg_run_keeps.
    + apply IH; auto. now apply rg_invariant_step.
Qed.

(** The queries of a run: those sent to the first service follow the
    input, those sent to the second are among them and are coordinates on
    which the first had raised, and there is no record without a query. *)
Lemma rg_run_queries coordinates :
  forall st : rg_state coord,
  exists pq sq,
    primary_queries coord (rg_run coord_eqb primary secondary coordinates st)
    = (rev pq ++ primary_queries coord st)%list
    /\ secondary_queries coord
         (rg_run coord_eqb primary secondary coordinates st)
       = (rev sq ++ secondary_queries coord st)%list
    /\ subseq pq coordinates
    /\ subseq sq pq
    /\ (forall c, In c sq ->
                  exists h, is_ok (str_reverse (primary h c)) = false)
    /\ (List.length
          (new_geodata (rg_run coord_eqb primary secondary coordinates st))
        <= List.length (new_geodata st) + List.length pq)%nat.
Proof.
  induction coordinates as [|c cs IH]; intros st; simpl.
  - exists [], []. simpl. repeat split; auto; try constructor.
    + intros c [].
    + lia.
  - destruct (IH (rg_step coord_eqb primary secondary st c))
      as (pq & sq & Hp & Hs & Hpq & Hsq & Hraised & Hlen).
    rewrite Hp, Hs. unfold rg_step in *.
    destruct (py_in coord_eqb c (encountered_coordinates st)).
    + exists pq, sq. repeat split; auto. now constructor.
    + destruct (str_reverse (primary (primary_queries coord st) c))
        as [a|e] eqn:Ep.
      * exists (c :: pq), sq. simpl in *. rewrite <- !app_assoc. simpl.
        repeat split; auto; try now constructor.
        rewrite length_app in Hlen. simpl in Hlen. lia.
      * destruct (str_reverse (secondary (secondary_queries coord st) c))
          as [a|e'] eqn:Es.
        -- exists (c :: pq), (c :: sq). simpl in *.
           rewrite <- !app_assoc. simpl.
           repeat split; auto; try now constructor.
           ++ intros c0 [<-|Hc0]; auto.
              exists (primary_queries coord st). now rewrite Ep.
           ++ rewrite length_app in Hlen. simpl in Hlen. lia.
        -- exists (c :: pq), (c :: sq). simpl in *.
           rewrite <- !app_assoc. simpl.
           repeat split; auto; try now constructor.
           ++ intros c0 [<-|Hc0]; auto.
              exists (primary_queries coord st). now rewrite Ep.
           ++ lia.
Qed.

End ReverseGeocodeQueries.

(** X5: every input coordinate that one of the two services resolves
    whenever it is asked is covered by the output of [reverse_geocode]:
    there is a record of that coordinate, or of an earlier coordinate that
    the test [==] takes for it. *)
Theorem reverse_geocode_covers_resolvable :
  forall (coord : Type) (coord_eqb : coord -> coord -> bool)
         (primary secondary : reverse_service coord)
         (coordinates : list coord) (c : coord),
    In c coordinates ->
    (forall h, is_ok (str_reverse (primary h c)) = true)
    \/ (forall h, is_ok (str_reverse (secondary h c)) = true) ->
    exists r,
      In r (reverse_geocode coord_eqb primary secondary coordinates)
      /\ (coordinate r = c \/ coord_eqb (coordinate r) c = true).
Proof.
  intros coord coord_eqb primary secondary coordinates c Hin Hres.
  unfold reverse_geocode.
  apply rg_run_covers; auto. apply rg_invariant_init.
Qed.

Lemma reverse_geocode_covers_clark_and_lake :
  exists r,
    In r (reverse_geocode point_eqb primary_but_origin secondary_down
            [origin; clark_and_lake; clark_and_lake])
    /\ (coordinate r = clark_and_lake
        \/ point_eqb (coordinate r) clark_and_lake = true).
Proof.
  apply (reverse_geocode_covers_resolvable point point_eqb primary_but_origin
           secondary_down [origin; clark_and_lake; clark_and_lake]
           clark_and_lake).
  - right. left. reflexivity.
  - left. intros h. reflexivity.
Defined.

(** X6: in a run of [reverse_geocode] the first service is asked about
    input coordinates only, in their order and at most once per position;
    the second service is asked only about coordinates that the first was
    asked about, each after the first had raised on it; and no record is
    made without a query to the first service. *)
Theorem reverse_geocode_queries :
  forall (coord : Type) (coord_eqb : coord -> coord -> bool)
         (primary secondary : reverse_service coord)
         (coordinates : list coord),
    let st := rg_run coord_eqb primary secondary coordinates rg_init in
    subseq (rev (primary_queries coord st)) coordinates
    /\ subseq (rev (secondary_queries coord st)) (rev (primary_queries coord st))
    /\ (forall c, In c (secondary_queries coord st) ->
                  exists h, is_ok (str_reverse (primary h c)) = false)
    /\ (List.length (reverse_geocode coord_eqb primary secondary coordinates)
        <= List.length (primary_queries coord st))%nat.
Proof.
  intros coord coord_eqb primary secondary coordinates st.
  destruct (rg_run_queries coord coord_eqb primary secondary coordinates
              rg_init) as (pq & sq & Hp & Hs & Hpq & Hsq & Hraised & Hlen).
  fold st in Hp, Hs, Hlen. simpl in Hp, Hs, Hlen.
  rewrite app_nil_r in Hp, Hs. rewrite Hp, Hs, !rev_involutive.
  repeat split; auto.
  - intros c Hc. apply Hraised. now apply in_rev.
  - unfold reverse_geocode. fold st. rewrite length_rev. exact Hlen.
Qed.

Lemma reverse_geocode_queries_origin :
  exists h, is_ok (str_reverse (primary_but_origin h origin)) = false.
Proof.
  apply (proj1 (proj2 (proj2
           (reverse_geocode_queries point point_eqb primary_but_origin
              secondary_down [clark_and_lake; origin])))).
  left. reflexivity.
Defined.

(** ** More on the Geocoder *)

Lemma dict_set_fresh {V} (d : dict V) k v :
  dict_mem d k = false -> dict_set d k v = (d ++ [(k, v)])%list.
Proof.
  unfold dict_mem. induction d as [|[k' v'] d IH]; simpl; auto.
  destruct (String.eqb k k') eqn:E; [discriminate|].
  intros H. now rewrite IH.
Qed.

Lemma dict_mem_In {V} (d : dict V) k :
  dict_mem d k = true <-> In k (dict_keys d).
Proof.
  unfold dict_mem, dict_keys. induction d as [|[k' v'] d IH]; simpl.
  - split; [discriminate|tauto].
  - destruct (String.eqb k k') eqn:E.
    + apply String.eqb_eq in E. subst. split; auto.
    + rewrite IH. split; auto. intros [H|H]; auto.
      subst. rewrite String.eqb_refl in E. discriminate.
Qed.

Lemma dedup_spec (seen l : list string) :
  (forall x, In x (dedup String.eqb seen l) <-> In x l /\ ~ In x seen)
  /\ NoDup (dedup String.eqb seen l).
Proof.
  revert seen. induction l as [|a l IH]; intros seen; simpl.
  - split; [tauto|constructor].
  - destruct (existsb (String.eqb a) seen) eqn:E.
    + apply existsb_exists in E. destruct E as (y & Hy & Hay).
      apply String.eqb_eq in Hay. subst y.
      destruct (IH seen) as [Hin Hnd]. split; auto.
      intros x. rewrite Hin. split; [tauto|].
      intros [[->|Hx] Hn]; tauto.
    + assert (Ha : ~ In a seen).
      { intros Ha.
        assert (existsb (String.eqb a) seen = true)
          by (apply existsb_exists; exists a; split; auto;
              apply String.eqb_refl).
        congruence. }
      destruct (IH (a :: seen)) as [Hin Hnd]. split.
      * intros x. simpl. rewrite Hin. simpl. split.
        -- intros [<-|[Hx Hn]]; [tauto|]. split; auto.
        -- intros [[<-|Hx] Hn]; [tauto|].
           destruct (string_dec a x) as [->|Hax]; [tauto|]. right. tauto.
      * constructor; auto. rewrite Hin. simpl. tauto.
Qed.

Section GeocoderRequests.

Variable services : geocoding_services.

(** The loop on names that the service resolves: one request for each name
    not met before, and the mapping grows by the name and its point. *)
Lemma trigger_geocoder_loop_resolved geocoder (pt : string -> point) names :
  (forall tr n, In n names ->
                exists address, services tr geocoder n = Location address (pt n)) ->
  forall pp seen w,
    (forall k, dict_mem pp k = existsb (String.eqb k) seen) ->
    _trigger_geocoder_loop services geocoder names pp w
    = (mkWorld (frames w)
         (rev (map (pair geocoder) (dedup String.eqb seen names))
          ++ requests w),
       Ok (pp ++ map (fun n => (n, pt n)) (dedup String.eqb seen names))%list).
Proof.
  induction names as [|place rest IH]; intros Hres pp seen w Hpp; simpl.
  - rewrite app_nil_r. destruct w. reflexivity.
  - rewrite Hpp.
    destruct (existsb (String.eqb place) seen) eqn:E.
    + apply IH; auto. intros tr n Hn. apply Hres. now right.
    + destruct (Hres (requests w) place (or_introl eq_refl)) as (address & Ha).
      unfold bind at 1, catch, bind at 1, geocoder_geocode at 1.
      rewrite Ha. simpl.
      rewrite dict_set_fresh by (rewrite Hpp; exact E).
      rewrite (IH (fun tr n Hn => Hres tr n (or_intror Hn))
                 (pp ++ [(place, pt place)])%list (place :: seen)).
      * simpl. rewrite <- !app_assoc. reflexivity.
      * intros k. rewrite dict_mem_app, Hpp. simpl.
        unfold dict_mem. simpl.
        destruct (String.eqb k place); simpl;
          destruct (existsb (String.eqb k) seen); reflexivity.
Qed.

(** In every outcome, the loop has sent its requests to its own service
    and has left the frames alone. *)
Lemma trigger_geocoder_loop_requests geocoder names :
  forall pp w,
  exists new,
    requests (fst (_trigger_geocoder_loop services geocoder names pp w))
    = (new ++ requests w)%list
    /\ Forall (fun r => fst r = geocoder) new.
Proof.
  induction names as [|place rest IH]; intros pp w; simpl.
  - exists []. split; auto.
  - destruct (dict_mem pp place); [apply IH|].
    unfold bind, catch, geocoder_geocode, subscript_last, except_bool, raise, ret.
    destruct (services (requests w) geocoder place) as [a p| |e]; simpl.
    + match goal with
      | |- context [_trigger_geocoder_loop services geocoder rest ?pp' ?w'] =>
          destruct (IH pp' w') as (new & Hnew & Hall)
      end.
      simpl in Hnew. rewrite Hnew.
      exists (new ++ [(geocoder, place)])%list. rewrite <- app_assoc.
      split; auto. apply Forall_app. split; auto.
    + exists [(geocoder, place); (geocoder, place)].
      match goal with
      | |- context [match ?x with Location _ _ => _ | _ => _ end] =>
          destruct x; simpl; split; auto
      end.
    + exists [(geocoder, place); (geocoder, place)].
      match goal with
      | |- context [match ?x with Location _ _ => _ | _ => _ end] =>
          destruct x; simpl; split; auto
      end.
Qed.

(** When the loop returns, every name it was given is a key of the
    mapping. *)
Lemma trigger_geocoder_loop_keys geocoder names :
  forall pp w w' pp',
    _trigger_geocoder_loop services geocoder names pp w = (w', Ok pp') ->
    (forall k, In k (dict_keys pp) -> In k (dict_keys pp'))
    /\ (forall n, In n names -> In n (dict_keys pp')).
Proof.
  induction names as [|place rest IH]; intros pp w w' pp' H; simpl in H.
  - inversion H; subst. split; auto. intros n [].
  - destruct (dict_mem pp place) eqn:Hmem.
    + destruct (IH _ _ _ _ H) as [Hkeep Hall]. split; auto.
      intros n [<-|Hn]; auto. apply Hkeep. now apply dict_mem_In.
    + apply bind_ok in H. destruct H as (pp1 & w1 & Htry & H).
      destruct (IH _ _ _ _ H) as [Hkeep Hall].
      assert (Hset : exists p, pp1 = dict_set pp place p).
      { unfold catch, bind, geocoder_geocode, subscript_last,
          except_bool, raise, ret in Htry.
        destruct (services (requests w) geocoder place) as [a p| |e];
          simpl in Htry.
        - inversion Htry. eauto.
        - match type of Htry with
          | context [match ?x with Location _ _ => _ | _ => _ end] =>
              destruct x; simpl in Htry; discriminate
          end.
        - match type of Htry with
          | context [match ?x with Location _ _ => _ | _ => _ end] =>
              destruct x; simpl in Htry; discriminate
          end. }
      destruct Hset as (p & ->).
      assert (Hplace : In place (dict_keys (dict_set pp place p)))
        by (apply dict_mem_In, dict_mem_set_same).
      split.
      * intros k Hk. apply Hkeep. apply dict_mem_In.
        destruct (String.eqb k place) eqn:E.
        -- apply String.eqb_eq in E. subst. apply dict_mem_set_same.
        -- rewrite dict_mem_set_other by exact E. now apply dict_mem_In.
      * intros n [<-|Hn]; auto.
Qed.

End GeocoderRequests.

Lemma unpack_pair_cases (k : string) w :
  (String.length k = 2%nat /\ exists kv, unpack_pair k w = (w, Ok kv))
  \/ (String.length k <> 2%nat /\ unpack_pair k w = (w, Err ValueError)).
Proof.
  destruct k as [|a [|b [|c k]]]; simpl.
  - right. split; [discriminate|reflexivity].
  - right. split; [discriminate|reflexivity].
  - left. split; [reflexivity|eexists; reflexivity].
  - right. split; [discriminate|reflexivity].
Qed.

(** Collecting the names to retry: it goes through, with no name, when
    every key has two characters, and raises [ValueError] otherwise; the
    world is not touched. *)
Lemma places_missed_cases (keys : list string) w :
  (Forall (fun k => String.length k = 2%nat) keys
   /\ places_missed keys w = (w, Ok []))
  \/ (Exists (fun k => String.length k <> 2%nat) keys
      /\ places_missed keys w = (w, Err ValueError)).
Proof.
  induction keys as [|k keys IH]; simpl.
  - left. split; auto.
  - destruct (unpack_pair_cases k w) as [[Hk ([key value] & Hu)]|[Hk Hu]].
    + destruct IH as [[Hall Hm]|[Hex Hm]].
      * left. split; [now constructor|].
        unfold bind. rewrite Hu, Hm. reflexivity.
      * right. split; [now apply Exists_cons_tl|].
        unfold bind. rewrite Hu, Hm. reflexivity.
    + right. split; [now apply Exists_cons_hd|].
      unfold bind. rewrite Hu. reflexivity.
Qed.

(** X7: when the service resolves every place name it is asked, the loop of
    [_trigger_geocoder] sends one request per distinct name, in the order
    in which the names first appear, and returns the mapping of each
    distinct name to its point: no name is requested twice. *)
Theorem trigger_geocoder_one_request_per_name :
  forall (services : geocoding_services) (geocoder : provider)
         (pt : string -> point) (names : list string) (w : world),
    (forall tr n, In n names ->
                  exists address,
                    services tr geocoder n = Location address (pt n)) ->
    let distinct := dedup String.eqb [] names in
    _trigger_geocoder services geocoder names w
    = (mkWorld (frames w)
         (rev (map (pair geocoder) distinct) ++ requests w),
       Ok (map (fun n => (n, pt n)) distinct))
    /\ NoDup distinct
    /\ (forall n, In n distinct <-> In n names).
Proof.
  intros services geocoder pt names w Hres distinct. split; [|split].
  - unfold _trigger_geocoder.
    rewrite (trigger_geocoder_loop_resolved services geocoder pt names Hres
               [] [] w); auto.
  - apply dedup_spec.
  - intros n. destruct (dedup_spec [] names) as [Hin _].
    unfold distinct. rewrite Hin. simpl. tauto.
Qed.

Lemma trigger_geocoder_one_request_for_hq :
  _trigger_geocoder (nominatim_resolves "HQ" chicago) Nominatim
    ["HQ"; "HQ"; "HQ"] no_world
  = (mkWorld [] [(Nominatim, "HQ")], Ok [("HQ", chicago)]).
Proof.
  apply (proj1 (trigger_geocoder_one_request_per_name
                  (nominatim_resolves "HQ" chicago) Nominatim
                  (fun _ => chicago) ["HQ"; "HQ"; "HQ"] no_world
                  (fun tr n Hn =>
                     match Hn with
                     | or_introl e | or_intror (or_introl e)
                     | or_intror (or_intror (or_introl e)) =>
                         ex_intro _ "HQ, Chicago"
                           (eq_ind "HQ"
                              (fun n => nominatim_resolves "HQ" chicago tr
                                          Nominatim n
                                        = Location "HQ, Chicago" chicago)
                              eq_refl n e)
                     | or_intror (or_intror (or_intror f)) =>
                         match f with end
                     end))).
Defined.

(** X8: whatever the services answer and however the call ends,
    [Geocoder.geocode] sends requests to the first service only: the second
    service is never asked; and the frames are left as they were. *)
Theorem geocode_never_asks_the_second_service :
  forall (services : geocoding_services) (self : Geocoder) (w : world),
  exists new,
    requests (fst (geocode services self w)) = (new ++ requests w)%list
    /\ Forall (fun r => fst r = Nominatim) new
    /\ frames (fst (geocode services self w)) = frames w.
Proof.
  intros services self w.
  destruct (trigger_geocoder_loop_requests services Nominatim
              (place_names self) [] w) as (new & Hnew & Hall).
  pose proof (trigger_geocoder_loop_frames services Nominatim
                (place_names self) [] w) as Hfr.
  exists new. unfold geocode, _trigger_geocoder, bind.
  destruct (_trigger_geocoder_loop services Nominatim (place_names self) [] w)
    as [w1 [results|e]]; simpl in *; auto.
  destruct (places_missed_cases (dict_keys results) w1) as [[_ ->]|[_ ->]];
    simpl; auto.
Qed.

(** X9: [Geocoder.geocode] returns only when every place name has exactly
    two characters, and then it returns the empty mapping; when the first
    service resolves every name, the call returns if all names have two
    characters and raises [ValueError] as soon as one has not. *)
Theorem geocode_returns_for_two_characters_only :
  forall (services : geocoding_services) (self : Geocoder),
    (forall w w' d,
        geocode services self w = (w', Ok d) ->
        d = []
        /\ Forall (fun n => String.length n = 2%nat) (place_names self))
    /\ (forall (pt : string -> point) w,
           (forall tr n, In n (place_names self) ->
                         exists address,
                           services tr Nominatim n = Location address (pt n)) ->
           (Forall (fun n => String.length n = 2%nat) (place_names self) ->
            snd (geocode services self w) = Ok [])
           /\ (Exists (fun n => String.length n <> 2%nat) (place_names self) ->
               snd (geocode services self w) = Err ValueError)).
Proof.
  intros services self. split.
  - intros w w' d H. split; [eapply geocode_returns_no_entry; eauto|].
    unfold geocode in H.
    apply bind_ok in H. destruct H as (results & w1 & H1 & H).
    apply bind_ok in H. destruct H as (missed & w2 & Hm & _).
    destruct (trigger_geocoder_loop_keys services _ _ _ _ _ _ H1) as [_ Hkeys].
    destruct (places_missed_cases (dict_keys results) w1) as [[Hall _]|[_ He]];
      [|congruence].
    rewrite Forall_forall in *. intros n Hn. apply Hall, Hkeys, Hn.
  - intros pt w Hres.
    destruct (dedup_spec [] (place_names self)) as [Hin _].
    pose proof (trigger_geocoder_loop_resolved services Nominatim pt
                  (place_names self) Hres [] [] w (fun k => eq_refl)) as Hrun.
    simpl in Hrun.
    assert (Hkeys : dict_keys
                      (map (fun n => (n, pt n))
                         (dedup String.eqb [] (place_names self)))
                    = dedup String.eqb [] (place_names self)).
    { unfold dict_keys. rewrite map_map. simpl. apply map_id. }
    split; intros Hnames; unfold geocode, _trigger_geocoder, bind;
      rewrite Hrun, Hkeys;
      match goal with
      | |- context [places_missed ?keys ?w1] =>
          destruct (places_missed_cases keys w1) as [[Hall ->]|[Hex ->]]
      end; simpl; auto.
    + exfalso. apply Exists_exists in Hex. destruct Hex as (n & Hn & Hlen).
      rewrite Forall_forall in Hnames. apply Hlen, Hnames.
      apply Hin in Hn. tauto.
    + exfalso. apply Exists_exists in Hnames.
      destruct Hnames as (n & Hn & Hlen).
      rewrite Forall_forall in Hall. apply Hlen, Hall, Hin. simpl. tauto.
Qed.

Lemma geocode_returns_for_two_characters_only_examples :
  snd (geocode (fun _ _ _ => Location "Chicago" chicago)
         (geocoder_for ["HQ"; "O2"]) no_world) = Ok []
  /\ snd (geocode (fun _ _ _ => Location "Chicago" chicago)
            (geocoder_for ["HQ"; "Clark St & Lake St"]) no_world)
     = Err ValueError.
Proof.
  split.
  - apply (proj2 (geocode_returns_for_two_characters_only
                    (fun _ _ _ => Location "Chicago" chicago)
                    (geocoder_for ["HQ"; "O2"]))
             (fun _ => chicago) no_world).
    + intros tr n Hn. exists "Chicago". reflexivity.
    + repeat constructor.
  - apply (proj2 (geocode_returns_for_two_characters_only
                    (fun _ _ _ => Location "Chicago" chicago)
                    (geocoder_for ["HQ"; "Clark St & Lake St"]))
             (fun _ => chicago) no_world).
    + intros tr n Hn. exists "Chicago". reflexivity.
    + apply Exists_cons_tl, Exists_cons_hd. discriminate.
Defined.

(** ** More on the feature engineering functions *)

Lemma getitem_cases df label w :
  (exists c, getitem df label w = (w, Ok c))
  \/ getitem df label w = (w, Err KeyError).
Proof.
  unfold getitem, bind, frame_of, ret, raise.
  destruct (nth_error (frames w) df) as [t|]; [|right; reflexivity].
  destruct (dict_get (columns t) label);
    [left; eexists; reflexivity|right; reflexivity].
Qed.

Lemma col_add_raises a b e : col_add a b = Err e -> e = TypeError.
Proof.
  destruct a as [xs|xs|[] xs|xs], b as [ys|ys|[] ys|ys]; simpl;
    try destruct xs; try destruct ys; intros H; inversion H; auto.
Qed.

Lemma col_quarter_raises a e : col_quarter a = Err e -> e = TypeError.
Proof.
  destruct a as [xs|xs|[] xs|xs]; simpl; try destruct xs;
    intros H; inversion H; auto.
Qed.

Lemma lift_result_cases {A} (r : result A) w :
  lift_result r w = (w, r).
Proof. destruct r; reflexivity. Qed.

(** X10: when [add_avg_trips_last_4_weeks] raises, it raises [KeyError] (a
    lag column is missing) or [TypeError] (the lag columns do not add up or
    scale), and it has changed nothing: the average is only inserted once
    it has been computed. *)
Theorem add_avg_raises_before_it_writes :
  forall (features : ref) (w w' : world) (e : exn),
    add_avg_trips_last_4_weeks features w = (w', Err e) ->
    w' = w /\ (e = KeyError \/ e = TypeError).
Proof.
  intros features w w' e H. unfold add_avg_trips_last_4_weeks in H.
  unfold bind at 1 in H. unfold frame_of at 1 in H.
  destruct (nth_error (frames w) features) as [t|] eqn:Ht;
    [|inversion H; auto].
  unfold bind at 1 in H.
  destruct (has_column t "average_trips_last_4_weeks") eqn:Hcol; simpl in H;
    [discriminate|].
  unfold bind in H.
  repeat match type of H with
         | context [getitem features ?l w] =>
             let Hg := fresh "Hg" in
             destruct (getitem_cases features l w) as [[? Hg]|Hg];
             rewrite Hg in H; clear Hg; cbn beta iota in H;
             [|inversion H; auto]
         | context [lift_result ?r w] =>
             rewrite (lift_result_cases r w) in H;
             destruct r as [?|?] eqn:?; cbn beta iota in H;
             [|inversion H; subst; split; auto; right;
               first [eapply col_add_raises; eassumption
                     |eapply col_quarter_raises; eassumption]]
         end.
  rewrite (insert_last_some _ _ _ _ _ Ht Hcol) in H. discriminate.
Qed.

(** A frame with no lag column: [KeyError], and the frame is as it was. *)
Lemma add_avg_raises_without_lags :
  fst (add_avg_trips_last_4_weeks 0%nat (mkWorld [mkFrame [0] []] []))
  = mkWorld [mkFrame [0] []] [].
Proof.
  exact (proj1 (add_avg_raises_before_it_writes 0%nat
                  (mkWorld [mkFrame [0] []] []) _ KeyError eq_refl)).
Defined.

Lemma length_map2 {A B C} (f : A -> B -> C) l l' :
  List.length (map2 f l l') = Nat.min (List.length l) (List.length l').
Proof.
  revert l'. induction l as [|a l IH]; intros [|b l']; simpl; auto.
Qed.

Lemma col_add_length a b c n :
  col_add a b = Ok c -> col_length a = n -> col_length b = n ->
  col_length c = n.
Proof.
  destruct a as [xs|xs|[] xs|xs], b as [ys|ys|[] ys|ys]; simpl;
    try destruct xs; try destruct ys; intros H; inversion H; subst; simpl;
    rewrite ?length_map2; simpl; intros; lia.
Qed.

Lemma col_quarter_length a c :
  col_quarter a = Ok c -> col_length c = col_length a.
Proof.
  destruct a as [xs|xs|[] xs|xs]; simpl; try destruct xs;
    intros H; inversion H; subst; simpl; rewrite ?length_map; auto.
Qed.

Lemma dict_get_In {V} (d : dict V) k v :
  dict_get d k = Some v -> In (k, v) d.
Proof.
  induction d as [|[k' v'] d IH]; simpl; [discriminate|].
  destruct (String.eqb k k') eqn:E; intros H.
  - apply String.eqb_eq in E. inversion H; subst. now left.
  - right. auto.
Qed.

Lemma wf_frame_column t label c :
  wf_frame t -> dict_get (columns t) label = Some c ->
  col_length c = List.length (row_labels t).
Proof.
  intros [_ Hall] Hc. apply dict_get_In in Hc.
  rewrite Forall_forall in Hall. exact (Hall _ Hc).
Qed.

(** Adding a new column of the right length last keeps a frame well
    formed. *)
Lemma wf_frame_add_last t label c :
  wf_frame t -> has_column t label = false ->
  col_length c = List.length (row_labels t) ->
  wf_frame (mkFrame (row_labels t) (columns t ++ [(label, c)])%list).
Proof.
  intros [Hnd Hall] Hcol Hlen. split; simpl.
  - unfold dict_keys. rewrite map_app. simpl. apply NoDup_app; auto.
    + repeat constructor. intros [].
    + intros k Hk [<-|[]]. apply dict_mem_In in Hk.
      unfold has_column in Hcol. congruence.
  - apply Forall_app. split; auto.
Qed.

(** When it returns and the column was absent, the four lag columns were
    there and added up, and the average was put last. *)
Lemma add_avg_ok_absent features w w' r t :
  add_avg_trips_last_4_weeks features w = (w', Ok r) ->
  nth_error (frames w) features = Some t ->
  has_column t "average_trips_last_4_weeks" = false ->
  exists c1 c2 c3 c4 s12 s123 s1234 averages,
    dict_get (columns t) "trips_previous_168_hour" = Some c1
    /\ dict_get (columns t) "trips_previous_336_hour" = Some c2
    /\ dict_get (columns t) "trips_previous_504_hour" = Some c3
    /\ dict_get (columns t) "trips_previous_672_hour" = Some c4
    /\ col_add c1 c2 = Ok s12
    /\ col_add s12 c3 = Ok s123
    /\ col_add s123 c4 = Ok s1234
    /\ col_quarter s1234 = Ok averages
    /\ w' = with_frame w features
              (mkFrame (row_labels t)
                 (columns t
                  ++ [("average_trips_last_4_weeks", averages)])%list).
Proof.
  intros H Ht Hcol. unfold add_avg_trips_last_4_weeks in H.
  unfold bind at 1 in H. rewrite (frame_of_some _ _ _ Ht) in H.
  rewrite Hcol in H. simpl in H.
  apply bind_ok in H. destruct H as (u & w1 & Hbody & H).
  inversion H; subst; clear H.
  apply bind_ok in Hbody. destruct Hbody as (c1 & w2 & H1 & Hbody).
  apply getitem_ok in H1. destruct H1 as [-> (t1 & Ht1 & H1)].
  apply bind_ok in Hbody. destruct Hbody as (c2 & w3 & H2 & Hbody).
  apply getitem_ok in H2. destruct H2 as [-> (t2 & Ht2 & H2)].
  apply bind_ok in Hbody. destruct Hbody as (s12 & w4 & A12 & Hbody).
  apply lift_result_ok in A12. destruct A12 as [-> A12].
  apply bind_ok in Hbody. destruct Hbody as (c3 & w5 & H3 & Hbody).
  apply getitem_ok in H3. destruct H3 as [-> (t3 & Ht3 & H3)].
  apply bind_ok in Hbody. destruct Hbody as (s123 & w6 & A123 & Hbody).
  apply lift_result_ok in A123. destruct A123 as [-> A123].
  apply bind_ok in Hbody. destruct Hbody as (c4 & w7 & H4 & Hbody).
  apply getitem_ok in H4. destruct H4 as [-> (t4 & Ht4 & H4)].
  apply bind_ok in Hbody. destruct Hbody as (s1234 & w8 & A1234 & Hbody).
  apply lift_result_ok in A1234. destruct A1234 as [-> A1234].
  apply bind_ok in Hbody. destruct Hbody as (averages & w9 & Q & Hbody).
  apply lift_result_ok in Q. destruct Q as [-> Q].
  rewrite (insert_last_some _ _ _ _ _ Ht Hcol) in Hbody.
  inversion Hbody; subst; clear Hbody.
  assert (t1 = t) by congruence. assert (t2 = t) by congruence.
  assert (t3 = t) by congruence. assert (t4 = t) by congruence. subst.
  exists c1, c2, c3, c4, s12, s123, s1234, averages. repeat split; auto.
Qed.

(** X11: when [add_avg_trips_last_4_weeks] returns on a well-formed frame,
    the frame is still well formed: it has its rows and its columns as
    they were, in their order, and at most one more column, the average,
    which is as long as the frame. *)
Theorem add_avg_keeps_the_frame_well_formed :
  forall (features : ref) (w w' : world) (r : ref) (t : DataFrame),
    nth_error (frames w) features = Some t ->
    wf_frame t ->
    add_avg_trips_last_4_weeks features w = (w', Ok r) ->
    exists t',
      nth_error (frames w') r = Some t'
      /\ wf_frame t'
      /\ row_labels t' = row_labels t
      /\ (columns t' = columns t
          \/ exists averages,
              columns t'
              = (columns t
                 ++ [("average_trips_last_4_weeks", averages)])%list
              /\ col_length averages = List.length (row_labels t)).
Proof.
  intros features w w' r t Ht Hwf H.
  destruct (add_avg_ok _ _ _ _ H) as [-> _].
  destruct (has_column t "average_trips_last_4_weeks") eqn:Hcol.
  - rewrite (add_avg_present _ _ _ Ht Hcol) in H. inversion H; subst.
    exists t. auto.
  - destruct (add_avg_ok_absent _ _ _ _ _ H Ht Hcol)
      as (c1 & c2 & c3 & c4 & s12 & s123 & s1234 & averages
          & H1 & H2 & H3 & H4 & A12 & A123 & A1234 & Q & ->).
    assert (Hlen : col_length averages = List.length (row_labels t)).
    { rewrite (col_quarter_length _ _ Q).
      eapply col_add_length; [exact A1234| |eapply wf_frame_column; eauto].
      eapply col_add_length; [exact A123| |eapply wf_frame_column; eauto].
      eapply col_add_length; [exact A12| |];
        eapply wf_frame_column; eauto. }
    eexists. split; [eapply frames_with_frame_same; eauto|].
    split; [now apply wf_frame_add_last|]. split; auto.
    right. exists averages. auto.
Qed.

Lemma add_avg_keeps_the_lags_well_formed :
  exists t',
    nth_error
      (frames (fst (add_avg_trips_last_4_weeks 0%nat
                      (mkWorld [float_lags] []))))
      0%nat = Some t'
    /\ wf_frame t'.
Proof.
  destruct (add_avg_keeps_the_frame_well_formed 0%nat
              (mkWorld [float_lags] [])
              (fst (add_avg_trips_last_4_weeks 0%nat
                      (mkWorld [float_lags] [])))
              0%nat float_lags eq_refl) as (t' & Ht' & Hwf & _).
  - split; simpl.
    + repeat constructor; simpl; intuition discriminate.
    + repeat constructor.
  - reflexivity.
  - exists t'. split; assumption.
Defined.

Section AddHoursAndDaysEffects.

Variable to_datetime : column -> list (option Timestamp).

(** What a call that returns has done, in full. *)
Lemma add_hours_and_days_returns features scenario w w' r :
  add_hours_and_days to_datetime features scenario w = (w', Ok r) ->
  exists t c,
    nth_error (frames w) features = Some t
    /\ dict_get (columns t) (scenario ++ "_hour") = Some c
    /\ has_column t "hour" = false
    /\ has_column t "day_of_the_week" = false
    /\ r = List.length (frames w)
    /\ w' = mkWorld
              (frames
                 (with_frame w features
                    (with_hours_and_days to_datetime t (scenario ++ "_hour") c))
               ++ [without_column
                     (with_hours_and_days to_datetime t (scenario ++ "_hour") c)
                     (scenario ++ "_hour")])
              (requests w).
Proof.
  intros H.
  destruct (add_hours_and_days_ok _ _ _ _ _ _ H) as (t & c & Ht & Hc & Hh & Hd).
  rewrite (add_hours_and_days_run _ _ _ _ _ _ Ht Hc Hh Hd) in H.
  inversion H; subst. exists t, c. repeat split; auto.
Qed.

(** On a frame that has a column "hour" already, the call raises
    [ValueError], having replaced the column it read by its timestamps. *)
Lemma add_hours_and_days_hour_exists features scenario w t c :
  nth_error (frames w) features = Some t ->
  dict_get (columns t) (scenario ++ "_hour") = Some c ->
  has_column t "hour" = true ->
  add_hours_and_days to_datetime features scenario w
  = (with_frame w features
       (mkFrame (row_labels t)
          (dict_set (columns t) (scenario ++ "_hour")
             (TimeCol (to_datetime c)))),
     Err ValueError).
Proof.
  intros Ht Hc Hh. unfold add_hours_and_days.
  set (label := scenario ++ "_hour") in *.
  set (t1 := mkFrame (row_labels t)
               (dict_set (columns t) label (TimeCol (to_datetime c)))).
  assert (Ht1 : nth_error (frames (with_frame w features t1)) features
                = Some t1) by (eapply frames_with_frame_same; eauto).
  assert (Hc1 : dict_get (columns t1) label = Some (TimeCol (to_datetime c)))
    by apply dict_get_set_same.
  assert (Hh1 : has_column t1 "hour" = true).
  { unfold has_column in *. simpl. rewrite dict_mem_set_other; auto.
    apply hour_is_not_an_hour_label. }
  unfold bind.
  rewrite (getitem_some _ _ _ _ _ Ht Hc).
  rewrite (setitem_some _ _ _ _ _ Ht). fold t1.
  rewrite (getitem_some _ _ _ _ _ Ht1 Hc1). simpl.
  rewrite (getitem_some _ _ _ _ _ Ht1 Hc1). simpl.
  unfold insert_last, bind. rewrite (frame_of_some _ _ _ Ht1), Hh1.
  reflexivity.
Qed.

(** On a frame without the column to read, the call raises [KeyError] and
    changes nothing. *)
Lemma add_hours_and_days_no_column features scenario w t :
  nth_error (frames w) features = Some t ->
  dict_get (columns t) (scenario ++ "_hour") = None ->
  add_hours_and_days to_datetime features scenario w = (w, Err KeyError).
Proof.
  intros Ht Hc. unfold add_hours_and_days, bind at 1, getitem, bind.
  rewrite (frame_of_some _ _ _ Ht), Hc. reflexivity.
Qed.

End AddHoursAndDaysEffects.

Lemma neq_eqb_false (a b : string) : a <> b -> String.eqb a b = false.
Proof. intros H. now apply String.eqb_neq. Qed.

(** X12: a call of [add_hours_and_days] that returns has changed the frame
    it was given in place (its [{scenario}_hour] column now holds the
    timestamps, and "hour" and "day_of_the_week" have been added to it)
    and returns a new frame object; every other column of the given frame
    is the same in both frames, the rows are the same, the other frames
    and the geocoding requests are untouched. *)
Theorem add_hours_and_days_changes_its_argument :
  forall (to_datetime : column -> list (option Timestamp))
         (features : ref) (scenario : string) (w w' : world) (r : ref)
         (t : DataFrame),
    nth_error (frames w) features = Some t ->
    add_hours_and_days to_datetime features scenario w = (w', Ok r) ->
    exists c t' tr,
      dict_get (columns t) (scenario ++ "_hour") = Some c
      /\ r = List.length (frames w)
      /\ nth_error (frames w') features = Some t'
      /\ nth_error (frames w') r = Some tr
      /\ dict_get (columns t') (scenario ++ "_hour")
         = Some (TimeCol (to_datetime c))
      /\ has_column t' "hour" = true
      /\ has_column t' "day_of_the_week" = true
      /\ (forall label,
             label <> scenario ++ "_hour" -> label <> "hour" ->
             label <> "day_of_the_week" ->
             dict_get (columns t') label = dict_get (columns t) label
             /\ dict_get (columns tr) label = dict_get (columns t) label)
      /\ row_labels t' = row_labels t
      /\ row_labels tr = row_labels t
      /\ (forall df, df <> features -> df <> r ->
                     nth_error (frames w') df = nth_error (frames w) df)
      /\ requests w' = requests w.
Proof.
  intros to_datetime features scenario w w' r t Ht H.
  destruct (add_hours_and_days_returns _ _ _ _ _ _ H)
    as (t0 & c & Ht0 & Hc & Hh & Hd & -> & ->).
  assert (t0 = t) by congruence. subst t0.
  assert (Hlt : (features < List.length (frames w))%nat)
    by (apply nth_error_Some; congruence).
  exists c. eexists. eexists.
  split; [exact Hc|]. split; [reflexivity|].
  split.
  { simpl. rewrite nth_error_app1 by (rewrite length_list_update; lia).
    apply nth_error_list_update_same. lia. }
  split; [simpl; apply nth_error_new_frame, length_list_update|].
  split.
  { simpl. rewrite !dict_get_app. now rewrite dict_get_set_same. }
  split.
  { unfold has_column. simpl. rewrite !dict_mem_app. simpl.
    unfold dict_mem at 2. simpl. now rewrite orb_true_r. }
  split.
  { unfold has_column. simpl. rewrite !dict_mem_app. simpl.
    unfold dict_mem at 3. simpl. now rewrite orb_true_r. }
  split.
  { intros label H1 H2 H3.
    apply neq_eqb_false in H1, H2, H3.
    assert (E : dict_get
                  (columns (with_hours_and_days to_datetime t
                              (scenario ++ "_hour") c)) label
                = dict_get (columns t) label).
    { simpl. rewrite !dict_get_app.
      rewrite dict_get_set_other by exact H1.
      destruct (dict_get (columns t) label); auto.
      simpl. rewrite H2, H3. reflexivity. }
    split; auto.
    simpl. rewrite dict_get_filter_other by exact H1. exact E. }
  repeat split; auto.
  intros df Hdf Hr. simpl.
  destruct (Nat.lt_ge_cases df (List.length (frames w))) as [Hlt'|Hge].
  - rewrite nth_error_app1 by (rewrite length_list_update; lia).
    now apply nth_error_list_update_other.
  - rewrite nth_error_app2 by (rewrite length_list_update; lia).
    rewrite length_list_update.
    destruct (df - List.length (frames w))%nat as [|n] eqn:E; [lia|].
    simpl. replace (nth_error (frames w) df) with (@None DataFrame)
      by (symmetry; apply nth_error_None; lia).
    destruct n; reflexivity.
Qed.

Lemma add_hours_and_days_changes_the_monday_frame :
  exists t',
    nth_error
      (frames (fst (add_hours_and_days to_datetime_numeric 0%nat "start"
                      (mkWorld [trips_frame monday_hours station_names] []))))
      0%nat = Some t'
    /\ has_column t' "hour" = true
    /\ dict_get (columns t') "start_hour"
       = Some (TimeCol [Some monday_midnight; Some monday_noon]).
Proof.
  destruct (add_hours_and_days_changes_its_argument to_datetime_numeric
              0%nat "start"
              (mkWorld [trips_frame monday_hours station_names] [])
              (fst (add_hours_and_days to_datetime_numeric 0%nat "start"
                      (mkWorld [trips_frame monday_hours station_names] [])))
              1%nat (trips_frame monday_hours station_names)
              eq_refl eq_refl)
    as (c & t' & tr & Hc & _ & Ht' & _ & Hcol & Hh & _).
  exists t'. split; [exact Ht'|]. split; [exact Hh|].
  simpl in Hc. inversion Hc; subst c. exact Hcol.
Defined.

(** X13: [add_hours_and_days] cannot be run twice: after a call that
    returned, a second call on the same frame raises [ValueError] (the
    frame has kept its column of hours and has a column "hour" now), and a
    call on the frame that was returned raises [KeyError] (it has lost the
    column of hours) and changes nothing. *)
Theorem add_hours_and_days_not_twice :
  forall (to_datetime : column -> list (option Timestamp))
         (features : ref) (scenario : string) (w w' : world) (r : ref),
    add_hours_and_days to_datetime features scenario w = (w', Ok r) ->
    snd (add_hours_and_days to_datetime features scenario w') = Err ValueError
    /\ add_hours_and_days to_datetime r scenario w' = (w', Err KeyError).
Proof.
  intros to_datetime features scenario w w' r H.
  destruct (add_hours_and_days_returns _ _ _ _ _ _ H)
    as (t & c & Ht & Hc & Hh & Hd & -> & ->).
  assert (Hlt : (features < List.length (frames w))%nat)
    by (apply nth_error_Some; congruence).
  split.
  - erewrite add_hours_and_days_hour_exists; [reflexivity| | |].
    + simpl. rewrite nth_error_app1 by (rewrite length_list_update; lia).
      apply nth_error_list_update_same. lia.
    + simpl. rewrite !dict_get_app. now rewrite dict_get_set_same.
    + unfold has_column. simpl. rewrite !dict_mem_app. simpl.
      unfold dict_mem at 2. simpl. now rewrite orb_true_r.
  - eapply add_hours_and_days_no_column.
    + simpl. apply nth_error_new_frame, length_list_update.
    + simpl. apply dict_get_filter_same.
Qed.

Lemma add_hours_and_days_not_twice_on_monday :
  snd (add_hours_and_days to_datetime_numeric 0%nat "start"
         (fst (add_hours_and_days to_datetime_numeric 0%nat "start"
                 (mkWorld [trips_frame monday_hours station_names] []))))
  = Err ValueError.
Proof.
  exact (proj1 (add_hours_and_days_not_twice to_datetime_numeric 0%nat "start"
                  (mkWorld [trips_frame monday_hours station_names] [])
                  _ 1%nat eq_refl)).
Defined.

Lemma dict_keys_set_present {V} (d : dict V) k v :
  dict_mem d k = true -> dict_keys (dict_set d k v) = dict_keys d.
Proof.
  unfold dict_mem, dict_keys. induction d as [|[k' v'] d IH]; simpl.
  - discriminate.
  - destruct (String.eqb k k') eqn:E; simpl; auto.
    intros H. now rewrite IH.
Qed.

Lemma dict_keys_set_absent {V} (d : dict V) k v :
  dict_mem d k = false -> dict_keys (dict_set d k v) = (dict_keys d ++ [k])%list.
Proof.
  intros H. rewrite dict_set_fresh by exact H.
  unfold dict_keys. now rewrite map_app.
Qed.

Lemma Forall_dict_set {V} (Q : V -> Prop) (d : dict V) k v :
  Forall (fun kv => Q (snd kv)) d -> Q v ->
  Forall (fun kv => Q (snd kv)) (dict_set d k v).
Proof.
  intros Hd Hv. induction d as [|[k' v'] d IH]; simpl.
  - constructor; auto.
  - inversion Hd; subst.
    destruct (String.eqb k k'); constructor; auto.
Qed.

(** Assigning a column of the right length keeps a frame well formed. *)
Lemma wf_frame_set t label c :
  wf_frame t -> col_length c = List.length (row_labels t) ->
  wf_frame (mkFrame (row_labels t) (dict_set (columns t) label c)).
Proof.
  intros [Hnd Hall] Hlen. split; simpl.
  - destruct (dict_mem (columns t) label) eqn:E.
    + now rewrite dict_keys_set_present.
    + rewrite dict_keys_set_absent by exact E.
      apply NoDup_app; auto.
      * repeat constructor. intros [].
      * intros k Hk [<-|[]]. apply dict_mem_In in Hk. congruence.
  - now apply (Forall_dict_set
                 (fun c => col_length c = List.length (row_labels t))).
Qed.

Lemma wf_frame_without t label : wf_frame t -> wf_frame (without_column t label).
Proof.
  intros [Hnd Hall]. unfold without_column. split; simpl.
  - unfold dict_keys in *.
    induction (columns t) as [|[k v] d IH]; simpl; auto.
    inversion Hnd; subst. inversion Hall; subst.
    destruct (negb (String.eqb k label)); simpl; auto.
    constructor; auto.
    intros Hin. apply H1. apply in_map_iff in Hin.
    destruct Hin as ([k' v'] & Hk & Hin). simpl in Hk. subst k'.
    apply filter_In in Hin. destruct Hin as [Hin _].
    apply in_map_iff. exists (k, v'). auto.
  - apply Forall_forall. intros kv Hkv. apply filter_In in Hkv.
    rewrite Forall_forall in Hall. apply Hall. tauto.
Qed.

Lemma col_length_apply_attr f xs :
  col_length (apply_attr f xs) = List.length xs.
Proof.
  unfold apply_attr. destruct (all_some xs); simpl; now rewrite length_map.
Qed.

(** X14: with a parser that gives one value per row, a call of
    [add_hours_and_days] that returns on a well-formed frame leaves that
    frame well formed and returns a well-formed frame: labels stay
    distinct, and the columns added are as long as the frame. *)
Theorem add_hours_and_days_keeps_frames_well_formed :
  forall (to_datetime : column -> list (option Timestamp))
         (features : ref) (scenario : string) (w w' : world) (r : ref)
         (t : DataFrame),
    (forall c, List.length (to_datetime c) = col_length c) ->
    nth_error (frames w) features = Some t ->
    wf_frame t ->
    add_hours_and_days to_datetime features scenario w = (w', Ok r) ->
    exists t' tr,
      nth_error (frames w') features = Some t'
      /\ nth_error (frames w') r = Some tr
      /\ wf_frame t' /\ wf_frame tr.
Proof.
  intros to_datetime features scenario w w' r t Hparse Ht Hwf H.
  destruct (add_hours_and_days_returns _ _ _ _ _ _ H)
    as (t0 & c & Ht0 & Hc & Hh & Hd & -> & ->).
  assert (t0 = t) by congruence. subst t0.
  assert (Hlt : (features < List.length (frames w))%nat)
    by (apply nth_error_Some; congruence).
  assert (Hlen : List.length (to_datetime c) = List.length (row_labels t)).
  { rewrite Hparse. eapply wf_frame_column; eauto. }
  assert (Hwf' : wf_frame (with_hours_and_days to_datetime t
                             (scenario ++ "_hour") c)).
  { unfold with_hours_and_days.
    set (t1 := mkFrame (row_labels t)
                 (dict_set (columns t) (scenario ++ "_hour")
                    (TimeCol (to_datetime c)))).
    assert (Hwf1 : wf_frame t1) by (apply wf_frame_set; auto).
    set (t2 := mkFrame (row_labels t1)
                 (columns t1
                  ++ [("hour", apply_attr hour (to_datetime c))])%list).
    assert (Hwf2 : wf_frame t2).
    { apply wf_frame_add_last; auto.
      - unfold has_column in *. simpl.
        rewrite dict_mem_set_other; auto. apply hour_is_not_an_hour_label.
      - now rewrite col_length_apply_attr. }
    change (wf_frame
              (mkFrame (row_labels t2)
                 (columns t2
                  ++ [("day_of_the_week",
                       apply_attr dayofweek (to_datetime c))])%list)).
    apply wf_frame_add_last; auto.
    - unfold has_column in *. simpl. rewrite dict_mem_app.
      rewrite dict_mem_set_other by apply day_is_not_an_hour_label.
      rewrite Hd. reflexivity.
    - now rewrite col_length_apply_attr. }
  eexists. eexists. split; [|split; [|split]].
  - simpl. rewrite nth_error_app1 by (rewrite length_list_update; lia).
    apply nth_error_list_update_same. lia.
  - simpl. apply nth_error_new_frame, length_list_update.
  - exact Hwf'.
  - now apply wf_frame_without.
Qed.

Lemma add_hours_and_days_keeps_the_monday_frame_well_formed :
  exists t' tr,
    nth_error
      (frames (fst (add_hours_and_days to_datetime_numeric 0%nat "start"
                      (mkWorld [trips_frame monday_hours station_names] []))))
      0%nat = Some t'
    /\ nth_error
         (frames (fst (add_hours_and_days to_datetime_numeric 0%nat "start"
                         (mkWorld [trips_frame monday_hours station_names] []))))
         1%nat = Some tr
    /\ wf_frame t' /\ wf_frame tr.
Proof.
  apply (add_hours_and_days_keeps_frames_well_formed to_datetime_numeric
           0%nat "start"
           (mkWorld [trips_frame monday_hours station_names] [])
           (fst (add_hours_and_days to_datetime_numeric 0%nat "start"
                   (mkWorld [trips_frame monday_hours station_names] [])))
           1%nat (trips_frame monday_hours station_names)).
  - intros [xs|xs|b xs|xs]; simpl; now rewrite ?length_map.
  - reflexivity.
  - split; simpl.
    + repeat constructor; simpl; intuition discriminate.
    + repeat constructor.
  - reflexivity.
Defined.

(** ** More on add_coordinates_to_dataframe *)

Lemma series_on_nil (idx : list Z) :
  series_on idx [] = FloatCol (map (fun _ => PrimFloat.nan) idx).
Proof.
  unfold series_on. f_equal. apply map_ext. intros i.
  destruct (i <? 0); auto. destruct (Z.to_nat i); reflexivity.
Qed.

Lemma collect_coordinates_empty names :
  forall geodata,
    latitudes (collect_coordinates names [] geodata) = latitudes geodata
    /\ longitudes (collect_coordinates names [] geodata) = longitudes geodata.
Proof.
  induction names as [|place rest IH]; intros geodata; simpl; auto.
Qed.

(** The constructor returns on a column of categories only. *)
Lemma Geocoder_init_category features scenario w w' geodata :
  Geocoder_init features scenario w = (w', Ok geodata) ->
  exists t names,
    nth_error (frames w) features = Some t
    /\ dict_get (columns t) (scenario ++ "_station_name")
       = Some (StrCol true names)
    /\ place_names geodata = dedup String.eqb [] names.
Proof.
  unfold Geocoder_init. intros H.
  apply bind_ok in H. destruct H as (c & w1 & Hc & H).
  apply getitem_ok in Hc. destruct Hc as [-> (t & Ht & Hc)].
  apply bind_ok in H. destruct H as (names & w2 & Hn & H).
  inversion H; subst; clear H.
  destruct c as [xs|xs|[] xs|xs]; simpl in Hn; inversion Hn; subst.
  exists t, xs. auto.
Qed.

(** X15: whenever [add_coordinates_to_dataframe] returns, it returns the
    frame it was given, whose station names are a column of categories,
    and the two coordinate columns it has written hold NaN in every row:
    no coordinate ever reaches the frame.  The rows and the other columns
    are as they were. *)
Theorem add_coordinates_writes_no_coordinate :
  forall (services : geocoding_services) (features : ref) (scenario : string)
         (w w' : world) (r : ref),
    add_coordinates_to_dataframe services features scenario w = (w', Ok r) ->
    r = features
    /\ exists t t' names,
        nth_error (frames w) features = Some t
        /\ dict_get (columns t) (scenario ++ "_station_name")
           = Some (StrCol true names)
        /\ nth_error (frames w') features = Some t'
        /\ dict_get (columns t') (scenario ++ "_latitude")
           = Some (FloatCol (map (fun _ => PrimFloat.nan) (row_labels t)))
        /\ dict_get (columns t') (scenario ++ "_longitude")
           = Some (FloatCol (map (fun _ => PrimFloat.nan) (row_labels t)))
        /\ row_labels t' = row_labels t
        /\ (forall label,
               label <> scenario ++ "_latitude" ->
               label <> scenario ++ "_longitude" ->
               dict_get (columns t') label = dict_get (columns t) label).
Proof.
  intros services features scenario w w' r H.
  unfold add_coordinates_to_dataframe in H.
  apply bind_ok in H. destruct H as (geodata & w1 & Hinit & H).
  destruct (Geocoder_init_category _ _ _ _ _ Hinit)
    as (t & names & Ht & Hnames & _).
  destruct (Geocoder_init_ok _ _ _ _ _ Hinit) as [Hlat0 Hlon0].
  apply Geocoder_init_world in Hinit. subst w1.
  apply bind_ok in H. destruct H as (pp & w2 & Hgeo & H).
  pose proof (geocode_returns_no_entry _ _ _ _ _ Hgeo) as ->.
  apply geocode_frames in Hgeo.
  destruct (collect_coordinates_empty (place_names geodata) geodata)
    as [Hlat Hlon].
  unfold add_coordinates_after_geocode in H.
  rewrite Hlat, Hlon, Hlat0, Hlon0 in H.
  apply bind_ok in H. destruct H as (u1 & w3 & Hset1 & H).
  apply bind_ok in H. destruct H as (u2 & w4 & Hset2 & H).
  inversion H; subst; clear H. split; auto.
  apply setitem_series_ok in Hset1. destruct Hset1 as (t2 & Ht2 & ->).
  apply setitem_series_ok in Hset2. destruct Hset2 as (t3 & Ht3 & ->).
  rewrite (frames_with_frame_same _ _ _ _ Ht2) in Ht3.
  inversion Ht3; subst; clear Ht3.
  rewrite Hgeo in Ht2. assert (t2 = t) by congruence. subst t2.
  exists t. eexists. exists names.
  split; auto. split; auto. split.
  { eapply frames_with_frame_same. eapply frames_with_frame_same.
    rewrite Hgeo. eassumption. }
  simpl. rewrite !series_on_nil. split; [|split; [|split]]; auto.
  - rewrite dict_get_set_other by now rewrite append_eqb_cancel.
    apply dict_get_set_same.
  - apply dict_get_set_same.
  - intros label H1 H2. apply neq_eqb_false in H1, H2.
    rewrite dict_get_set_other by exact H2.
    now rewrite dict_get_set_other by exact H1.
Qed.

Lemma add_coordinates_writes_no_coordinate_for_hq :
  exists t',
    nth_error
      (frames
         (fst (add_coordinates_to_dataframe
                 (nominatim_resolves "HQ" chicago) 0%nat "start"
                 (mkWorld [trips_frame monday_hours two_letter_names] []))))
      0%nat = Some t'
    /\ dict_get (columns t') "start_latitude"
       = Some (FloatCol [PrimFloat.nan; PrimFloat.nan]).
Proof.
  destruct (add_coordinates_writes_no_coordinate
              (nominatim_resolves "HQ" chicago) 0%nat "start"
              (mkWorld [trips_frame monday_hours two_letter_names] [])
              (fst (add_coordinates_to_dataframe
                      (nominatim_resolves "HQ" chicago) 0%nat "start"
                      (mkWorld [trips_frame monday_hours two_letter_names] [])))
              0%nat eq_refl)
    as (_ & t & t' & names & Ht & _ & Ht' & Hlat & _).
  exists t'. split; [exact Ht'|].
  simpl in Ht. inversion Ht; subst t. exact Hlat.
Defined.

(** ** More on finish_feature_engineering *)

Lemma py_assert_true b w w' u : py_assert b w = (w', Ok u) -> b = true.
Proof. destruct b; simpl; intros H; [reflexivity|discriminate]. Qed.

(** The columns of the frame when [add_avg_trips_last_4_weeks] returns. *)
Lemma add_avg_columns features w w' r t :
  add_avg_trips_last_4_weeks features w = (w', Ok r) ->
  nth_error (frames w) features = Some t ->
  exists t',
    nth_error (frames w') features = Some t'
    /\ row_labels t' = row_labels t
    /\ (columns t' = columns t
        \/ exists averages,
            columns t'
            = (columns t ++ [("average_trips_last_4_weeks", averages)])%list).
Proof.
  intros H Ht.
  destruct (has_column t "average_trips_last_4_weeks") eqn:Hcol.
  - rewrite (add_avg_present _ _ _ Ht Hcol) in H. inversion H; subst.
    exists t. auto.
  - destruct (add_avg_ok_absent _ _ _ _ _ H Ht Hcol)
      as (c1 & c2 & c3 & c4 & s12 & s123 & s1234 & averages
          & _ & _ & _ & _ & _ & _ & _ & _ & ->).
    eexists. split; [eapply frames_with_frame_same; eauto|].
    split; auto. right. exists averages. reflexivity.
Qed.

(** X16: whenever [finish_feature_engineering] returns without geocoding,
    the scenario is one of the configuration, the frame returned is a new
    object that has the columns "day_of_the_week" and
    "average_trips_last_4_weeks" without any null, has the column "hour"
    and has lost [{scenario}_hour]; and no geocoding request was sent. *)
Theorem finish_returns_a_checked_frame :
  forall (services : geocoding_services)
         (to_datetime : column -> list (option Timestamp))
         (displayed_scenario_names : dict string)
         (features : ref) (scenario : string) (w w' : world) (r : ref),
    finish_feature_engineering services to_datetime displayed_scenario_names
      features scenario false w = (w', Ok r) ->
    dict_mem displayed_scenario_names scenario = true
    /\ r = List.length (frames w)
    /\ requests w' = requests w
    /\ exists tf,
        nth_error (frames w') r = Some tf
        /\ postcondition_violated tf = false
        /\ has_column tf "hour" = true
        /\ has_column tf (scenario ++ "_hour") = false.
Proof.
  intros services to_datetime cfg features scenario w w' r H.
  unfold finish_feature_engineering in H. unfold dict_mem.
  destruct (dict_get cfg scenario); [|discriminate].
  split; auto.
  apply bind_ok in H. destruct H as (r1 & w1 & H1 & H).
  apply bind_ok in H. destruct H as (final & w2 & H2 & H).
  destruct (add_hours_and_days_returns _ _ _ _ _ _ H1)
    as (t & c & Ht & Hc & Hh & Hd & -> & ->).
  destruct (add_avg_ok _ _ _ _ H2) as [-> _].
  assert (Hr1 : nth_error
                  (frames
                     (mkWorld
                        (frames
                           (with_frame w features
                              (with_hours_and_days to_datetime t
                                 (scenario ++ "_hour") c))
                         ++ [without_column
                               (with_hours_and_days to_datetime t
                                  (scenario ++ "_hour") c)
                               (scenario ++ "_hour")])
                        (requests w)))
                  (List.length (frames w))
                = Some (without_column
                          (with_hours_and_days to_datetime t
                             (scenario ++ "_hour") c)
                          (scenario ++ "_hour")))
    by (simpl; apply nth_error_new_frame, length_list_update).
  destruct (add_avg_columns _ _ _ _ _ H2 Hr1) as (tf & Htf & _ & Hcols).
  destruct (add_avg_frames _ _ _ _ H2) as (_ & _ & _ & _ & _ & _ & Hreq).
  apply bind_ok in H. destruct H as (tf' & w3 & H3 & H).
  apply frame_of_ok in H3. destruct H3 as [-> Htf'].
  assert (tf' = tf) by congruence. subst tf'.
  apply bind_ok in H. destruct H as (u1 & w4 & H4 & H).
  pose proof (py_assert_true _ _ _ _ H4) as Havg. simpl in Havg.
  apply py_assert_ok in H4. subst w4.
  apply bind_ok in H. destruct H as (d & w5 & H5 & H).
  apply getitem_ok in H5. destruct H5 as [-> (tf' & Htf'' & Hday)].
  assert (tf' = tf) by congruence. subst tf'.
  apply bind_ok in H. destruct H as (u2 & w6 & H6 & H).
  inversion H; subst; clear H.
  destruct (isna_sum d =? 0) eqn:Hd0;
    [|apply py_assert_true in H6; discriminate].
  apply bind_ok in H6. destruct H6 as (a & w7 & H7 & H6).
  apply getitem_ok in H7. destruct H7 as [-> (tf' & Htf3 & Ha)].
  assert (tf' = tf) by congruence. subst tf'.
  pose proof (py_assert_true _ _ _ _ H6) as Ha0.
  apply py_assert_ok in H6. subst w'.
  split; auto. split; [exact Hreq|].
  exists tf. split; auto. split.
  { unfold postcondition_violated, has_nulls, has_column, dict_mem in *.
    rewrite Hday, Ha, Hd0, Ha0. reflexivity. }
  assert (Hhour : dict_mem
                    (columns
                       (without_column
                          (with_hours_and_days to_datetime t
                             (scenario ++ "_hour") c)
                          (scenario ++ "_hour"))) "hour" = true).
  { unfold dict_mem. simpl.
    rewrite dict_get_filter_other by apply hour_is_not_an_hour_label.
    rewrite !dict_get_app.
    rewrite dict_get_set_other by apply hour_is_not_an_hour_label.
    unfold has_column, dict_mem in Hh.
    destruct (dict_get (columns t) "hour"); [discriminate|]. reflexivity. }
  assert (Hlabel : dict_mem
                     (columns
                        (without_column
                           (with_hours_and_days to_datetime t
                              (scenario ++ "_hour") c)
                           (scenario ++ "_hour"))) (scenario ++ "_hour")
                   = false)
    by apply has_column_without.
  unfold has_column.
  destruct Hcols as [->|(averages & ->)]; [auto|].
  rewrite !dict_mem_app, Hhour, Hlabel. split; [reflexivity|].
  unfold dict_mem. simpl.
  rewrite String.eqb_sym, average_is_not_an_hour_label. reflexivity.
Qed.

Lemma finish_returns_a_checked_monday_frame :
  exists tf,
    nth_error
      (frames
         (fst (finish_feature_engineering services_time_out
                 to_datetime_numeric config_scenarios 0%nat "start" false
                 (mkWorld [trips_frame monday_hours station_names] []))))
      1%nat = Some tf
    /\ postcondition_violated tf = false.
Proof.
  destruct (finish_returns_a_checked_frame services_time_out
              to_datetime_numeric config_scenarios 0%nat "start"
              (mkWorld [trips_frame monday_hours station_names] [])
              (fst (finish_feature_engineering services_time_out
                      to_datetime_numeric config_scenarios 0%nat "start" false
                      (mkWorld [trips_frame monday_hours station_names] [])))
              1%nat eq_refl)
    as (_ & _ & _ & tf & Htf & Hpost & _).
  exists tf. split; assumption.
Defined.

(** X17: [finish_feature_engineering] cannot be run twice on one frame:
    after a call without geocoding that returned, any further call on the
    same frame and scenario, with or without geocoding, raises
    [ValueError]. *)
Theorem finish_not_twice :
  forall (services : geocoding_services)
         (to_datetime : column -> list (option Timestamp))
         (displayed_scenario_names : dict string)
         (features : ref) (scenario : string) (w w' : world) (r : ref)
         (geocode : bool),
    finish_feature_engineering services to_datetime displayed_scenario_names
      features scenario false w = (w', Ok r) ->
    snd (finish_feature_engineering services to_datetime
           displayed_scenario_names features scenario geocode w')
    = Err ValueError.
Proof.
  intros services to_datetime cfg features scenario w w' r geocode H.
  destruct (finish_returns _ _ _ _ _ _ _ _ H) as (t & c & Ht & Hc & Hfeat & _).
  unfold finish_feature_engineering in *.
  destruct (dict_get cfg scenario); [|discriminate].
  unfold bind at 1.
  erewrite add_hours_and_days_hour_exists; [reflexivity|exact Hfeat| |].
  - simpl. rewrite !dict_get_app. now rewrite dict_get_set_same.
  - unfold has_column. simpl. rewrite !dict_mem_app. simpl.
    unfold dict_mem at 2. simpl. now rewrite orb_true_r.
Qed.

Lemma finish_not_twice_on_monday :
  snd (finish_feature_engineering services_time_out to_datetime_numeric
         config_scenarios 0%nat "start" true
         (fst (finish_feature_engineering services_time_out
                 to_datetime_numeric config_scenarios 0%nat "start" false
                 (mkWorld [trips_frame monday_hours station_names] []))))
  = Err ValueError.
Proof.
  exact (finish_not_twice services_time_out to_datetime_numeric
           config_scenarios 0%nat "start"
           (mkWorld [trips_frame monday_hours station_names] []) _ 1%nat true
           eq_refl).
Defined.

(** ** The inference module *)

Lemma st_is_not_a_global : load_global "st" = Raises (NameError "st").
Proof. reflexivity. Qed.

Lemma rerun_feature_pipeline_run {FS A}
    (make_training_data : FS -> FS * outcome unit)
    (fn : FS -> FS * outcome A) (fs : FS) :
  rerun_feature_pipeline make_training_data fn fs
  = (fst (fn fs),
     match snd (fn fs) with
     | Raises (FileNotFoundError _) => Raises (NameError "st")
     | r => r
     end).
Proof.
  unfold rerun_feature_pipeline. rewrite st_is_not_a_global.
  destruct (fn fs) as [fs1 [a|[msg|n|n|e]]]; reflexivity.
Qed.

(** X18: the wrapper of [rerun_feature_pipeline] runs [fn] once and never
    the feature pipeline.  What [fn] returns or raises is passed on, except
    [FileNotFoundError], which becomes the [NameError] of the name [st];
    the files are left as the one run of [fn] left them, and the wrapper
    returns a value exactly when that run of [fn] returned it. *)
Theorem rerun_feature_pipeline_never_reruns :
  forall (FS A : Type) (make_training_data : FS -> FS * outcome unit)
         (fn : FS -> FS * outcome A) (fs : FS),
    fst (rerun_feature_pipeline make_training_data fn fs) = fst (fn fs)
    /\ (forall msg,
          snd (fn fs) = Raises (FileNotFoundError msg) ->
          snd (rerun_feature_pipeline make_training_data fn fs)
          = Raises (NameError "st"))
    /\ (forall msg,
          snd (rerun_feature_pipeline make_training_data fn fs)
          <> Raises (FileNotFoundError msg))
    /\ (forall a,
          snd (rerun_feature_pipeline make_training_data fn fs) = Returns a
          <-> snd (fn fs) = Returns a)
    /\ (forall other : FS -> FS * outcome unit,
          rerun_feature_pipeline other fn fs
          = rerun_feature_pipeline make_training_data fn fs).
Proof.
  intros FS A mtd fn fs. rewrite rerun_feature_pipeline_run. simpl.
  repeat split.
  - intros msg H. now rewrite H.
  - intros msg. destruct (snd (fn fs)) as [a|[m|n|n|e]]; discriminate.
  - destruct (snd (fn fs)) as [b|[m|n|n|e]]; auto; discriminate.
  - destruct (snd (fn fs)) as [b|[m|n|n|e]]; auto; discriminate.
  - intros other. now rewrite rerun_feature_pipeline_run.
Qed.

Lemma load_raw_local_geodata_fn_files {J} (R M scenario : string)
    (fs : filesystem J) :
  fst (load_raw_local_geodata_fn R M scenario fs) = fs.
Proof.
  unfold load_raw_local_geodata_fn.
  destruct (listdir fs R) as [l|e]; [|reflexivity].
  destruct (negb (Nat.eqb (List.length l) 0)); [reflexivity|].
  destruct (listdir fs M) as [l'|e]; [|reflexivity].
  destruct (negb (Nat.eqb (List.length l') 0)); reflexivity.
Qed.

Lemma nonempty_length {A} (l : list A) :
  negb (Nat.eqb (List.length l) 0) = true <-> l <> [].
Proof.
  destruct l; simpl; split; try discriminate; auto;
    try (intros H; now contradiction H).
Qed.

Lemma load_raw_local_geodata_fn_returns {J} (R M scenario : string)
    (fs : filesystem J) (j : J) :
  snd (load_raw_local_geodata_fn R M scenario fs) = Returns j
  <-> (exists entries,
         listdir fs R = Returns entries /\ entries <> []
         /\ load_json fs R (scenario ++ "_geodata.json") = Returns j)
      \/ (listdir fs R = Returns []
          /\ exists entries,
               listdir fs M = Returns entries /\ entries <> []
               /\ load_json fs M (scenario ++ "_geodata.json") = Returns j).
Proof.
  unfold load_raw_local_geodata_fn. simpl. split.
  - destruct (listdir fs R) as [l|e] eqn:HR; [|discriminate].
    destruct (negb (Nat.eqb (List.length l) 0)) eqn:Hl.
    + intros H. left. exists l. apply nonempty_length in Hl. auto.
    + destruct l; [|discriminate].
      destruct (listdir fs M) as [l'|e] eqn:HM; [|discriminate].
      destruct (negb (Nat.eqb (List.length l') 0)) eqn:Hl'; [|discriminate].
      intros H. right. split; [reflexivity|]. exists l'.
      apply nonempty_length in Hl'. auto.
  - intros [(l & HR & Hl & H)|(HR & l & HM & Hl & H)].
    + rewrite HR. apply nonempty_length in Hl. now rewrite Hl.
    + rewrite HR. simpl. rewrite HM. apply nonempty_length in Hl.
      now rewrite Hl.
Qed.

(** X19: [load_raw_local_geodata], as decorated, never changes the files
    and never raises [FileNotFoundError].  It returns a value exactly when
    that value is read from the scenario's geodata file of the rounding
    indexer's directory, that directory having an entry, or from the one
    of the mixed indexer's directory when the former is empty and the
    latter is not; the mixed indexer's file is never read while the
    rounding indexer's directory has an entry.  When both directories are
    empty it raises [NameError]: no geodata is made. *)
Theorem load_raw_local_geodata_reads_the_first_indexer :
  forall (J : Type) (ROUNDING_INDEXER MIXED_INDEXER : string)
         (make_training_data : filesystem J -> filesystem J * outcome unit)
         (scenario : string) (fs : filesystem J),
    fst (load_raw_local_geodata ROUNDING_INDEXER MIXED_INDEXER
           make_training_data scenario fs) = fs
    /\ (forall msg,
          snd (load_raw_local_geodata ROUNDING_INDEXER MIXED_INDEXER
                 make_training_data scenario fs)
          <> Raises (FileNotFoundError msg))
    /\ (forall j,
          snd (load_raw_local_geodata ROUNDING_INDEXER MIXED_INDEXER
                 make_training_data scenario fs) = Returns j
          <-> (exists entries,
                 listdir fs ROUNDING_INDEXER = Returns entries
                 /\ entries <> []
                 /\ load_json fs ROUNDING_INDEXER (scenario ++ "_geodata.json")
                    = Returns j)
              \/ (listdir fs ROUNDING_INDEXER = Returns []
                  /\ exists entries,
                       listdir fs MIXED_INDEXER = Returns entries
                       /\ entries <> []
                       /\ load_json fs MIXED_INDEXER
                            (scenario ++ "_geodata.json") = Returns j))
    /\ (listdir fs ROUNDING_INDEXER = Returns [] ->
        listdir fs MIXED_INDEXER = Returns [] ->
        snd (load_raw_local_geodata ROUNDING_INDEXER MIXED_INDEXER
               make_training_data scenario fs) = Raises (NameError "st")).
Proof.
  intros J R M mtd scenario fs. unfold load_raw_local_geodata.
  rewrite rerun_feature_pipeline_run. simpl.
  split; [apply load_raw_local_geodata_fn_files|].
  split; [|split].
  - intros msg.
    destruct (snd (load_raw_local_geodata_fn R M scenario fs))
      as [a|[m|n|n|e]]; discriminate.
  - intros j. rewrite <- load_raw_local_geodata_fn_returns.
    destruct (snd (load_raw_local_geodata_fn R M scenario fs))
      as [a|[m|n|n|e]]; split; auto; discriminate.
  - intros HR HM. unfold load_raw_local_geodata_fn.
    rewrite HR. simpl. rewrite HM. reflexivity.
Qed.

Lemma load_raw_local_geodata_makes_no_geodata :
  (forall msg,
     snd (load_raw_local_geodata "rounding" "mixed" pipeline_writes_geodata
            "start" no_geodata) <> Raises (FileNotFoundError msg))
  /\ snd (load_raw_local_geodata "rounding" "mixed" pipeline_writes_geodata
            "start" no_geodata) = Raises (NameError "st")
  /\ snd (load_raw_local_geodata "rounding" "mixed" pipeline_writes_geodata
            "start" rounded_geodata) = Returns ["Clark St & Lake St"].
Proof.
  split; [|split].
  - exact (proj1 (proj2 (load_raw_local_geodata_reads_the_first_indexer
             (list string) "rounding" "mixed" pipeline_writes_geodata
             "start" no_geodata))).
  - exact (proj2 (proj2 (proj2 (load_raw_local_geodata_reads_the_first_indexer
             (list string) "rounding" "mixed" pipeline_writes_geodata
             "start" no_geodata))) eq_refl eq_refl).
  - apply (proj1 (proj2 (proj2 (load_raw_local_geodata_reads_the_first_indexer
             (list string) "rounding" "mixed" pipeline_writes_geodata
             "start" rounded_geodata)))).
    left. exists ["start_geodata.json"].
    split; [reflexivity|]. split; [discriminate|reflexivity].
Defined.

(** X20: [fetch_predictions_group] binds [tuned_or_not] for the models
    "lightgbm" and "xgboost" only.  For any other model name, and whatever
    the feature store would do, it raises [UnboundLocalError] before the
    feature store is asked for anything. *)
Theorem fetch_predictions_group_unbound :
  forall (FStore FG : Type) (feature_group_version : Z)
         (setup_feature_group :
            feature_group_request -> FStore -> FStore * outcome FG)
         (scenario model_name : string) (s : FStore),
    model_name <> "lightgbm" ->
    model_name <> "xgboost" ->
    fetch_predictions_group feature_group_version setup_feature_group
      scenario model_name s
    = (s, Raises (UnboundLocalError "tuned_or_not")).
Proof.
  intros FStore FG v setup scenario model_name s Hl Hx.
  unfold fetch_predictions_group.
  apply String.eqb_neq in Hl. apply String.eqb_neq in Hx.
  now rewrite Hl, Hx.
Qed.

Lemma fetch_predictions_group_unbound_for_base :
  fetch_predictions_group 1 store_sets_up "start" "base" []
  = ([], Raises (UnboundLocalError "tuned_or_not")).
Proof.
  apply (fetch_predictions_group_unbound (list feature_group_request) string
           1 store_sets_up "start" "base" []); discriminate.
Defined.

(** ** The trainer *)

Lemma pushes_app {Model} (l l' : list (call Model)) :
  pushes (l ++ l') = (pushes l ++ pushes l')%list.
Proof.
  induction l as [|c l IH]; simpl; [reflexivity|].
  destruct c; simpl; now rewrite IH.
Qed.

Lemma train_loop_log {E Model}
    (train_outcome : list (call Model) -> string -> outcome E) :
  forall model_names d log log' r,
    train_loop train_outcome model_names d log = (log', r) ->
    exists k,
      (k <= List.length model_names)%nat
      /\ log' = (log ++ map Train (firstn k model_names))%list
      /\ (forall d', r = Returns d' -> k = List.length model_names).
Proof.
  induction model_names as [|n rest IH]; simpl; intros d log log' r H.
  - inversion H; subst. exists 0%nat. simpl. rewrite app_nil_r. auto.
  - destruct (train_outcome log n) as [e|e].
    + destruct (IH _ _ _ _ H) as (k & Hk & Hlog & Hr).
      exists (S k). simpl. split; [lia|]. split.
      * rewrite Hlog. rewrite <- app_assoc. reflexivity.
      * intros d' Hd. f_equal. eauto.
    + inversion H; subst. exists 1%nat. simpl. split; [lia|].
      split; [reflexivity|]. discriminate.
Qed.

Lemma train_loop_returns {E Model}
    (train_outcome : list (call Model) -> string -> outcome E) :
  forall model_names d log log' d',
    train_loop train_outcome model_names d log = (log', Returns d') ->
    log' = (log ++ map Train model_names)%list.
Proof.
  intros model_names d log log' d' H.
  destruct (train_loop_log _ _ _ _ _ _ H) as (k & _ & Hlog & Hk).
  rewrite (Hk d' eq_refl) in Hlog. now rewrite firstn_all in Hlog.
Qed.

Lemma dict_set_NoDup {V} (d : dict V) k v :
  NoDup (dict_keys d) -> NoDup (dict_keys (dict_set d k v)).
Proof.
  intros H. destruct (dict_mem d k) eqn:Hm.
  - now rewrite dict_keys_set_present.
  - rewrite dict_keys_set_absent by exact Hm.
    apply NoDup_app; [exact H|repeat constructor; simpl; tauto|].
    intros x Hx [<-|[]]. apply dict_mem_In in Hx. congruence.
Qed.

Lemma NoDup_dict_get {V} (d : dict V) k v :
  NoDup (dict_keys d) -> In (k, v) d -> dict_get d k = Some v.
Proof.
  unfold dict_keys. induction d as [|[k' v'] d IH]; simpl; [tauto|].
  intros Hnd [Heq|Hin].
  - inversion Heq; subst. now rewrite String.eqb_refl.
  - inversion Hnd as [|? ? Hnot Hnd']; subst.
    destruct (String.eqb k k') eqn:Ek.
    + apply String.eqb_eq in Ek. subst. exfalso. apply Hnot.
      change k' with (fst (k', v)). now apply in_map.
    + auto.
Qed.

(** What the first loop leaves in [models_and_errors]: no key twice, the
    keys it had and the models named, and errors that training returned. *)
Lemma train_loop_dict {E Model}
    (train_outcome : list (call Model) -> string -> outcome E)
    (Q : E -> Prop) :
  (forall l n e, train_outcome l n = Returns e -> Q e) ->
  forall model_names d log log' d',
    train_loop train_outcome model_names d log = (log', Returns d') ->
    NoDup (dict_keys d) ->
    Forall (fun kv => Q (snd kv)) d ->
    NoDup (dict_keys d')
    /\ Forall (fun kv => Q (snd kv)) d'
    /\ (forall k, dict_mem d' k = true
                  <-> dict_mem d k = true \/ In k model_names).
Proof.
  intros HQ.
  induction model_names as [|n rest IH]; simpl; intros d log log' d' H Hnd Hd.
  - inversion H; subst. repeat split; auto. tauto.
  - destruct (train_outcome log n) as [e|e] eqn:He; [|discriminate].
    destruct (IH _ _ _ _ H) as (Hnd' & Hd' & Hk).
    + now apply dict_set_NoDup.
    + apply Forall_dict_set; eauto.
    + repeat split; auto.
      * intros Hm. apply Hk in Hm. destruct Hm as [Hm|Hm]; [|auto].
        destruct (String.eqb k n) eqn:Ek.
        -- apply String.eqb_eq in Ek. auto.
        -- rewrite dict_mem_set_other in Hm by exact Ek. auto.
      * intros Hm. apply Hk.
        destruct (String.eqb k n) eqn:Ek.
        -- apply String.eqb_eq in Ek. subst. left. apply dict_mem_set_same.
        -- rewrite dict_mem_set_other by exact Ek.
           destruct Hm as [Hm|[Hm|Hm]]; auto.
           subst. rewrite String.eqb_refl in Ek. discriminate.
Qed.

Lemma register_loop_log {E Model} (float_lt float_eq : E -> E -> bool)
    (load_outcome :
       list (call Model) -> string -> string -> string -> outcome Model)
    (push_outcome :
       list (call Model) -> Model -> string -> string -> string -> string
       -> string -> outcome unit)
    (self : Trainer) (version status : string) (d : dict E) :
  forall model_names log log' r,
    register_loop float_lt float_eq load_outcome push_outcome self version
      status d model_names log = (log', r) ->
    exists calls,
      log' = (log ++ calls)%list
      /\ forallb is_registry_call calls = true
      /\ (r = Returns tt ->
          pushes calls
          = map (fun n => (n, trainer_scenario self, tuned_or_not self,
                           title status, version))
              (filter (is_best float_lt float_eq d) model_names)).
Proof.
  induction model_names as [|n rest IH]; simpl; intros log log' r H.
  - inversion H; subst. exists []. rewrite app_nil_r. auto.
  - unfold is_best at 1.
    destruct (dict_get d n) as [e|].
    2:{ inversion H; subst. exists []. rewrite app_nil_r.
        repeat split; auto. discriminate. }
    destruct (py_min float_lt (dict_values d)) as [m|err].
    2:{ inversion H; subst. exists []. rewrite app_nil_r.
        repeat split; auto. discriminate. }
    destruct (float_eq e m).
    + destruct (load_outcome log n (trainer_scenario self) (tuned_or_not self))
        as [model|err].
      2:{ inversion H; subst. eexists. split; [reflexivity|].
          split; [reflexivity|discriminate]. }
      destruct (push_outcome _ model n _ _ _ version) as [[]|err].
      2:{ inversion H; subst. eexists. split; [reflexivity|].
          split; [reflexivity|discriminate]. }
      destruct (IH _ _ _ H) as (calls & Hlog & Hcalls & Hpush).
      exists (LoadLocalModel n (trainer_scenario self) (tuned_or_not self)
                :: PushModel model n (trainer_scenario self)
                     (tuned_or_not self) (title status) version :: calls).
      split; [|split].
      * rewrite Hlog. rewrite <- app_assoc. reflexivity.
      * simpl. exact Hcalls.
      * intros Hr. simpl. f_equal. auto.
    + destruct (IH _ _ _ H) as (calls & Hlog & Hcalls & Hpush).
      exists calls. auto.
Qed.

Lemma valid_status (status : string) :
  existsb (String.eqb status) ["staging"; "production"] = true ->
  (status = "staging" /\ title status = "Staging")
  \/ (status = "production" /\ title status = "Production").
Proof.
  simpl. rewrite orb_false_r. intros H. apply orb_true_iff in H.
  destruct H as [H|H]; apply String.eqb_eq in H; subst; auto.
Qed.

(** X21: in [train_models_and_register_best] every training comes before
    any loading or pushing of a model.  The calls made are trainings of the
    first [k] models named, in order, followed by loads and pushes only;
    a load or a push is made only when all models have been trained, and
    so is a return.  With a status other than "staging" and "production"
    the call raises [AssertionError] and nothing at all is trained. *)
Theorem train_models_and_register_best_trains_first :
  forall (E Model : Type) (float_lt float_eq : E -> E -> bool)
         (train_outcome : list (call Model) -> string -> outcome E)
         (load_outcome :
            list (call Model) -> string -> string -> string -> outcome Model)
         (push_outcome :
            list (call Model) -> Model -> string -> string -> string
            -> string -> string -> outcome unit)
         (self : Trainer) (model_names : list string)
         (version status : string) (log log' : list (call Model))
         (r : outcome unit),
    train_models_and_register_best float_lt float_eq train_outcome
      load_outcome push_outcome self model_names version status log
    = (log', r) ->
    exists (k : nat) (calls : list (call Model)),
      (k <= List.length model_names)%nat
      /\ log' = (log ++ map Train (firstn k model_names) ++ calls)%list
      /\ forallb is_registry_call calls = true
      /\ (calls <> [] -> k = List.length model_names)
      /\ (r = Returns tt -> k = List.length model_names)
      /\ (existsb (String.eqb status) ["staging"; "production"] = false ->
          log' = log /\ r = Raises (Builtin AssertionError)).
Proof.
  intros E Model lt eq tr ld ps self names version status log log' r H.
  unfold train_models_and_register_best in H.
  destruct (existsb (String.eqb status) ["staging"; "production"]) eqn:Hs;
    cbn [negb] in H; cbv iota in H.
  2:{ inversion H; subst. exists 0%nat, []. simpl. rewrite app_nil_r.
      repeat split; auto; try lia; try discriminate.
      intros F. now contradiction F. }
  destruct (train_loop tr names [] log) as [log1 [d|e]] eqn:Ht.
  - pose proof (train_loop_returns _ _ _ _ _ _ Ht) as Hlog1.
    destruct (register_loop_log _ _ _ _ _ _ _ _ _ _ _ _ H)
      as (calls & Hlog & Hcalls & _).
    exists (List.length names), calls. rewrite firstn_all.
    repeat split; auto; try discriminate.
    rewrite Hlog, Hlog1. now rewrite app_assoc.
  - inversion H; subst.
    destruct (train_loop_log _ _ _ _ _ _ Ht) as (k & Hk & Hlog & _).
    exists k, []. rewrite app_nil_r.
    repeat split; auto; try discriminate.
    intros F. now contradiction F.
Qed.

Lemma train_models_and_register_best_stops_at_xgboost :
  exists (k : nat) (calls : list (call string)),
    (k <= 3)%nat
    /\ fst (train_models_and_register_best PrimFloat.ltb PrimFloat.eqb
              xgboost_fails loads_by_name registry_accepts
              (Trainer_init "start" false 15)
              ["lightgbm"; "xgboost"; "base"] "1.0.0" "production" [])
       = ([] ++ map Train (firstn k ["lightgbm"; "xgboost"; "base"]) ++ calls)%list
    /\ forallb is_registry_call calls = true
    /\ (calls <> [] -> k = 3%nat)
    /\ (@Raises unit (Builtin (ServiceError "training failed")) = Returns tt
        -> k = 3%nat)
    /\ (existsb (String.eqb "production") ["staging"; "production"] = false ->
        fst (train_models_and_register_best PrimFloat.ltb PrimFloat.eqb
               xgboost_fails loads_by_name registry_accepts
               (Trainer_init "start" false 15)
               ["lightgbm"; "xgboost"; "base"] "1.0.0" "production" [])
        = []
        /\ @Raises unit (Builtin (ServiceError "training failed"))
           = Raises (Builtin AssertionError)).
Proof.
  exact (train_models_and_register_best_trains_first float string
           PrimFloat.ltb PrimFloat.eqb xgboost_fails loads_by_name
           registry_accepts (Trainer_init "start" false 15)
           ["lightgbm"; "xgboost"; "base"] "1.0.0" "production" [] _ _
           eq_refl).
Defined.

Lemma train_models_and_register_best_run {E Model}
    (float_lt float_eq : E -> E -> bool)
    (train_outcome : list (call Model) -> string -> outcome E)
    (load_outcome :
       list (call Model) -> string -> string -> string -> outcome Model)
    (push_outcome :
       list (call Model) -> Model -> string -> string -> string -> string
       -> string -> outcome unit)
    (self : Trainer) (model_names : list string) (version status : string)
    (log log' : list (call Model)) :
  train_models_and_register_best float_lt float_eq train_outcome
    load_outcome push_outcome self model_names version status log
  = (log', Returns tt) ->
  existsb (String.eqb status) ["staging"; "production"] = true
  /\ exists d,
       train_loop train_outcome model_names [] log
       = ((log ++ map Train model_names)%list, Returns d)
       /\ pushes log'
          = (pushes log
             ++ map (fun n => (n, trainer_scenario self, tuned_or_not self,
                               title status, version))
                 (filter (is_best float_lt float_eq d) model_names))%list.
Proof.
  intros H. unfold train_models_and_register_best in H.
  destruct (existsb (String.eqb status) ["staging"; "production"]) eqn:Hs;
    cbn [negb] in H; cbv iota in H; [|discriminate].
  split; [reflexivity|].
  destruct (train_loop train_outcome model_names [] log) as [log1 [d|e]] eqn:Ht;
    [|discriminate].
  pose proof (train_loop_returns _ _ _ _ _ _ Ht) as Hlog1. subst log1.
  exists d. split; [reflexivity|].
  destruct (register_loop_log _ _ _ _ _ _ _ _ _ _ _ _ H)
    as (calls & Hlog & _ & Hpush).
  rewrite Hlog. rewrite !pushes_app. rewrite (Hpush eq_refl).
  assert (Hnone : forall (l : list string),
            pushes (map (@Train Model) l) = []).
  { induction l; simpl; auto. }
  rewrite Hnone. rewrite app_nil_r. reflexivity.
Qed.

(** X22: whenever [train_models_and_register_best] returns, the status was
    "staging" or "production", every model named was trained once per
    naming and in order, and the models pushed are exactly the named models
    whose last test error equals the least of the errors, in the order of
    naming and once per naming, each under the trainer's scenario and
    [tuned_or_not], the given version, and the status "Staging" or
    "Production". *)
Theorem train_models_and_register_best_pushes_the_least :
  forall (E Model : Type) (float_lt float_eq : E -> E -> bool)
         (train_outcome : list (call Model) -> string -> outcome E)
         (load_outcome :
            list (call Model) -> string -> string -> string -> outcome Model)
         (push_outcome :
            list (call Model) -> Model -> string -> string -> string
            -> string -> string -> outcome unit)
         (self : Trainer) (model_names : list string)
         (version status : string) (log log' : list (call Model)),
    train_models_and_register_best float_lt float_eq train_outcome
      load_outcome push_outcome self model_names version status log
    = (log', Returns tt) ->
    ((status = "staging" /\ title status = "Staging")
     \/ (status = "production" /\ title status = "Production"))
    /\ exists d,
         train_loop train_outcome model_names [] log
         = ((log ++ map Train model_names)%list, Returns d)
         /\ pushes log'
            = (pushes log
               ++ map (fun n => (n, trainer_scenario self, tuned_or_not self,
                                 title status, version))
                   (filter (is_best float_lt float_eq d) model_names))%list.
Proof.
  intros E Model lt eq tr ld ps self names version status log log' H.
  destruct (train_models_and_register_best_run _ _ _ _ _ _ _ _ _ _ _ H)
    as (Hs & d & Ht & Hp).
  split; [now apply valid_status|].
  exists d. auto.
Qed.

Lemma train_models_and_register_best_pushes_lightgbm :
  (("production" = "staging" /\ title "production" = "Staging")
   \/ ("production" = "production" /\ title "production" = "Production"))
  /\ exists d,
       train_loop errors_half_and_three_quarters
         ["xgboost"; "lightgbm"; "base"] [] []
       = (([] ++ map Train ["xgboost"; "lightgbm"; "base"])%list, Returns d)
       /\ pushes
            (fst (train_models_and_register_best PrimFloat.ltb PrimFloat.eqb
                    errors_half_and_three_quarters loads_by_name
                    registry_accepts (Trainer_init "start" true 15)
                    ["xgboost"; "lightgbm"; "base"] "1.0.0" "production" []))
          = (pushes (@nil (call string))
             ++ map (fun n => (n, "start", "Tuned", title "production", "1.0.0"))
                 (filter (is_best PrimFloat.ltb PrimFloat.eqb d)
                    ["xgboost"; "lightgbm"; "base"]))%list.
Proof.
  exact (train_models_and_register_best_pushes_the_least float string
           PrimFloat.ltb PrimFloat.eqb errors_half_and_three_quarters
           loads_by_name registry_accepts (Trainer_init "start" true 15)
           ["xgboost"; "lightgbm"; "base"] "1.0.0" "production" [] _
           eq_refl).
Defined.

Lemma fold_min_In {E} (float_lt : E -> E -> bool) (rest : list E) :
  forall x,
    In (fold_left (fun m v => if float_lt v m then v else m) rest x)
       (x :: rest).
Proof.
  induction rest as [|y rest IH]; intros x; simpl; [auto|].
  destruct (IH (if float_lt y x then y else x)) as [H|H].
  - destruct (float_lt y x); rewrite <- H; auto.
  - auto.
Qed.

Lemma py_min_In {E} (float_lt : E -> E -> bool) (l : list E) (m : E) :
  py_min float_lt l = Returns m -> In m l.
Proof.
  destruct l as [|x rest]; simpl; [discriminate|].
  intros H. inversion H. apply (fold_min_In float_lt rest x).
Qed.

(** X23: when at least one model is named and every test error that
    training returns equals itself (none is NaN), a call of
    [train_models_and_register_best] that returns has pushed one of the
    named models, under the trainer's scenario and [tuned_or_not], with
    the given version. *)
Theorem train_models_and_register_best_pushes_a_model :
  forall (E Model : Type) (float_lt float_eq : E -> E -> bool)
         (train_outcome : list (call Model) -> string -> outcome E)
         (load_outcome :
            list (call Model) -> string -> string -> string -> outcome Model)
         (push_outcome :
            list (call Model) -> Model -> string -> string -> string
            -> string -> string -> outcome unit)
         (self : Trainer) (model_names : list string)
         (version status : string) (log log' : list (call Model)),
    model_names <> [] ->
    (forall l n e, train_outcome l n = Returns e -> float_eq e e = true) ->
    train_models_and_register_best float_lt float_eq train_outcome
      load_outcome push_outcome self model_names version status log
    = (log', Returns tt) ->
    exists n,
      In n model_names
      /\ In (n, trainer_scenario self, tuned_or_not self, title status, version)
           (pushes log').
Proof.
  intros E Model lt eq tr ld ps self names version status log log'
    Hne Hrefl H.
  destruct (train_models_and_register_best_run _ _ _ _ _ _ _ _ _ _ _ H)
    as (_ & d & Ht & Hp).
  destruct (train_loop_dict tr (fun e => eq e e = true) Hrefl _ _ _ _ _ Ht)
    as (Hnd & Hd & Hk); [constructor|constructor|].
  assert (Hbest : exists n, In n names /\ is_best lt eq d n = true).
  { destruct names as [|n0 rest]; [congruence|].
    assert (Hm0 : dict_mem d n0 = true) by (apply Hk; right; now left).
    destruct d as [|[k0 v0] d0]; [discriminate|].
    destruct (py_min lt (dict_values ((k0, v0) :: d0))) as [m|e] eqn:Hmin;
      [|discriminate].
    pose proof (py_min_In _ _ _ Hmin) as Hin.
    unfold dict_values in Hin. apply in_map_iff in Hin.
    destruct Hin as ([k v] & Hv & Hin). simpl in Hv. subst v.
    pose proof (NoDup_dict_get _ _ _ Hnd Hin) as Hget.
    exists k. split.
    - assert (Hmem : dict_mem ((k0, v0) :: d0) k = true)
        by (unfold dict_mem; now rewrite Hget).
      apply Hk in Hmem. destruct Hmem as [Hmem|Hmem]; [discriminate|exact Hmem].
    - unfold is_best. rewrite Hget, Hmin.
      rewrite Forall_forall in Hd. exact (Hd _ Hin). }
  destruct Hbest as (n & Hn & Hb).
  exists n. split; [exact Hn|].
  rewrite Hp. apply in_or_app. right.
  apply in_map_iff. exists n. split; [reflexivity|].
  apply filter_In. auto.
Qed.

Lemma train_models_and_register_best_pushes_one_of_three :
  exists n,
    In n ["xgboost"; "lightgbm"; "base"]
    /\ In (n, "start", "Tuned", title "production", "1.0.0")
         (pushes
            (fst (train_models_and_register_best PrimFloat.ltb PrimFloat.eqb
                    errors_half_and_three_quarters loads_by_name
                    registry_accepts (Trainer_init "start" true 15)
                    ["xgboost"; "lightgbm"; "base"] "1.0.0" "production" []))).
Proof.
  apply (train_models_and_register_best_pushes_a_model float string
           PrimFloat.ltb PrimFloat.eqb errors_half_and_three_quarters
           loads_by_name registry_accepts (Trainer_init "start" true 15)
           ["xgboost"; "lightgbm"; "base"] "1.0.0" "production" []).
  - discriminate.
  - intros l n e. unfold errors_half_and_three_quarters.
    destruct (String.eqb n "lightgbm"); intros He; inversion He; reflexivity.
  - reflexivity.
Defined.
